(** * RaycastVolumeRenderer

    A shallow embedding of
    [plugins/mmstd_volume/src/RaycastVolumeRenderer.cpp]: the volume
    upload ([updateVolumeData]), the transfer function refresh
    ([updateTransferFunction]) and the per-frame [Render] call with its
    compute pass and its compositing pass.

    The renderer is stateful code talking to an OpenGL context and to
    three connected modules.  It is written here in a small state monad
    with early [return]; the OpenGL context is a record holding exactly
    the state the renderer reads or writes, and every command the
    renderer issues is also appended to a log. *)

From Stdlib Require Import ZArith List String Bool Lia.
From Stdlib Require Import Floats.SpecFloat.
Import ListNotations.

Local Open Scope Z_scope.

(** ** Single precision numbers

    The C++ [float] is IEEE 754 binary32: 24 bits of precision, maximal
    exponent 128.  The operations are those of the Standard Library's
    executable specification of IEEE arithmetic. *)

Module F32.

Definition prec : Z := 24.
Definition emax : Z := 128.

Definition float : Set := spec_float.

(** Conversion of an integer ([static_cast<float>], or the implicit
    conversion in mixed arithmetic). *)
Definition of_Z (n : Z) : float := binary_normalize prec emax n 0 false.

Definition zero : float := S754_zero false.
Definition one : float := of_Z 1.
Definition two : float := of_Z 2.
Definition eight : float := of_Z 8.

Definition add (x y : float) : float := SFadd prec emax x y.
Definition sub (x y : float) : float := SFsub prec emax x y.
Definition mul (x y : float) : float := SFmul prec emax x y.
Definition div (x y : float) : float := SFdiv prec emax x y.
Definition ltb (x y : float) : bool := SFltb x y.

(** [std::max(a, b)] is [(a < b) ? b : a]. *)
Definition max (a b : float) : float := if ltb a b then b else a.

(** [std::numeric_limits<float>::max()] and [lowest()]. *)
Definition numeric_max : float := SFmax_float prec emax.
Definition numeric_lowest : float := SFopp numeric_max.

(** [static_cast<int>(std::ceil(x))].  The renderer applies it to a
    texture width divided by eight, which is finite and small; the
    other cases are never reached and yield 0 here. *)
Definition ceil_int (x : float) : Z :=
  match x with
  | S754_finite s m e =>
      let v := if s then Z.neg m else Z.pos m in
      if 0 <=? e then v * 2 ^ e else - ((- v) / 2 ^ (- e))
  | _ => 0
  end.

Definition is_infinite (x : float) : bool :=
  match x with S754_infinity _ => true | _ => false end.

Definition is_nan (x : float) : bool :=
  match x with S754_nan => true | _ => false end.

End F32.

Definition vec3 : Set := (F32.float * F32.float * F32.float)%type.
Definition vec4 : Set := (F32.float * F32.float * F32.float * F32.float)%type.

(** ** The OpenGL context *)

Module GL.

(** Enumerators of the OpenGL headers used by the renderer. *)
Definition DEPTH_BUFFER_BIT : Z := 0x100.
Definition COLOR_BUFFER_BIT : Z := 0x4000.
Definition TRIANGLES : Z := 0x4.
Definition SRC_ALPHA : Z := 0x302.
Definition ONE_MINUS_SRC_ALPHA : Z := 0x303.
Definition DEPTH_TEST : Z := 0xB71.
Definition BLEND : Z := 0xBE2.
Definition TEXTURE_1D : Z := 0xDE0.
Definition TEXTURE_2D : Z := 0xDE1.
Definition TEXTURE_3D : Z := 0x806F.
Definition UNSIGNED_BYTE : Z := 0x1401.
Definition SHORT : Z := 0x1402.
Definition UNSIGNED_SHORT : Z := 0x1403.
Definition FLOAT : Z := 0x1406.
Definition RED : Z := 0x1903.
Definition RGBA : Z := 0x1908.
Definition R : Z := 0x2002.
Definition RGBA8 : Z := 0x8058.
Definition R8 : Z := 0x8229.
Definition R32F : Z := 0x822E.
Definition R16I : Z := 0x8233.
Definition R16UI : Z := 0x8234.
Definition RGBA32F : Z := 0x8814.
Definition TEXTURE0 : Z := 0x84C0.
Definition TEXTURE1 : Z := 0x84C1.
Definition TEXTURE2 : Z := 0x84C2.
Definition TEXTURE3 : Z := 0x84C3.
Definition WRITE_ONLY : Z := 0x88B9.
Definition COLOR_ATTACHMENT0_EXT : Z := 0x8CE0.
Definition COLOR_ATTACHMENT1_EXT : Z := 0x8CE1.
Definition TEXTURE_FETCH_BARRIER_BIT : Z := 0x8.

(** The five shader programs built by [create]. *)
Inductive Shader : Set :=
| m_raycast_volume_compute_shdr
| m_raycast_volume_compute_iso_shdr
| m_raycast_volume_compute_aggr_shdr
| m_render_to_framebuffer_shdr
| m_render_to_framebuffer_aggr_shdr.

(** Values handed to [glUniform*]. *)
Inductive UVal : Set :=
| U1i (i : Z)
| U1f (x : F32.float)
| U2f (x y : F32.float)
| U3f (x y z : F32.float)
| UMatrix4 (m : list F32.float).

(** A texture layout as handed to glowl: internal format, width, height,
    depth, format, type. *)
Record Layout : Set := {
  internal_format : Z;
  width : Z;
  height : Z;
  depth : Z;
  format : Z;
  type : Z
}.

(** The commands issued by the renderer.  A dispatch and a draw carry the
    texture and image bindings they run with. *)
Inductive Call : Type :=
| Clear (mask : Z)
| ActiveTexture (unit : Z)
| BindTexture (unit target name : Z)
| BindImageTexture (slot name access : Z)
| UseProgram (p : option Shader)
| Uniform (p : Shader) (name : string) (v : UVal)
| DispatchCompute (p : Shader) (x y z : Z)
    (textures : Z -> Z -> Z) (images : Z -> Z)
| MemoryBarrier (bits : Z)
| TexImage (target name : Z) (layout : Layout) (data : Z)
| DeleteTexture (name : Z)
| GetTexImage (name : Z)
| Enable (cap : Z)
| Disable (cap : Z)
| BlendFunc (sfactor dfactor : Z)
| BlendFuncSeparate (src_rgb dst_rgb src_alpha dst_alpha : Z)
| DrawBuffers (bufs : list Z)
| DrawArrays (p : Shader) (mode first count : Z) (textures : Z -> Z -> Z)
| CreateFramebuffer (name colour depth w h : Z)
| DeleteFramebuffer (name : Z)
| BindFramebuffer (name : Z).

(** The part of the context state the renderer reads or writes.
    [textures u t] is the name bound to target [t] of texture unit [u],
    [images s] the name bound to image unit [s]; 0 is "nothing bound". *)
Record Context : Type := {
  depth_test : bool;
  blend : bool;
  blend_src_rgb : Z;
  blend_dst_rgb : Z;
  blend_src_alpha : Z;
  blend_dst_alpha : Z;
  active_texture : Z;
  textures : Z -> Z -> Z;
  images : Z -> Z;
  program : option Shader;
  draw_buffers : list Z;
  framebuffer : Z;
  light0_position : vec4;
  next_name : Z
}.

Definition set_depth_test (b : bool) (c : Context) : Context :=
  {| depth_test := b; blend := blend c;
     blend_src_rgb := blend_src_rgb c; blend_dst_rgb := blend_dst_rgb c;
     blend_src_alpha := blend_src_alpha c; blend_dst_alpha := blend_dst_alpha c;
     active_texture := active_texture c; textures := textures c;
     images := images c; program := program c;
     draw_buffers := draw_buffers c; framebuffer := framebuffer c;
     light0_position := light0_position c; next_name := next_name c |}.

Definition set_blend (b : bool) (c : Context) : Context :=
  {| depth_test := depth_test c; blend := b;
     blend_src_rgb := blend_src_rgb c; blend_dst_rgb := blend_dst_rgb c;
     blend_src_alpha := blend_src_alpha c; blend_dst_alpha := blend_dst_alpha c;
     active_texture := active_texture c; textures := textures c;
     images := images c; program := program c;
     draw_buffers := draw_buffers c; framebuffer := framebuffer c;
     light0_position := light0_position c; next_name := next_name c |}.

Definition set_blend_func (sr dr sa da : Z) (c : Context) : Context :=
  {| depth_test := depth_test c; blend := blend c;
     blend_src_rgb := sr; blend_dst_rgb := dr;
     blend_src_alpha := sa; blend_dst_alpha := da;
     active_texture := active_texture c; textures := textures c;
     images := images c; program := program c;
     draw_buffers := draw_buffers c; framebuffer := framebuffer c;
     light0_position := light0_position c; next_name := next_name c |}.

Definition set_active_texture (u : Z) (c : Context) : Context :=
  {| depth_test := depth_test c; blend := blend c;
     blend_src_rgb := blend_src_rgb c; blend_dst_rgb := blend_dst_rgb c;
     blend_src_alpha := blend_src_alpha c; blend_dst_alpha := blend_dst_alpha c;
     active_texture := u; textures := textures c;
     images := images c; program := program c;
     draw_buffers := draw_buffers c; framebuffer := framebuffer c;
     light0_position := light0_position c; next_name := next_name c |}.

Definition set_textures (t : Z -> Z -> Z) (c : Context) : Context :=
  {| depth_test := depth_test c; blend := blend c;
     blend_src_rgb := blend_src_rgb c; blend_dst_rgb := blend_dst_rgb c;
     blend_src_alpha := blend_src_alpha c; blend_dst_alpha := blend_dst_alpha c;
     active_texture := active_texture c; textures := t;
     images := images c; program := program c;
     draw_buffers := draw_buffers c; framebuffer := framebuffer c;
     light0_position := light0_position c; next_name := next_name c |}.

Definition set_images (i : Z -> Z) (c : Context) : Context :=
  {| depth_test := depth_test c; blend := blend c;
     blend_src_rgb := blend_src_rgb c; blend_dst_rgb := blend_dst_rgb c;
     blend_src_alpha := blend_src_alpha c; blend_dst_alpha := blend_dst_alpha c;
     active_texture := active_texture c; textures := textures c;
     images := i; program := program c;
     draw_buffers := draw_buffers c; framebuffer := framebuffer c;
     light0_position := light0_position c; next_name := next_name c |}.

Definition set_program (p : option Shader) (c : Context) : Context :=
  {| depth_test := depth_test c; blend := blend c;
     blend_src_rgb := blend_src_rgb c; blend_dst_rgb := blend_dst_rgb c;
     blend_src_alpha := blend_src_alpha c; blend_dst_alpha := blend_dst_alpha c;
     active_texture := active_texture c; textures := textures c;
     images := images c; program := p;
     draw_buffers := draw_buffers c; framebuffer := framebuffer c;
     light0_position := light0_position c; next_name := next_name c |}.

Definition set_draw_buffers (b : list Z) (c : Context) : Context :=
  {| depth_test := depth_test c; blend := blend c;
     blend_src_rgb := blend_src_rgb c; blend_dst_rgb := blend_dst_rgb c;
     blend_src_alpha := blend_src_alpha c; blend_dst_alpha := blend_dst_alpha c;
     active_texture := active_texture c; textures := textures c;
     images := images c; program := program c;
     draw_buffers := b; framebuffer := framebuffer c;
     light0_position := light0_position c; next_name := next_name c |}.

Definition set_framebuffer (f : Z) (c : Context) : Context :=
  {| depth_test := depth_test c; blend := blend c;
     blend_src_rgb := blend_src_rgb c; blend_dst_rgb := blend_dst_rgb c;
     blend_src_alpha := blend_src_alpha c; blend_dst_alpha := blend_dst_alpha c;
     active_texture := active_texture c; textures := textures c;
     images := images c; program := program c;
     draw_buffers := draw_buffers c; framebuffer := f;
     light0_position := light0_position c; next_name := next_name c |}.

Definition set_next_name (n : Z) (c : Context) : Context :=
  {| depth_test := depth_test c; blend := blend c;
     blend_src_rgb := blend_src_rgb c; blend_dst_rgb := blend_dst_rgb c;
     blend_src_alpha := blend_src_alpha c; blend_dst_alpha := blend_dst_alpha c;
     active_texture := active_texture c; textures := textures c;
     images := images c; program := program c;
     draw_buffers := draw_buffers c; framebuffer := framebuffer c;
     light0_position := light0_position c; next_name := n |}.

(** Point update of the binding tables. *)
Definition bind2 (u t name : Z) (f : Z -> Z -> Z) : Z -> Z -> Z :=
  fun u' t' => if (u' =? u) && (t' =? t) then name else f u' t'.

Definition bind1 (s name : Z) (f : Z -> Z) : Z -> Z :=
  fun s' => if s' =? s then name else f s'.

(** The state change of each command. *)
Definition glIsEnabled (cap : Z) (c : Context) : bool :=
  if cap =? DEPTH_TEST then depth_test c
  else if cap =? BLEND then blend c
  else false.

Definition glSetEnabled (cap : Z) (b : bool) (c : Context) : Context :=
  if cap =? DEPTH_TEST then set_depth_test b c
  else if cap =? BLEND then set_blend b c
  else c.

Definition step (call : Call) (c : Context) : Context :=
  match call with
  | ActiveTexture u => set_active_texture u c
  | BindTexture u t name => set_textures (bind2 u t name (textures c)) c
  | BindImageTexture s name _ => set_images (bind1 s name (images c)) c
  | UseProgram p => set_program p c
  | Enable cap => glSetEnabled cap true c
  | Disable cap => glSetEnabled cap false c
  | BlendFunc s d => set_blend_func s d s d c
  | BlendFuncSeparate sr dr sa da => set_blend_func sr dr sa da c
  | DrawBuffers b => set_draw_buffers b c
  | BindFramebuffer f => set_framebuffer f c
  | Clear _ | Uniform _ _ _ | DispatchCompute _ _ _ _ _ _ | MemoryBarrier _
  | TexImage _ _ _ _ | DeleteTexture _ | GetTexImage _
  | DrawArrays _ _ _ _ _ | CreateFramebuffer _ _ _ _ _
  | DeleteFramebuffer _ => c
  end.

End GL.

(** ** Data model *)

(** A glowl texture object: the name of the OpenGL texture it owns and
    the layout it was created with. *)
Record Texture : Set := {
  tex_name : Z;
  tex_layout : GL.Layout
}.

Definition getWidth (t : Texture) : Z := GL.width (tex_layout t).
Definition getHeight (t : Texture) : Z := GL.height (tex_layout t).

(** The vislib framebuffer object [fbo] with a colour and a depth texture
    attachment; [fbo_previous] is the framebuffer binding it replaced
    when it was enabled. *)
Record FramebufferObject : Set := {
  fbo_valid : bool;
  fbo_name : Z;
  fbo_colour : Z;
  fbo_depth : Z;
  fbo_previous : Z
}.

(** The scalar types.  The format switch of [updateVolumeData] names
    four enumerators and has no [default]; the declaration of the
    enumeration is not part of this file, so every enumerator the switch
    does not name is an [OTHER].  For such a value the switch assigns
    none of the locals [internal_format], [format] and [type], and the
    texture layout is then built from them unassigned: [unassigned] is
    what reading the three locals yields in that case. *)
Inductive ScalarType_t : Set :=
| FLOATING_POINT
| UNSIGNED_INTEGER
| SIGNED_INTEGER
| BITS
| OTHER (unassigned : Z * Z * Z).

(** The metadata record of the volumetric data call.  Its declaration is
    not part of this file; the fields carry the type at which the
    renderer stores them.  [GridType] is a C++ enumeration and is kept as
    the integer it converts to, because the renderer applies [!] and [==]
    to it. *)
Record Metadata : Set := {
  GridType : Z;
  Origin : vec3;
  Extents : vec3;
  Resolution : Z * Z * Z;
  ScalarType : ScalarType_t;
  ScalarLength : Z;
  MinValues : nat -> F32.float;
  MaxValues : nat -> F32.float
}.

(** What the volumetric data call holds after one successful round of
    [IDX_GET_EXTENTS], [IDX_GET_METADATA], [IDX_GET_DATA]. *)
Record VolumetricDataCall : Set := {
  FrameID : Z;
  DataHash : Z;
  GetMetadata : Metadata;
  GetData : Z
}.

Inductive CallIdx : Set := IDX_GET_EXTENTS | IDX_GET_METADATA | IDX_GET_DATA.

(** The answer of the data source to one round of the polling loop:
    either one of the three calls returns [false], or all three succeed
    and the call then holds the given content. *)
Inductive Response : Set :=
| Refused (idx : CallIdx)
| Delivered (cd : VolumetricDataCall).

(** The transfer function call: whether the callback succeeds and the
    texture name it then offers. *)
Record CallGetTransferFunction : Set := {
  tf_call_ok : bool;
  OpenGLTexture : Z
}.

(** The camera of a render call, as the two matrices [calc_matrices]
    yields. *)
Record Camera : Set := {
  view_mx : list F32.float;
  proj_mx : list F32.float
}.

(** The chained renderer: its viewport and the effect of its [FnRender]
    callback on the OpenGL context, for a camera and a time. *)
Record ChainedRenderer : Type := {
  ci_viewport : Z * Z;
  FnRender : Camera -> Z -> GL.Context -> bool * GL.Context
}.

(** The incoming render call [cr].  [Time] is the frame number the
    renderer derives from the call's time; [BkgndColour] is the
    background of the calling view when the caller is a rendering view. *)
Record CallRender3D : Set := {
  Time : Z;
  Viewport : Z * Z;
  GetCamera : Camera;
  BkgndColour : option vec3
}.

(** The parameter slots. *)
Record Params : Set := {
  m_mode : Z;
  m_ray_step_ratio_param : F32.float;
  m_use_lighting_slot : bool;
  m_ka_slot : F32.float;
  m_kd_slot : F32.float;
  m_ks_slot : F32.float;
  m_shininess_slot : F32.float;
  m_ambient_color : vec4;
  m_specular_color : vec4;
  m_light_color : vec4;
  m_material_color : vec4;
  m_opacity_threshold : F32.float;
  m_iso_value : F32.float;
  m_opacity : F32.float;
  paramOverride : bool;
  paramMinOverride : F32.float;
  paramMaxOverride : F32.float
}.

(** What a frame is rendered with: the parameters, the two optional
    callees that are only read, the incoming call, and the components of
    the render target image as [glGetTexImage] reads them back after the
    compute pass. *)
Record Env : Type := {
  params : Params;
  m_renderer_callerSlot : option ChainedRenderer;
  m_transferFunction_callerSlot : option CallGetTransferFunction;
  cr : CallRender3D;
  render_target_image : nat -> F32.float
}.

(** The data members of the renderer. *)
Record Renderer : Set := {
  m_volume_datahash : Z;
  m_frame_id : Z;
  m_volume_origin : vec3;
  m_volume_extents : vec3;
  m_volume_resolution : vec3;
  valRange : F32.float * F32.float;
  m_volume_texture : option Texture;
  m_render_target : option Texture;
  m_normal_target : option Texture;
  m_depth_target : option Texture;
  fbo : FramebufferObject;
  tf_texture : Z;
  gui_visible : bool * bool * bool
}.

Definition set_identity (h f : Z) (r : Renderer) : Renderer :=
  {| m_volume_datahash := h; m_frame_id := f;
     m_volume_origin := m_volume_origin r;
     m_volume_extents := m_volume_extents r;
     m_volume_resolution := m_volume_resolution r;
     valRange := valRange r; m_volume_texture := m_volume_texture r;
     m_render_target := m_render_target r;
     m_normal_target := m_normal_target r;
     m_depth_target := m_depth_target r;
     fbo := fbo r; tf_texture := tf_texture r;
     gui_visible := gui_visible r |}.

Definition set_geometry (o e res : vec3) (r : Renderer) : Renderer :=
  {| m_volume_datahash := m_volume_datahash r; m_frame_id := m_frame_id r;
     m_volume_origin := o;
     m_volume_extents := e;
     m_volume_resolution := res;
     valRange := valRange r; m_volume_texture := m_volume_texture r;
     m_render_target := m_render_target r;
     m_normal_target := m_normal_target r;
     m_depth_target := m_depth_target r;
     fbo := fbo r; tf_texture := tf_texture r;
     gui_visible := gui_visible r |}.

Definition set_valRange (v : F32.float * F32.float) (r : Renderer) : Renderer :=
  {| m_volume_datahash := m_volume_datahash r; m_frame_id := m_frame_id r;
     m_volume_origin := m_volume_origin r;
     m_volume_extents := m_volume_extents r;
     m_volume_resolution := m_volume_resolution r;
     valRange := v; m_volume_texture := m_volume_texture r;
     m_render_target := m_render_target r;
     m_normal_target := m_normal_target r;
     m_depth_target := m_depth_target r;
     fbo := fbo r; tf_texture := tf_texture r;
     gui_visible := gui_visible r |}.

Definition set_volume_texture (t : option Texture) (r : Renderer) : Renderer :=
  {| m_volume_datahash := m_volume_datahash r; m_frame_id := m_frame_id r;
     m_volume_origin := m_volume_origin r;
     m_volume_extents := m_volume_extents r;
     m_volume_resolution := m_volume_resolution r;
     valRange := valRange r; m_volume_texture := t;
     m_render_target := m_render_target r;
     m_normal_target := m_normal_target r;
     m_depth_target := m_depth_target r;
     fbo := fbo r; tf_texture := tf_texture r;
     gui_visible := gui_visible r |}.

Definition set_render_target (t : option Texture) (r : Renderer) : Renderer :=
  {| m_volume_datahash := m_volume_datahash r; m_frame_id := m_frame_id r;
     m_volume_origin := m_volume_origin r;
     m_volume_extents := m_volume_extents r;
     m_volume_resolution := m_volume_resolution r;
     valRange := valRange r; m_volume_texture := m_volume_texture r;
     m_render_target := t;
     m_normal_target := m_normal_target r;
     m_depth_target := m_depth_target r;
     fbo := fbo r; tf_texture := tf_texture r;
     gui_visible := gui_visible r |}.

Definition set_normal_target (t : option Texture) (r : Renderer) : Renderer :=
  {| m_volume_datahash := m_volume_datahash r; m_frame_id := m_frame_id r;
     m_volume_origin := m_volume_origin r;
     m_volume_extents := m_volume_extents r;
     m_volume_resolution := m_volume_resolution r;
     valRange := valRange r; m_volume_texture := m_volume_texture r;
     m_render_target := m_render_target r;
     m_normal_target := t;
     m_depth_target := m_depth_target r;
     fbo := fbo r; tf_texture := tf_texture r;
     gui_visible := gui_visible r |}.

Definition set_depth_target (t : option Texture) (r : Renderer) : Renderer :=
  {| m_volume_datahash := m_volume_datahash r; m_frame_id := m_frame_id r;
     m_volume_origin := m_volume_origin r;
     m_volume_extents := m_volume_extents r;
     m_volume_resolution := m_volume_resolution r;
     valRange := valRange r; m_volume_texture := m_volume_texture r;
     m_render_target := m_render_target r;
     m_normal_target := m_normal_target r;
     m_depth_target := t;
     fbo := fbo r; tf_texture := tf_texture r;
     gui_visible := gui_visible r |}.

Definition set_fbo (f : FramebufferObject) (r : Renderer) : Renderer :=
  {| m_volume_datahash := m_volume_datahash r; m_frame_id := m_frame_id r;
     m_volume_origin := m_volume_origin r;
     m_volume_extents := m_volume_extents r;
     m_volume_resolution := m_volume_resolution r;
     valRange := valRange r; m_volume_texture := m_volume_texture r;
     m_render_target := m_render_target r;
     m_normal_target := m_normal_target r;
     m_depth_target := m_depth_target r;
     fbo := f; tf_texture := tf_texture r;
     gui_visible := gui_visible r |}.

Definition set_tf_texture (t : Z) (r : Renderer) : Renderer :=
  {| m_volume_datahash := m_volume_datahash r; m_frame_id := m_frame_id r;
     m_volume_origin := m_volume_origin r;
     m_volume_extents := m_volume_extents r;
     m_volume_resolution := m_volume_resolution r;
     valRange := valRange r; m_volume_texture := m_volume_texture r;
     m_render_target := m_render_target r;
     m_normal_target := m_normal_target r;
     m_depth_target := m_depth_target r;
     fbo := fbo r; tf_texture := t;
     gui_visible := gui_visible r |}.

Definition set_gui_visible (g : bool * bool * bool) (r : Renderer) : Renderer :=
  {| m_volume_datahash := m_volume_datahash r; m_frame_id := m_frame_id r;
     m_volume_origin := m_volume_origin r;
     m_volume_extents := m_volume_extents r;
     m_volume_resolution := m_volume_resolution r;
     valRange := valRange r; m_volume_texture := m_volume_texture r;
     m_render_target := m_render_target r;
     m_normal_target := m_normal_target r;
     m_depth_target := m_depth_target r;
     fbo := fbo r; tf_texture := tf_texture r;
     gui_visible := g |}.

(** Everything a call can change: the OpenGL context, the log of the
    commands the renderer issued (latest first), the error log (latest
    first), the renderer's members, what is connected to the volumetric
    data slot together with the answers it still has to give, and the
    number of invocations of the transfer function call. *)
Record World : Type := {
  gl : GL.Context;
  calls : list GL.Call;
  errors : list string;
  this : Renderer;
  m_volumetricData_callerSlot : option (list Response);
  tf_requests : nat
}.

Definition set_gl (g : GL.Context) (w : World) : World :=
  {| gl := g; calls := calls w; errors := errors w; this := this w;
     m_volumetricData_callerSlot := m_volumetricData_callerSlot w;
     tf_requests := tf_requests w |}.

Definition set_calls (c : list GL.Call) (w : World) : World :=
  {| gl := gl w; calls := c; errors := errors w; this := this w;
     m_volumetricData_callerSlot := m_volumetricData_callerSlot w;
     tf_requests := tf_requests w |}.

Definition set_errors (e : list string) (w : World) : World :=
  {| gl := gl w; calls := calls w; errors := e; this := this w;
     m_volumetricData_callerSlot := m_volumetricData_callerSlot w;
     tf_requests := tf_requests w |}.

Definition set_this (r : Renderer) (w : World) : World :=
  {| gl := gl w; calls := calls w; errors := errors w; this := r;
     m_volumetricData_callerSlot := m_volumetricData_callerSlot w;
     tf_requests := tf_requests w |}.

Definition set_source (s : option (list Response)) (w : World) : World :=
  {| gl := gl w; calls := calls w; errors := errors w; this := this w;
     m_volumetricData_callerSlot := s;
     tf_requests := tf_requests w |}.

Definition set_tf_requests (n : nat) (w : World) : World :=
  {| gl := gl w; calls := calls w; errors := errors w; this := this w;
     m_volumetricData_callerSlot := m_volumetricData_callerSlot w;
     tf_requests := n |}.

(** ** Commands

    A command runs on a world.  It continues with a value, or leaves the
    enclosing C++ function through [return b], or does not come back:
    the polling loop is still waiting when the answers of the data
    source are used up, dereferencing an empty [unique_ptr] has no
    defined behaviour, and the [std::length_error] of a vector that
    cannot be that long is caught nowhere in the renderer. *)

Inductive Stuck : Set := StillPolling | NullPointer | LengthError.

Inductive Outcome (A : Type) : Type :=
| Next (a : A)
| Return (b : bool)
| Abort (s : Stuck).

Arguments Next {A} a.
Arguments Return {A} b.
Arguments Abort {A} s.

Definition Cmd (A : Type) : Type := World -> Outcome A * World.

Definition ret {A : Type} (a : A) : Cmd A := fun w => (Next a, w).

Definition bind {A B : Type} (c : Cmd A) (k : A -> Cmd B) : Cmd B :=
  fun w =>
    match c w with
    | (Next a, w') => k a w'
    | (Return b, w') => (Return b, w')
    | (Abort s, w') => (Abort s, w')
    end.

Definition return_ {A : Type} (b : bool) : Cmd A := fun w => (Return b, w).
Definition abort {A : Type} (s : Stuck) : Cmd A := fun w => (Abort s, w).

Declare Scope cmd_scope.
Delimit Scope cmd_scope with cmd.
Notation "x <- c ;; k" := (bind c (fun x => k))
  (at level 61, c at next level, right associativity) : cmd_scope.
Notation "c ;; k" := (bind c (fun _ => k))
  (at level 61, right associativity) : cmd_scope.
Local Open Scope cmd_scope.

Definition when (b : bool) (c : Cmd unit) : Cmd unit :=
  if b then c else ret tt.

Definition get : Cmd World := fun w => (Next w, w).
Definition modify (f : World -> World) : Cmd unit := fun w => (Next tt, f w).
Definition modify_this (f : Renderer -> Renderer) : Cmd unit :=
  modify (fun w => set_this (f (this w)) w).

(** The result of a C++ function with result type [bool]: its body is a
    command that can only end by [return]. *)
Inductive Result : Set :=
| Returned (b : bool)
| Aborted (s : Stuck).

Definition run (body : Cmd Empty_set) (w : World) : Result * World :=
  match body w with
  | (Next e, _) => match e with end
  | (Return b, w') => (Returned b, w')
  | (Abort s, w') => (Aborted s, w')
  end.

(** Calling such a function from another one. *)
Definition invoke (f : World -> Result * World) : Cmd bool :=
  fun w =>
    match f w with
    | (Returned b, w') => (Next b, w')
    | (Aborted s, w') => (Abort s, w')
    end.

Definition WriteError (msg : string) : Cmd unit :=
  modify (fun w => set_errors (msg :: errors w) w).

(** Issuing an OpenGL command changes the context and is logged. *)
Definition issue (c : GL.Call) : Cmd unit :=
  modify (fun w => set_calls (c :: calls w) (set_gl (GL.step c (gl w)) w)).

Definition glActiveTexture (u : Z) : Cmd unit := issue (GL.ActiveTexture u).

Definition glBindTexture (target name : Z) : Cmd unit :=
  w <- get ;; issue (GL.BindTexture (GL.active_texture (gl w)) target name).

Definition glBindImageTexture (slot name access : Z) : Cmd unit :=
  issue (GL.BindImageTexture slot name access).

Definition glUniform (p : GL.Shader) (name : string) (v : GL.UVal) : Cmd unit :=
  issue (GL.Uniform p name v).

Definition glEnable (cap : Z) : Cmd unit := issue (GL.Enable cap).
Definition glDisable (cap : Z) : Cmd unit := issue (GL.Disable cap).

Definition Dispatch (p : GL.Shader) (x y z : Z) : Cmd unit :=
  w <- get ;;
  issue (GL.DispatchCompute p x y z (GL.textures (gl w)) (GL.images (gl w))).

Definition glDrawArrays (p : GL.Shader) (mode first count : Z) : Cmd unit :=
  w <- get ;;
  issue (GL.DrawArrays p mode first count (GL.textures (gl w))).

(** The glowl texture constructor takes a fresh name and defines the
    image from [data] (0 for [nullptr]); the destructor deletes the
    name. *)
Definition make_texture (target : Z) (layout : GL.Layout) (data : Z)
  : Cmd Texture :=
  w <- get ;;
  let n := GL.next_name (gl w) in
  modify (fun w => set_gl (GL.set_next_name (n + 1) (gl w)) w) ;;
  issue (GL.TexImage target n layout data) ;;
  ret {| tex_name := n; tex_layout := layout |}.

Definition destroy_texture (t : option Texture) : Cmd unit :=
  match t with
  | Some t => issue (GL.DeleteTexture (tex_name t))
  | None => ret tt
  end.

Definition bindTexture (target : Z) (t : Texture) : Cmd unit :=
  glBindTexture target (tex_name t).

Definition bindImage (t : Texture) (slot access : Z) : Cmd unit :=
  glBindImageTexture slot (tex_name t) access.

(** [operator->] of a [unique_ptr]; the renderer does not test the
    pointer before it. *)
Definition deref (t : option Texture) : Cmd Texture :=
  match t with
  | Some t => ret t
  | None => abort NullPointer
  end.

(** ** The renderer *)

Section Renderer.

(** The integer value of the enumerator [core::misc::CARTESIAN].  The
    enumeration is declared in a header that is not part of this file. *)
Variable CARTESIAN : Z.

(** Line 607: [!metadata->GridType == core::misc::CARTESIAN].  The
    negation binds tighter than the comparison: the grid type is first
    converted to [bool] and negated, and the resulting 0 or 1 is compared
    with the enumerator. *)
Definition grid_type_rejected (GridType : Z) : bool :=
  Z.b2z (GridType =? 0) =? CARTESIAN.

(** Lines 629-668: the switch over the scalar type.  It yields the
    message of the error it logs before [return false], or the values
    of the three locals (internal format, format, type) with which the
    upload goes on: those a case has assigned or, when no case applies,
    the unassigned ones. *)
Definition select_format (ScalarType : ScalarType_t) (ScalarLength : Z)
  : (Z * Z * Z) + string :=
  match ScalarType with
  | FLOATING_POINT =>
      if ScalarLength =? 4 then inl (GL.R32F, GL.RED, GL.FLOAT)
      else inr "Floating point values with a length != 4 byte are invalid."%string
  | UNSIGNED_INTEGER =>
      if ScalarLength =? 1 then inl (GL.R8, GL.RED, GL.UNSIGNED_BYTE)
      else if ScalarLength =? 2 then inl (GL.R16UI, GL.RED, GL.UNSIGNED_SHORT)
      else inr "Unsigned integers with a length greater than 2 are invalid."%string
  | SIGNED_INTEGER =>
      if ScalarLength =? 2 then inl (GL.R16I, GL.RED, GL.SHORT)
      else inr "Integers with a length != 2 are invalid."%string
  | BITS => inr "Invalid datatype."%string
  | OTHER unassigned => inl unassigned
  end.

(** Lines 591-595: the do-while loop.  Each round consumes one answer of
    the data source. *)
Fixpoint poll (frameID : Z) (answers : list Response)
  : Cmd VolumetricDataCall :=
  match answers with
  | [] => modify (set_source (Some [])) ;; abort StillPolling
  | Refused _ :: rest => modify (set_source (Some rest)) ;; return_ false
  | Delivered cd :: rest =>
      modify (set_source (Some rest)) ;;
      if negb (FrameID cd =? frameID) then poll frameID rest else ret cd
  end.

(** Lines 597-683: what follows the polling loop, for the content [cd]
    the call then holds. *)
Definition upload_volume (cd : VolumetricDataCall) : Cmd Empty_set :=
  w <- get ;;
  (if negb (m_volume_datahash (this w) =? DataHash cd)
      || negb (m_frame_id (this w) =? FrameID cd)
   then modify_this (set_identity (DataHash cd) (FrameID cd))
   else return_ true) ;;
  let metadata := GetMetadata cd in
  (if grid_type_rejected (GridType metadata)
   then WriteError
          "RaycastVolumeRenderer only works with cartesian grids (for now)" ;;
        return_ false
   else ret tt) ;;
  modify_this (set_geometry (Origin metadata) (Extents metadata)
    (let '(r0, r1, r2) := Resolution metadata in
     (F32.of_Z r0, F32.of_Z r1, F32.of_Z r2))) ;;
  modify_this (set_valRange (MinValues metadata 0%nat, MaxValues metadata 0%nat)) ;;
  fmt <- match select_format (ScalarType metadata) (ScalarLength metadata) with
         | inl fmt => ret fmt
         | inr msg => WriteError msg ;; return_ false
         end ;;
  let '(internal_format, format, type) := fmt in
  let volumedata := GetData cd in
  let volume_layout :=
    let '(r0, r1, r2) := Resolution metadata in
    {| GL.internal_format := internal_format;
       GL.width := r0; GL.height := r1; GL.depth := r2;
       GL.format := format; GL.type := type |} in
  t <- make_texture GL.TEXTURE_3D volume_layout volumedata ;;
  w <- get ;;
  modify_this (set_volume_texture (Some t)) ;;
  destroy_texture (m_volume_texture (this w)) ;;
  return_ true.

(** Lines 584-684. *)
Definition updateVolumeData (frameID : Z) : World -> Result * World :=
  run (
    w <- get ;;
    match m_volumetricData_callerSlot w with
    | None => return_ false
    | Some answers =>
        cd <- poll frameID answers ;;
        upload_volume cd
    end).

(** Lines 686-695. *)
Definition updateTransferFunction (e : Env) : World -> Result * World :=
  run (
    match m_transferFunction_callerSlot e with
    | Some ct =>
        modify (fun w => set_tf_requests (S (tf_requests w)) w) ;;
        when (tf_call_ok ct) (modify_this (set_tf_texture (OpenGLTexture ct)))
    | None => ret tt
    end ;;
    return_ true).

(** *** The framebuffer object of the chained renderer's image *)

Definition fbo_Release : Cmd unit :=
  w <- get ;;
  let f := fbo (this w) in
  issue (GL.DeleteFramebuffer (fbo_name f)) ;;
  modify_this (set_fbo
    {| fbo_valid := false; fbo_name := fbo_name f; fbo_colour := fbo_colour f;
       fbo_depth := fbo_depth f; fbo_previous := fbo_previous f |}).

Definition fbo_Create (width height : Z) : Cmd unit :=
  w <- get ;;
  let n := GL.next_name (gl w) in
  modify (fun w => set_gl (GL.set_next_name (n + 3) (gl w)) w) ;;
  issue (GL.CreateFramebuffer n (n + 1) (n + 2) width height) ;;
  modify_this (set_fbo
    {| fbo_valid := true; fbo_name := n; fbo_colour := n + 1;
       fbo_depth := n + 2; fbo_previous := 0 |}).

Definition fbo_Enable : Cmd unit :=
  w <- get ;;
  let f := fbo (this w) in
  modify_this (set_fbo
    {| fbo_valid := fbo_valid f; fbo_name := fbo_name f;
       fbo_colour := fbo_colour f; fbo_depth := fbo_depth f;
       fbo_previous := GL.framebuffer (gl w) |}) ;;
  issue (GL.BindFramebuffer (fbo_name f)).

Definition fbo_Disable : Cmd unit :=
  w <- get ;; issue (GL.BindFramebuffer (fbo_previous (fbo (this w)))).

Definition fbo_BindColourTexture : Cmd unit :=
  w <- get ;; glBindTexture GL.TEXTURE_2D (fbo_colour (fbo (this w))).

Definition fbo_BindDepthTexture : Cmd unit :=
  w <- get ;; glBindTexture GL.TEXTURE_2D (fbo_depth (fbo (this w))).

(** *** [Render], lines 225-582 *)

Definition first3 (v : vec4) : GL.UVal :=
  let '(x, y, z, _) := v in GL.U3f x y z.

Definition max3 (v : vec3) : F32.float :=
  let '(a, b, c) := v in F32.max a (F32.max b c).

(** Lines 343-346. *)
Definition voxelSize (extents resolution : vec3) : F32.float :=
  let maxResolution := max3 resolution in
  let maxExtents := max3 extents in
  F32.div maxExtents (F32.sub maxResolution F32.one).

(** Lines 341-342. *)
Definition halfVoxelSize (resolution : vec3) : GL.UVal :=
  let half r := F32.div F32.one (F32.mul F32.two (F32.sub r F32.one)) in
  let '(r0, r1, r2) := resolution in
  GL.U3f (half r0) (half r1) (half r2).

(** Line 244: the callback of the chained renderer works on the OpenGL
    context and reports success or failure. *)
Definition call_FnRender (ci : ChainedRenderer) (cam : Camera) (time : Z)
  : Cmd bool :=
  fun w => let '(ok, g) := FnRender ci cam time (gl w) in (Next ok, set_gl g w).

(** Lines 227-250: the chained renderer draws first, into [fbo] in
    modes 0 and 2. *)
Definition render_chained (e : Env) : Cmd unit :=
  let mode := m_mode (params e) in
  match m_renderer_callerSlot e with
  | Some ci =>
      let cam := GetCamera (cr e) in
      when ((mode =? 0) || (mode =? 2)) (
        w <- get ;;
        when (fbo_valid (fbo (this w))) fbo_Release ;;
        fbo_Create (fst (ci_viewport ci)) (snd (ci_viewport ci)) ;;
        fbo_Enable) ;;
      issue (GL.Clear (Z.lor GL.COLOR_BUFFER_BIT GL.DEPTH_BUFFER_BIT)) ;;
      ok <- call_FnRender ci cam (Time (cr e)) ;;
      (if negb ok then return_ false else ret tt) ;;
      when ((mode =? 0) || (mode =? 2)) fbo_Disable
  | None => ret tt
  end.

(** Lines 252-283: the three render targets follow the viewport. *)
Definition create_targets (e : Env) : Cmd unit :=
  let '(vw, vh) := Viewport (cr e) in
  w <- get ;;
  when (match m_render_target (this w) with
        | None => true
        | Some t => negb (getWidth t =? vw) || negb (getHeight t =? vh)
        end) (
    let layout i f t :=
      {| GL.internal_format := i; GL.width := vw; GL.height := vh;
         GL.depth := 1; GL.format := f; GL.type := t |} in
    t <- make_texture GL.TEXTURE_2D (layout GL.RGBA8 GL.RGBA GL.UNSIGNED_BYTE) 0 ;;
    modify_this (set_render_target (Some t)) ;;
    destroy_texture (m_render_target (this w)) ;;
    t <- make_texture GL.TEXTURE_2D (layout GL.RGBA32F GL.RGBA GL.FLOAT) 0 ;;
    modify_this (set_normal_target (Some t)) ;;
    destroy_texture (m_normal_target (this w)) ;;
    t <- make_texture GL.TEXTURE_2D (layout GL.R32F GL.R GL.FLOAT) 0 ;;
    modify_this (set_depth_target (Some t)) ;;
    destroy_texture (m_depth_target (this w))).

(** Lines 303-315: the compute program of the mode. *)
Definition pick_shader (e : Env) : Cmd GL.Shader :=
  let mode := m_mode (params e) in
  if mode =? 0 then
    ok <- invoke (updateTransferFunction e) ;;
    (if negb ok then return_ false else ret tt) ;;
    ret GL.m_raycast_volume_compute_shdr
  else if mode =? 1 then
    ret GL.m_raycast_volume_compute_iso_shdr
  else if mode =? 2 then
    ok <- invoke (updateTransferFunction e) ;;
    (if negb ok then return_ false else ret tt) ;;
    ret GL.m_raycast_volume_compute_aggr_shdr
  else
    WriteError "Unknown raycast mode." ;; return_ false.

(** Lines 318-387: the uniforms every mode sets. *)
Definition shared_uniforms (e : Env) (light : vec4) (compute_shdr : GL.Shader)
  : Cmd (F32.float * F32.float) :=
  let p := params e in
  let cam := GetCamera (cr e) in
  issue (GL.UseProgram (Some compute_shdr)) ;;
  glUniform compute_shdr "view_mx" (GL.UMatrix4 (view_mx cam)) ;;
  glUniform compute_shdr "proj_mx" (GL.UMatrix4 (proj_mx cam)) ;;
  w <- get ;;
  rt <- deref (m_render_target (this w)) ;;
  let rt_resolution := (F32.of_Z (getWidth rt), F32.of_Z (getHeight rt)) in
  glUniform compute_shdr "rt_resolution"
    (GL.U2f (fst rt_resolution) (snd rt_resolution)) ;;
  let '(o0, o1, o2) := m_volume_origin (this w) in
  let '(e0, e1, e2) := m_volume_extents (this w) in
  glUniform compute_shdr "boxMin" (GL.U3f o0 o1 o2) ;;
  glUniform compute_shdr "boxMax"
    (GL.U3f (F32.add o0 e0) (F32.add o1 e1) (F32.add o2 e2)) ;;
  glUniform compute_shdr "halfVoxelSize"
    (halfVoxelSize (m_volume_resolution (this w))) ;;
  glUniform compute_shdr "voxelSize"
    (GL.U1f (voxelSize (m_volume_extents (this w)) (m_volume_resolution (this w)))) ;;
  (if paramOverride p
   then glUniform compute_shdr "valRange"
          (GL.U2f (paramMinOverride p) (paramMaxOverride p))
   else glUniform compute_shdr "valRange"
          (GL.U2f (fst (valRange (this w))) (snd (valRange (this w))))) ;;
  glUniform compute_shdr "rayStepRatio" (GL.U1f (m_ray_step_ratio_param p)) ;;
  glUniform compute_shdr "use_lighting" (GL.U1i (Z.b2z (m_use_lighting_slot p))) ;;
  glUniform compute_shdr "ka" (GL.U1f (m_ka_slot p)) ;;
  glUniform compute_shdr "kd" (GL.U1f (m_kd_slot p)) ;;
  glUniform compute_shdr "ks" (GL.U1f (m_ks_slot p)) ;;
  glUniform compute_shdr "shininess" (GL.U1f (m_shininess_slot p)) ;;
  glUniform compute_shdr "light" (first3 light) ;;
  glUniform compute_shdr "ambient_col" (first3 (m_ambient_color p)) ;;
  glUniform compute_shdr "specular_col" (first3 (m_specular_color p)) ;;
  glUniform compute_shdr "light_col" (first3 (m_light_color p)) ;;
  glUniform compute_shdr "material_col" (first3 (m_material_color p)) ;;
  let bkgndCol :=
    match BkgndColour (cr e) with
    | Some c => c
    | None => (F32.one, F32.one, F32.one)
    end in
  glUniform compute_shdr "background"
    (let '(r, g, b) := bkgndCol in GL.U3f r g b) ;;
  ret rt_resolution.

(** Lines 389-402: the uniforms of the mode, and the visibility of the
    three parameters in the GUI. *)
Definition mode_uniforms (e : Env) (compute_shdr : GL.Shader) : Cmd unit :=
  let p := params e in
  let mode := m_mode p in
  (if mode =? 0 then
     glUniform compute_shdr "opacityThreshold" (GL.U1f (m_opacity_threshold p))
   else if mode =? 1 then
     glUniform compute_shdr "isoValue" (GL.U1f (m_iso_value p)) ;;
     glUniform compute_shdr "opacity" (GL.U1f (m_opacity p))
   else ret tt) ;;
  modify_this (set_gui_visible (mode =? 0, mode =? 1, mode =? 1)).

(** Lines 415-427 and 431-443: the image of the chained renderer. *)
Definition bind_chained_image (e : Env) (compute_shdr : GL.Shader) : Cmd unit :=
  match m_renderer_callerSlot e with
  | Some _ =>
      glActiveTexture GL.TEXTURE2 ;;
      fbo_BindColourTexture ;;
      glUniform compute_shdr "color_tx2D" (GL.U1i 2) ;;
      glActiveTexture GL.TEXTURE3 ;;
      fbo_BindDepthTexture ;;
      glUniform compute_shdr "depth_tx2D" (GL.U1i 3) ;;
      glUniform compute_shdr "use_depth_tx" (GL.U1i 1)
  | None =>
      glUniform compute_shdr "use_depth_tx" (GL.U1i 0)
  end.

(** Lines 404-452: texture and image bindings of the compute pass. *)
Definition bind_compute (e : Env) (compute_shdr : GL.Shader) : Cmd unit :=
  let mode := m_mode (params e) in
  glActiveTexture GL.TEXTURE0 ;;
  w <- get ;;
  vol <- deref (m_volume_texture (this w)) ;;
  bindTexture GL.TEXTURE_3D vol ;;
  glUniform compute_shdr "volume_tx3D" (GL.U1i 0) ;;
  when (mode =? 0) (
    glActiveTexture GL.TEXTURE1 ;;
    glBindTexture GL.TEXTURE_1D (tf_texture (this w)) ;;
    glUniform compute_shdr "tf_tx1D" (GL.U1i 1) ;;
    bind_chained_image e compute_shdr) ;;
  when (mode =? 2) (bind_chained_image e compute_shdr) ;;
  rt <- deref (m_render_target (this w)) ;;
  bindImage rt 0 GL.WRITE_ONLY ;;
  when (mode =? 1) (
    nt <- deref (m_normal_target (this w)) ;;
    bindImage nt 1 GL.WRITE_ONLY ;;
    dt <- deref (m_depth_target (this w)) ;;
    bindImage dt 2 GL.WRITE_ONLY).

(** Lines 458-481: the bindings are released after the dispatch. *)
Definition unbind_compute (e : Env) : Cmd unit :=
  let mode := m_mode (params e) in
  when (mode =? 1) (
    glBindImageTexture 2 0 GL.WRITE_ONLY ;;
    glBindImageTexture 1 0 GL.WRITE_ONLY) ;;
  glBindImageTexture 0 0 GL.WRITE_ONLY ;;
  when ((mode =? 0) || (mode =? 2)) (
    glActiveTexture GL.TEXTURE3 ;;
    glBindTexture GL.TEXTURE_2D 0 ;;
    glActiveTexture GL.TEXTURE2 ;;
    glBindTexture GL.TEXTURE_2D 0) ;;
  when (mode =? 0) (
    glActiveTexture GL.TEXTURE1 ;;
    glBindTexture GL.TEXTURE_1D 0) ;;
  glActiveTexture GL.TEXTURE0 ;;
  glBindTexture GL.TEXTURE_3D 0 ;;
  issue (GL.UseProgram None) ;;
  issue (GL.MemoryBarrier GL.TEXTURE_FETCH_BARRIER_BIT).

(** Lines 299-481: the compute pass. *)
Definition compute_pass (e : Env) (light : vec4) : Cmd unit :=
  compute_shdr <- pick_shader e ;;
  rt_resolution <- shared_uniforms e light compute_shdr ;;
  mode_uniforms e compute_shdr ;;
  bind_compute e compute_shdr ;;
  Dispatch compute_shdr
    (F32.ceil_int (F32.div (fst rt_resolution) F32.eight))
    (F32.ceil_int (F32.div (snd rt_resolution) F32.eight)) 1 ;;
  unbind_compute e.

(** The product of two [int]s, with the wrap-around of 32 bit two's
    complement arithmetic written out. *)
Definition int_wrap (z : Z) : Z := (z + 2 ^ 31) mod 2 ^ 32 - 2 ^ 31.

Definition int_mul (a b : Z) : Z := int_wrap (a * b).

(** Line 493: the [int] handed to the constructor of the vector is
    converted to [size_t]; a negative one becomes a length beyond
    [max_size()]. *)
Definition vector_too_long (count : Z) : bool := count <? 0.

(** Lines 496-500: the scan of the alpha components. *)
Definition scan_alpha (image : nat -> F32.float) (n : nat)
  : F32.float * F32.float :=
  fold_left
    (fun (acc : F32.float * F32.float) (idx : nat) =>
       let val := image (idx * 4 + 3)%nat in
       (if F32.ltb val (fst acc) then val else fst acc,
        if F32.ltb (snd acc) val then val else snd acc))
    (seq 0 n) (F32.numeric_max, F32.numeric_lowest).

(** Lines 483-503: in mode 2 the render target is read back. *)
Definition read_back (e : Env) : Cmd (F32.float * F32.float) :=
  let mode := m_mode (params e) in
  if mode =? 2 then
    glActiveTexture GL.TEXTURE0 ;;
    w <- get ;;
    rt <- deref (m_render_target (this w)) ;;
    bindTexture GL.TEXTURE_2D rt ;;
    let width := getWidth rt in
    let height := getHeight rt in
    let count := int_mul (int_mul width height) 4 in
    (if vector_too_long count then abort LengthError else ret tt) ;;
    issue (GL.GetTexImage (tex_name rt)) ;;
    let size := Z.to_nat count in
    let range := scan_alpha (render_target_image e) (size / 4)%nat in
    glBindTexture GL.TEXTURE_2D 0 ;;
    ret range
  else ret (F32.numeric_max, F32.numeric_lowest).

(** Lines 505-579: the compositing pass draws the render target into the
    current framebuffer. *)
Definition composite_pass (e : Env) (rndr : F32.float * F32.float) : Cmd unit :=
  let mode := m_mode (params e) in
  w <- get ;;
  let state_depth_test := GL.glIsEnabled GL.DEPTH_TEST (gl w) in
  let state_blend := GL.glIsEnabled GL.BLEND (gl w) in
  let state_blend_src_rgb := GL.blend_src_rgb (gl w) in
  let state_blend_src_alpha := GL.blend_src_alpha (gl w) in
  let state_blend_dst_rgb := GL.blend_dst_rgb (gl w) in
  let state_blend_dst_alpha := GL.blend_dst_alpha (gl w) in
  (if (mode =? 0) || (mode =? 2) then
     when state_depth_test (glDisable GL.DEPTH_TEST)
   else if mode =? 1 then
     when (negb state_depth_test) (glEnable GL.DEPTH_TEST)
   else ret tt) ;;
  when (negb state_blend) (glEnable GL.BLEND) ;;
  issue (GL.BlendFunc GL.SRC_ALPHA GL.ONE_MINUS_SRC_ALPHA) ;;
  let fbo_shdr :=
    if mode =? 2 then GL.m_render_to_framebuffer_aggr_shdr
    else GL.m_render_to_framebuffer_shdr in
  issue (GL.UseProgram (Some fbo_shdr)) ;;
  glActiveTexture GL.TEXTURE0 ;;
  rt <- deref (m_render_target (this w)) ;;
  bindTexture GL.TEXTURE_2D rt ;;
  glUniform fbo_shdr "src_tx2D" (GL.U1i 0) ;;
  when (mode =? 1) (
    glActiveTexture GL.TEXTURE1 ;;
    nt <- deref (m_normal_target (this w)) ;;
    bindTexture GL.TEXTURE_2D nt ;;
    glUniform fbo_shdr "normal_tx2D" (GL.U1i 1) ;;
    glActiveTexture GL.TEXTURE2 ;;
    dt <- deref (m_depth_target (this w)) ;;
    bindTexture GL.TEXTURE_2D dt ;;
    glUniform fbo_shdr "depth_tx2D" (GL.U1i 2) ;;
    issue (GL.DrawBuffers [GL.COLOR_ATTACHMENT0_EXT; GL.COLOR_ATTACHMENT1_EXT])) ;;
  when (mode =? 2) (
    glActiveTexture GL.TEXTURE1 ;;
    glBindTexture GL.TEXTURE_1D (tf_texture (this w)) ;;
    glUniform fbo_shdr "tf_tx1D" (GL.U1i 1) ;;
    glUniform fbo_shdr "valRange" (GL.U2f (fst rndr) (snd rndr))) ;;
  glDrawArrays fbo_shdr GL.TRIANGLES 0 6 ;;
  when (mode =? 1) (
    glActiveTexture GL.TEXTURE2 ;;
    glBindTexture GL.TEXTURE_2D 0 ;;
    glActiveTexture GL.TEXTURE1 ;;
    glBindTexture GL.TEXTURE_2D 0) ;;
  when (mode =? 2) (
    glActiveTexture GL.TEXTURE1 ;;
    glBindTexture GL.TEXTURE_1D 0) ;;
  glActiveTexture GL.TEXTURE0 ;;
  glBindTexture GL.TEXTURE_2D 0 ;;
  issue (GL.UseProgram None) ;;
  issue (GL.BlendFuncSeparate state_blend_src_rgb state_blend_dst_rgb
           state_blend_src_alpha state_blend_dst_alpha) ;;
  when (negb state_blend) (glDisable GL.BLEND) ;;
  (if state_depth_test then glEnable GL.DEPTH_TEST
   else glDisable GL.DEPTH_TEST).

Definition Render (e : Env) : World -> Result * World :=
  run (
    render_chained e ;;
    create_targets e ;;
    w <- get ;;
    let light := GL.light0_position (gl w) in
    ok <- invoke (updateVolumeData (Time (cr e))) ;;
    (if negb ok then return_ false else ret tt) ;;
    compute_pass e light ;;
    rndr <- read_back e ;;
    composite_pass e rndr ;;
    return_ true).

End Renderer.

(** ** Observations of the command log *)

(** The compute dispatches of a log, each with the program it runs and
    the texture and image bindings it runs with. *)
Definition dispatches (l : list GL.Call)
  : list (GL.Shader * (Z -> Z -> Z) * (Z -> Z)) :=
  flat_map (fun c => match c with
                     | GL.DispatchCompute p _ _ _ t i => [(p, t, i)]
                     | _ => []
                     end) l.

(** The draw calls of a log. *)
Definition draws (l : list GL.Call) : list (GL.Shader * (Z -> Z -> Z)) :=
  flat_map (fun c => match c with
                     | GL.DrawArrays p _ _ _ t => [(p, t)]
                     | _ => []
                     end) l.

(** The values a uniform of the given name was set to, latest first. *)
Definition uniform_values (name : string) (l : list GL.Call) : list GL.UVal :=
  flat_map (fun c => match c with
                     | GL.Uniform _ n v => if String.eqb n name then [v] else []
                     | _ => []
                     end) l.

(** The names of the uniforms set on a program, latest first. *)
Definition shader_eqb (p q : GL.Shader) : bool :=
  match p, q with
  | GL.m_raycast_volume_compute_shdr, GL.m_raycast_volume_compute_shdr
  | GL.m_raycast_volume_compute_iso_shdr, GL.m_raycast_volume_compute_iso_shdr
  | GL.m_raycast_volume_compute_aggr_shdr, GL.m_raycast_volume_compute_aggr_shdr
  | GL.m_render_to_framebuffer_shdr, GL.m_render_to_framebuffer_shdr
  | GL.m_render_to_framebuffer_aggr_shdr, GL.m_render_to_framebuffer_aggr_shdr =>
      true
  | _, _ => false
  end.

Definition uniforms_of (p : GL.Shader) (l : list GL.Call)
  : list (string * GL.UVal) :=
  flat_map (fun c => match c with
                     | GL.Uniform q n v => if shader_eqb q p then [(n, v)] else []
                     | _ => []
                     end) l.

(** The texture images defined, latest first: texture name and layout. *)
Definition uploads (l : list GL.Call) : list (Z * GL.Layout) :=
  flat_map (fun c => match c with
                     | GL.TexImage _ n layout _ => [(n, layout)]
                     | _ => []
                     end) l.

(** The three uniforms that belong to one mode only. *)
Definition mode_specific (name : string) : bool :=
  String.eqb name "opacityThreshold" || String.eqb name "isoValue"
  || String.eqb name "opacity".

Definition mode_specific_uniforms (l : list GL.Call)
  : list (string * GL.UVal) :=
  flat_map (fun c => match c with
                     | GL.Uniform _ n v => if mode_specific n then [(n, v)] else []
                     | _ => []
                     end) l.

(** [w'] is [w] with more commands in its log, all of kind [P]. *)
Definition extends (P : GL.Call -> bool) (w w' : World) : Prop :=
  exists new, calls w' = new ++ calls w /\ forallb P new = true.

(** A projection of the world has the same value in [w'] as in [w]. *)
Definition keeps {X : Type} (f : World -> X) (w w' : World) : Prop :=
  f w' = f w.

(** Every run of the command relates the world before to the world
    after, whatever the outcome. *)
Definition frames (R : World -> World -> Prop) {A : Type} (c : Cmd A) : Prop :=
  forall w o w', c w = (o, w') -> R w w'.

(** Kinds of commands. *)
Definition is_dispatch_or_draw (c : GL.Call) : bool :=
  match c with
  | GL.DispatchCompute _ _ _ _ _ _ | GL.DrawArrays _ _ _ _ _ => true
  | _ => false
  end.

Definition is_texture_lifetime (c : GL.Call) : bool :=
  match c with
  | GL.TexImage _ _ _ _ | GL.DeleteTexture _ => true
  | _ => false
  end.

Definition is_framebuffer_call (c : GL.Call) : bool :=
  match c with
  | GL.Clear _ | GL.CreateFramebuffer _ _ _ _ _ | GL.DeleteFramebuffer _
  | GL.BindFramebuffer _ => true
  | _ => false
  end.

Definition binds_target (target : Z) (c : GL.Call) : bool :=
  match c with
  | GL.BindTexture _ t _ => t =? target
  | _ => false
  end.

Definition sets_uniform (name : string) (c : GL.Call) : bool :=
  match c with
  | GL.Uniform _ n _ => String.eqb n name
  | _ => false
  end.


(** The cached identity differs from the one the call delivers
    (line 598). *)
Definition identity_changed (cd : VolumetricDataCall) (r : Renderer) : bool :=
  negb (m_volume_datahash r =? DataHash cd) || negb (m_frame_id r =? FrameID cd).

(** The resolution as the renderer stores it (lines 618-620). *)
Definition resolution_as_float (md : Metadata) : vec3 :=
  let '(r0, r1, r2) := Resolution md in (F32.of_Z r0, F32.of_Z r1, F32.of_Z r2).

(** The layout of the volume texture (lines 674-679). *)
Definition volume_layout (md : Metadata) (fmt : Z * Z * Z) : GL.Layout :=
  let '(i, f, t) := fmt in
  let '(r0, r1, r2) := Resolution md in
  {| GL.internal_format := i; GL.width := r0; GL.height := r1; GL.depth := r2;
     GL.format := f; GL.type := t |}.

(** The cached state after the identity, and after identity, geometry
    and value range, were taken from [cd]. *)
Definition with_identity (cd : VolumetricDataCall) (r : Renderer) : Renderer :=
  set_identity (DataHash cd) (FrameID cd) r.

Definition with_geometry (cd : VolumetricDataCall) (r : Renderer) : Renderer :=
  set_valRange (MinValues (GetMetadata cd) 0%nat, MaxValues (GetMetadata cd) 0%nat)
    (set_geometry (Origin (GetMetadata cd)) (Extents (GetMetadata cd))
       (resolution_as_float (GetMetadata cd)) (with_identity cd r)).

(** The environment with another transfer function callee. *)
Definition with_transfer_function (tf : option CallGetTransferFunction)
  (e : Env) : Env :=
  {| params := params e;
     m_renderer_callerSlot := m_renderer_callerSlot e;
     m_transferFunction_callerSlot := tf;
     cr := cr e;
     render_target_image := render_target_image e |}.

(** The compute program of a mode (lines 303-311) and the uniforms that
    belong to the mode (lines 389-398), latest first. *)
Definition compute_program (mode : Z) : option GL.Shader :=
  if mode =? 0 then Some GL.m_raycast_volume_compute_shdr
  else if mode =? 1 then Some GL.m_raycast_volume_compute_iso_shdr
  else if mode =? 2 then Some GL.m_raycast_volume_compute_aggr_shdr
  else None.

Definition uniforms_of_mode (p : Params) : list (string * GL.UVal) :=
  if m_mode p =? 0 then
    [("opacityThreshold"%string, GL.U1f (m_opacity_threshold p))]
  else if m_mode p =? 1 then
    [("opacity"%string, GL.U1f (m_opacity p));
     ("isoValue"%string, GL.U1f (m_iso_value p))]
  else [].

(** The held transfer function texture after the refresh of lines 304
    and 310, which modes 0 and 2 perform. *)
Definition refreshed_tf_texture (e : Env) (r : Renderer) : Z :=
  if (m_mode (params e) =? 0) || (m_mode (params e) =? 2) then
    match m_transferFunction_callerSlot e with
    | Some ct => if tf_call_ok ct then OpenGLTexture ct else tf_texture r
    | None => tf_texture r
    end
  else tf_texture r.

(** What the raycast consumes: the dispatch itself and the uniforms of
    the compute programs that the claims below speak of. *)
Definition is_raycast_input (c : GL.Call) : bool :=
  match c with
  | GL.DispatchCompute _ _ _ _ _ _ => true
  | GL.Uniform _ n _ =>
      String.eqb n "voxelSize" || String.eqb n "opacityThreshold"
      || String.eqb n "isoValue" || String.eqb n "opacity"
      || String.eqb n "use_depth_tx"
  | _ => false
  end.

Definition is_setup_call (c : GL.Call) : bool :=
  is_framebuffer_call c || is_texture_lifetime c.

Section Prefix.

Variable CARTESIAN : Z.

(** Lines 225-290 of [Render]: everything before the compute pass.  It
    hands on the light position read at line 287. *)
Definition render_prefix (e : Env) : Cmd vec4 :=
  render_chained e ;;
  create_targets e ;;
  w <- get ;;
  let light := GL.light0_position (gl w) in
  ok <- invoke (updateVolumeData CARTESIAN (Time (cr e))) ;;
  (if negb ok then return_ false else ret tt) ;;
  ret light.

(** Lines 483-581 of [Render]: everything after the compute pass. *)
Definition render_suffix (e : Env) : Cmd Empty_set :=
  rndr <- read_back e ;;
  composite_pass e rndr ;;
  return_ true.

End Prefix.

(** Every way the command has of not continuing satisfies [E]. *)
Definition exits (E : Result -> Prop) {A : Type} (c : Cmd A) : Prop :=
  forall w o w',
    c w = (o, w') ->
    match o with
    | Next _ => True
    | Return b => E (Returned b)
    | Abort s => E (Aborted s)
    end.

(** The same for a callee, whose [return] lets the caller continue. *)
Definition aborts_only (E : Result -> Prop) (r : Result) : Prop :=
  match r with
  | Returned _ => True
  | Aborted s => E (Aborted s)
  end.

(** Ways a call can end early. *)
Definition fails_or_waits (r : Result) : Prop :=
  r = Returned false \/ r = Aborted StillPolling.

Definition fails_or_null (r : Result) : Prop :=
  r = Returned false \/ r = Aborted NullPointer.

Definition null_only (r : Result) : Prop := r = Aborted NullPointer.

(** The loop comes back as soon as an answer is a refusal or carries the
    requested frame: only answers for other frames are skipped. *)
Fixpoint skipped (frameID : Z) (answers : list Response) : bool :=
  match answers with
  | [] => true
  | Refused _ :: _ => false
  | Delivered cd :: rest => negb (FrameID cd =? frameID) && skipped frameID rest
  end.


(** ** Concrete inputs *)

Module Examples.

Definition context : GL.Context :=
  {| GL.depth_test := true; GL.blend := false;
     GL.blend_src_rgb := 1; GL.blend_dst_rgb := 0;
     GL.blend_src_alpha := 1; GL.blend_dst_alpha := 0;
     GL.active_texture := GL.TEXTURE0;
     GL.textures := fun _ _ => 0; GL.images := fun _ => 0;
     GL.program := None; GL.draw_buffers := []; GL.framebuffer := 0;
     GL.light0_position := (F32.zero, F32.zero, F32.one, F32.zero);
     GL.next_name := 1 |}.

Definition zero3 : vec3 := (F32.zero, F32.zero, F32.zero).
Definition one3 : vec3 := (F32.one, F32.one, F32.one).
Definition white : vec4 := (F32.one, F32.one, F32.one, F32.one).

(** A renderer that has not uploaded anything yet. *)
Definition renderer : Renderer :=
  {| m_volume_datahash := 0; m_frame_id := 0;
     m_volume_origin := zero3; m_volume_extents := zero3;
     m_volume_resolution := zero3;
     valRange := (F32.zero, F32.zero);
     m_volume_texture := None;
     m_render_target := None; m_normal_target := None;
     m_depth_target := None;
     fbo := {| fbo_valid := false; fbo_name := 0; fbo_colour := 0;
               fbo_depth := 0; fbo_previous := 0 |};
     tf_texture := 0;
     gui_visible := (true, true, true) |}.

(** Metadata of a volume with unit extents and values in [0, 1]. *)
Definition metadata (grid : Z) (st : ScalarType_t) (len : Z)
  (res : Z * Z * Z) : Metadata :=
  {| GridType := grid; Origin := zero3; Extents := one3;
     Resolution := res; ScalarType := st; ScalarLength := len;
     MinValues := fun _ => F32.zero; MaxValues := fun _ => F32.one |}.

Definition volume (hash frame : Z) (md : Metadata) : VolumetricDataCall :=
  {| FrameID := frame; DataHash := hash; GetMetadata := md; GetData := 4096 |}.

(** A world whose data source gives the listed answers. *)
Definition world (answers : list Response) : World :=
  {| gl := context; calls := []; errors := []; this := renderer;
     m_volumetricData_callerSlot := Some answers; tf_requests := 0 |}.

(** The parameter values the constructor installs, with a chosen mode. *)
Definition parameters (mode : Z) : Params :=
  {| m_mode := mode;
     m_ray_step_ratio_param := F32.one;
     m_use_lighting_slot := false;
     m_ka_slot := F32.div F32.one (F32.of_Z 10);
     m_kd_slot := F32.div F32.one (F32.of_Z 2);
     m_ks_slot := F32.div (F32.of_Z 4) (F32.of_Z 10);
     m_shininess_slot := F32.of_Z 10;
     m_ambient_color := white;
     m_specular_color := white;
     m_light_color := white;
     m_material_color :=
       (F32.div (F32.of_Z 95) (F32.of_Z 100),
        F32.div (F32.of_Z 67) (F32.of_Z 100),
        F32.div (F32.of_Z 47) (F32.of_Z 100), F32.one);
     m_opacity_threshold := F32.one;
     m_iso_value := F32.div F32.one (F32.of_Z 2);
     m_opacity := F32.one;
     paramOverride := false;
     paramMinOverride := F32.zero;
     paramMaxOverride := F32.one |}.

(** A frame at time 1 on a 16 by 8 viewport. *)
Definition env (mode : Z) (ci : option ChainedRenderer)
  (tf : option CallGetTransferFunction) : Env :=
  {| params := parameters mode;
     m_renderer_callerSlot := ci;
     m_transferFunction_callerSlot := tf;
     cr := {| Time := 1; Viewport := (16, 8);
              GetCamera := {| view_mx := []; proj_mx := [] |};
              BkgndColour := None |};
     render_target_image := fun _ => F32.zero |}.

(** A chained renderer that succeeds and leaves the context alone. *)
Definition chained : ChainedRenderer :=
  {| ci_viewport := (16, 8); FnRender := fun _ _ g => (true, g) |}.

(** A transfer function call that succeeds with texture 77. *)
Definition transfer_function : CallGetTransferFunction :=
  {| tf_call_ok := true; OpenGLTexture := 77 |}.

(** A float volume of the given grid type and resolution, hash 5,
    frame 1. *)
Definition float_volume (grid : Z) (res : Z * Z * Z) : VolumetricDataCall :=
  volume 5 1 (metadata grid FLOATING_POINT 4 res).

End Examples.

(** * Further observations *)

(** The layout of a render target of the given formats on a viewport
    (lines 256-282). *)
Definition target_layout (viewport : Z * Z) (i f t : Z) : GL.Layout :=
  {| GL.internal_format := i; GL.width := fst viewport;
     GL.height := snd viewport; GL.depth := 1; GL.format := f; GL.type := t |}.

(** The cached render target has the size of the viewport (the negation
    of the test of lines 253-254). *)
Definition targets_fit (viewport : Z * Z) (r : Renderer) : bool :=
  match m_render_target r with
  | None => false
  | Some t => (getWidth t =? fst viewport) && (getHeight t =? snd viewport)
  end.

(** The group counts of the compute dispatches of a log, latest first. *)
Definition dispatch_groups (l : list GL.Call) : list (Z * Z * Z) :=
  flat_map (fun c => match c with
                     | GL.DispatchCompute _ x y z _ _ => [(x, y, z)]
                     | _ => []
                     end) l.

(** The value range the compute programs are given (lines 349-356). *)
Definition valRange_uniform (p : Params) (r : Renderer) : GL.UVal :=
  if paramOverride p then GL.U2f (paramMinOverride p) (paramMaxOverride p)
  else GL.U2f (fst (valRange r)) (snd (valRange r)).

(** The blend and depth test state of a context. *)
Definition blend_state (g : GL.Context) : bool * bool * (Z * Z * Z * Z) :=
  (GL.depth_test g, GL.blend g,
   (GL.blend_src_rgb g, GL.blend_dst_rgb g,
    GL.blend_src_alpha g, GL.blend_dst_alpha g)).

(** The program of the compositing pass (lines 525-528). *)
Definition composite_program (mode : Z) : GL.Shader :=
  if mode =? 2 then GL.m_render_to_framebuffer_aggr_shdr
  else GL.m_render_to_framebuffer_shdr.

(** The context in which each draw call of a log was issued, when the
    log (latest first) started in context [g]. *)
Fixpoint draw_contexts (l : list GL.Call) (g : GL.Context) : list GL.Context :=
  match l with
  | [] => []
  | c :: l' =>
      match c with
      | GL.DrawArrays _ _ _ _ _ => [fold_right GL.step g l']
      | _ => []
      end ++ draw_contexts l' g
  end.

(** The range the compositing pass of mode 2 is given (lines 484-500). *)
Definition read_back_range (e : Env) (rt : Texture) : F32.float * F32.float :=
  scan_alpha (render_target_image e)
    (Z.to_nat (int_mul (int_mul (getWidth rt) (getHeight rt)) 4) / 4).

(** The number of work groups along one axis of the render target
    (lines 455-456). *)
Definition group_count (size : Z) : Z :=
  F32.ceil_int (F32.div (F32.of_Z size) F32.eight).

(** [f] holds of the [count] integers from [start] on. *)
Fixpoint all_from (f : Z -> bool) (start : Z) (count : nat) : bool :=
  match count with
  | O => true
  | S k => f start && all_from f (start + 1) k
  end.

(** The members a frame has no reason to touch when neither the
    viewport nor the volume has changed: the cached identity, the volume
    texture and the three render targets. *)
Definition steady_members (w : World)
  : Z * Z * option Texture * option Texture * option Texture * option Texture :=
  (m_volume_datahash (this w), m_frame_id (this w), m_volume_texture (this w),
   m_render_target (this w), m_normal_target (this w), m_depth_target (this w)).

Definition no_texture_lifetime (c : GL.Call) : bool :=
  negb (is_texture_lifetime c).

(** The commands that create or delete an object holding texture
    images: a texture, or the framebuffer object with its colour and
    depth textures. *)
Definition is_object_lifetime (c : GL.Call) : bool :=
  match c with
  | GL.TexImage _ _ _ _ | GL.DeleteTexture _
  | GL.CreateFramebuffer _ _ _ _ _ | GL.DeleteFramebuffer _ => true
  | _ => false
  end.

Definition no_object_lifetime (c : GL.Call) : bool :=
  negb (is_object_lifetime c).

(** What lines 235-237 issue, latest first: with a chained renderer,
    modes 0 and 2 release the framebuffer object if it is valid and
    create it anew, with a colour and a depth texture of the size of the
    chained renderer's viewport. *)
Definition fbo_recreated (e : Env) (w : World) : list GL.Call :=
  match m_renderer_callerSlot e with
  | Some ci =>
      if (m_mode (params e) =? 0) || (m_mode (params e) =? 2) then
        let n := GL.next_name (gl w) in
        GL.CreateFramebuffer n (n + 1) (n + 2)
          (fst (ci_viewport ci)) (snd (ci_viewport ci))
        :: (if fbo_valid (fbo (this w))
            then [GL.DeleteFramebuffer (fbo_name (fbo (this w)))]
            else [])
      else []
  | None => []
  end.

(** * The shader setup: [create] (lines 124-186) *)

Module Create.

(** The six [ShaderSource] locals of [create]. *)
Inductive Source : Set :=
| compute_shader_src
| compute_iso_shader_src
| compute_aggr_shader_src
| vertex_shader_src
| fragment_shader_src
| fragment_shader_aggr_src.

(** The calls [create] makes: on the shader source factory, and
    [Compile] and [Link] on the five programs. *)
Inductive Step : Set :=
| MakeShaderSource (name : string) (into : Source)
| Compile (program : GL.Shader) (sources : list Source)
| Link (program : GL.Shader).

(** What the three handlers distinguish. *)
Inductive Exception : Set :=
| CompileException (CompileActionName GetMsgA : string)
| VislibException (GetMsgA : string)
| OtherException.

(** A call returns [true] or [false], or throws. *)
Inductive Answer : Set :=
| Returns (ok : bool)
| Throws (ex : Exception).

(** The calls made so far, latest first, and the log. *)
Record State : Set := {
  attempted : list Step;
  log : list string
}.

Inductive Outcome (A : Type) : Type :=
| Next (a : A)
| Return (b : bool)
| Raise (ex : Exception).

Arguments Next {A} a.
Arguments Return {A} b.
Arguments Raise {A} ex.

Definition Cmd (A : Type) : Type := State -> Outcome A * State.

Definition ret {A : Type} (a : A) : Cmd A := fun st => (Next a, st).

Definition bind {A B : Type} (c : Cmd A) (k : A -> Cmd B) : Cmd B :=
  fun st =>
    match c st with
    | (Next a, st') => k a st'
    | (Return b, st') => (Return b, st')
    | (Raise ex, st') => (Raise ex, st')
    end.

Definition return_ {A : Type} (b : bool) : Cmd A := fun st => (Return b, st).

Definition WriteMsg (msg : string) (st : State) : State :=
  {| attempted := attempted st; log := msg :: log st |}.

Definition nl : string := String (Ascii.ascii_of_nat 10) EmptyString.

Section Steps.

(** The shader source factory, the compiler and the linker. *)
Variable answer : Step -> Answer.

Definition call (s : Step) : Cmd bool :=
  fun st =>
    let st' := {| attempted := s :: attempted st; log := log st |} in
    match answer s with
    | Returns ok => (Next ok, st')
    | Throws ex => (Raise ex, st')
    end.

(** [if (!s) return false;] *)
Definition require (s : Step) : Cmd unit :=
  bind (call s) (fun ok => if negb ok then return_ false else ret tt).

(** Lines 126-168: the [try] block. *)
Definition try_block : Cmd unit :=
  bind (require (MakeShaderSource "RaycastVolumeRenderer::compute"
                   compute_shader_src)) (fun _ =>
  bind (require (Compile GL.m_raycast_volume_compute_shdr
                   [compute_shader_src])) (fun _ =>
  bind (require (Link GL.m_raycast_volume_compute_shdr)) (fun _ =>
  bind (require (MakeShaderSource "RaycastVolumeRenderer::compute_iso"
                   compute_iso_shader_src)) (fun _ =>
  bind (require (Compile GL.m_raycast_volume_compute_iso_shdr
                   [compute_iso_shader_src])) (fun _ =>
  bind (require (Link GL.m_raycast_volume_compute_iso_shdr)) (fun _ =>
  bind (require (MakeShaderSource "RaycastVolumeRenderer::compute_aggr"
                   compute_aggr_shader_src)) (fun _ =>
  bind (require (Compile GL.m_raycast_volume_compute_aggr_shdr
                   [compute_aggr_shader_src])) (fun _ =>
  bind (require (Link GL.m_raycast_volume_compute_aggr_shdr)) (fun _ =>
  bind (require (MakeShaderSource "RaycastVolumeRenderer::vert"
                   vertex_shader_src)) (fun _ =>
  bind (require (MakeShaderSource "RaycastVolumeRenderer::frag"
                   fragment_shader_src)) (fun _ =>
  bind (require (MakeShaderSource "RaycastVolumeRenderer::frag_aggr"
                   fragment_shader_aggr_src)) (fun _ =>
  bind (require (Compile GL.m_render_to_framebuffer_shdr
                   [vertex_shader_src; fragment_shader_src])) (fun _ =>
  bind (require (Link GL.m_render_to_framebuffer_shdr)) (fun _ =>
  bind (require (Compile GL.m_render_to_framebuffer_aggr_shdr
                   [vertex_shader_src; fragment_shader_aggr_src])) (fun _ =>
  require (Link GL.m_render_to_framebuffer_aggr_shdr)))))))))))))))).

(** Lines 169-183: the message of each handler. *)
Definition handler_message (ex : Exception) : string :=
  match ex with
  | CompileException action msg =>
      "Unable to compile shader (@" ++ action ++ "): " ++ msg ++ nl
  | VislibException msg => "Unable to compile shader: " ++ msg ++ nl
  | OtherException => "Unable to compile shader: Unknown exception" ++ nl
  end.

Definition create (st : State) : bool * State :=
  match try_block st with
  | (Next _, st') => (true, st')
  | (Return b, st') => (b, st')
  | (Raise ex, st') => (false, WriteMsg (handler_message ex) st')
  end.

(** The calls of [create] in the order of the source text. *)
Definition steps : list Step :=
  [ MakeShaderSource "RaycastVolumeRenderer::compute" compute_shader_src;
    Compile GL.m_raycast_volume_compute_shdr [compute_shader_src];
    Link GL.m_raycast_volume_compute_shdr;
    MakeShaderSource "RaycastVolumeRenderer::compute_iso" compute_iso_shader_src;
    Compile GL.m_raycast_volume_compute_iso_shdr [compute_iso_shader_src];
    Link GL.m_raycast_volume_compute_iso_shdr;
    MakeShaderSource "RaycastVolumeRenderer::compute_aggr" compute_aggr_shader_src;
    Compile GL.m_raycast_volume_compute_aggr_shdr [compute_aggr_shader_src];
    Link GL.m_raycast_volume_compute_aggr_shdr;
    MakeShaderSource "RaycastVolumeRenderer::vert" vertex_shader_src;
    MakeShaderSource "RaycastVolumeRenderer::frag" fragment_shader_src;
    MakeShaderSource "RaycastVolumeRenderer::frag_aggr" fragment_shader_aggr_src;
    Compile GL.m_render_to_framebuffer_shdr
      [vertex_shader_src; fragment_shader_src];
    Link GL.m_render_to_framebuffer_shdr;
    Compile GL.m_render_to_framebuffer_aggr_shdr
      [vertex_shader_src; fragment_shader_aggr_src];
    Link GL.m_render_to_framebuffer_aggr_shdr ].

Definition succeeds (s : Step) : bool :=
  match answer s with
  | Returns true => true
  | _ => false
  end.

(** The calls of a list up to and including the first that does not
    return [true]. *)
Fixpoint tried (l : list Step) : list Step :=
  match l with
  | [] => []
  | s :: l' => s :: (if succeeds s then tried l' else [])
  end.

(** What is logged when the first call of [l] that does not return
    [true] is reached. *)
Fixpoint logged (l : list Step) : list string :=
  match l with
  | [] => []
  | s :: l' =>
      match answer s with
      | Returns true => logged l'
      | Returns false => []
      | Throws ex => [handler_message ex]
      end
  end.

End Steps.

End Create.

(** * The extents: [GetExtents] (lines 190-223) *)

Module Extents.

Section GetExtents.

(** Boxes and the union of two boxes. *)
Variable Box : Type.
Variable Union : Box -> Box -> Box.

Record BoundingBoxes : Type := {
  BoundingBox : Box;
  ClipBox : Box
}.

(** A render call as far as [GetExtents] reads and writes it; [Time] is
    the frame number [static_cast<int>(cr.Time())]. *)
Record Call : Type := {
  Time : Z;
  TimeFramesCount : Z;
  AccessBoundingBoxes : BoundingBoxes
}.

Definition SetTimeFramesCount (n : Z) (c : Call) : Call :=
  {| Time := Time c; TimeFramesCount := n;
     AccessBoundingBoxes := AccessBoundingBoxes c |}.

Definition SetBoxes (bbox cbox : Box) (c : Call) : Call :=
  {| Time := Time c; TimeFramesCount := TimeFramesCount c;
     AccessBoundingBoxes := {| BoundingBox := bbox; ClipBox := cbox |} |}.

(** What the data source answers once a frame is requested of it:
    whether the two callbacks succeed, and what the call then holds. *)
Record DataCall : Type := {
  get_extents_ok : bool;
  get_metadata_ok : bool;
  FrameCount : Z;
  ObjectSpaceBBox : Box;
  ObjectSpaceClipBox : Box
}.

(** The incoming call [cr], the callbacks invoked on the data source
    with the frame requested, latest first, and what the call of the
    chained renderer holds. *)
Record World : Type := {
  cr : Call;
  requests : list (Z * CallIdx);
  ci_call : option Call
}.

Definition set_cr (c : Call) (w : World) : World :=
  {| cr := c; requests := requests w; ci_call := ci_call w |}.

Definition request (frame : Z) (idx : CallIdx) (w : World) : World :=
  {| cr := cr w; requests := (frame, idx) :: requests w; ci_call := ci_call w |}.

Definition set_ci_call (c : Call) (w : World) : World :=
  {| cr := cr w; requests := requests w; ci_call := Some c |}.

(** [cd] is the data source, a function of the frame requested, and
    [ci] the [FnGetExtents] callback of the chained renderer, which
    works on the call it is handed; either may be absent. *)
Definition GetExtents (cd : option (Z -> DataCall))
  (ci : option (Call -> bool * Call)) (w : World) : bool * World :=
  match cd with
  | None => (false, w)
  | Some source =>
      let req_frame := Time (cr w) in
      let data := source req_frame in
      let w := request req_frame IDX_GET_EXTENTS w in
      if negb (get_extents_ok data) then (false, w) else
      let w := request req_frame IDX_GET_METADATA w in
      if negb (get_metadata_ok data) then (false, w) else
      let w := set_cr (SetTimeFramesCount (FrameCount data) (cr w)) w in
      let bbox := ObjectSpaceBBox data in
      let cbox := ObjectSpaceClipBox data in
      match ci with
      | Some FnGetExtents =>
          let '(ok, c) := FnGetExtents (cr w) in
          let w := set_ci_call c w in
          if negb ok then (false, w) else
          let bbox := Union bbox (BoundingBox (AccessBoundingBoxes c)) in
          let cbox := Union cbox (ClipBox (AccessBoundingBoxes c)) in
          (true, set_cr (SetBoxes bbox cbox (cr w)) w)
      | None => (true, set_cr (SetBoxes bbox cbox (cr w)) w)
      end
  end.

End GetExtents.

Arguments BoundingBox {Box} _.
Arguments ClipBox {Box} _.
Arguments Time {Box} _.
Arguments TimeFramesCount {Box} _.
Arguments AccessBoundingBoxes {Box} _.
Arguments SetTimeFramesCount {Box} _ _.
Arguments get_extents_ok {Box} _.
Arguments get_metadata_ok {Box} _.
Arguments FrameCount {Box} _.
Arguments ObjectSpaceBBox {Box} _.
Arguments ObjectSpaceClipBox {Box} _.
Arguments cr {Box} _.
Arguments requests {Box} _.
Arguments ci_call {Box} _.
Arguments GetExtents {Box} _ _ _ _.

End Extents.

(** * Properties *)

(** ** Commands: general facts *)

Lemma bind_Next {A B : Type} (c : Cmd A) (k : A -> Cmd B) w a w1 :
  c w = (Next a, w1) -> bind c k w = k a w1.
Proof. intros H. unfold bind. now rewrite H. Qed.

Lemma bind_inv {A B : Type} (c : Cmd A) (k : A -> Cmd B) w o w' :
  bind c k w = (o, w') ->
  (exists a w1, c w = (Next a, w1) /\ k a w1 = (o, w'))
  \/ (exists b, c w = (Return b, w') /\ o = Return b)
  \/ (exists s, c w = (Abort s, w') /\ o = Abort s).
Proof.
  unfold bind. destruct (c w) as [[a | b | s] w1]; intros H.
  - left. eauto.
  - right. left. inversion H. eauto.
  - right. right. inversion H. eauto.
Qed.

Lemma run_inv (body : Cmd Empty_set) w r w' :
  run body w = (r, w') ->
  (exists b, body w = (Return b, w') /\ r = Returned b)
  \/ (exists s, body w = (Abort s, w') /\ r = Aborted s).
Proof.
  unfold run. destruct (body w) as [[[] | b | s] w1]; intros H;
    inversion H; eauto.
Qed.

Section Frames.

Variable R : World -> World -> Prop.
Hypothesis R_refl : forall w, R w w.
Hypothesis R_trans : forall a b c, R a b -> R b c -> R a c.

Lemma frames_ret {A : Type} (a : A) : frames R (ret a).
Proof. intros w o w' H. inversion H. apply R_refl. Qed.

Lemma frames_return {A : Type} (b : bool) : frames R (@return_ A b).
Proof. intros w o w' H. inversion H. apply R_refl. Qed.

Lemma frames_abort {A : Type} (s : Stuck) : frames R (@abort A s).
Proof. intros w o w' H. inversion H. apply R_refl. Qed.

Lemma frames_get : frames R get.
Proof. intros w o w' H. inversion H. apply R_refl. Qed.

Lemma frames_modify (f : World -> World) :
  (forall w, R w (f w)) -> frames R (modify f).
Proof. intros Hf w o w' H. inversion H. apply Hf. Qed.

Lemma frames_bind {A B : Type} (c : Cmd A) (k : A -> Cmd B) :
  frames R c -> (forall a, frames R (k a)) -> frames R (bind c k).
Proof.
  intros Hc Hk w o w' H.
  destruct (bind_inv _ _ _ _ _ H) as [(a & w1 & H1 & H2) | [(b & H1 & _) | (s & H1 & _)]].
  - eapply R_trans; [eapply Hc | eapply Hk]; eauto.
  - eapply Hc; eauto.
  - eapply Hc; eauto.
Qed.

Lemma frames_when (b : bool) (c : Cmd unit) :
  (b = true -> frames R c) -> frames R (when b c).
Proof. destruct b; intros H; [now apply H | apply frames_ret]. Qed.

Lemma frames_deref (t : option Texture) : frames R (deref t).
Proof. destruct t; [apply frames_ret | apply frames_abort]. Qed.

Lemma frames_invoke (f : World -> Result * World) :
  (forall w r w', f w = (r, w') -> R w w') -> frames R (invoke f).
Proof.
  intros Hf w o w' H. unfold invoke in H.
  destruct (f w) as [[b | s] w1] eqn:E; inversion H; subst; eapply Hf; eauto.
Qed.

Lemma frames_run (body : Cmd Empty_set) :
  frames R body -> forall w r w', run body w = (r, w') -> R w w'.
Proof.
  intros Hb w r w' H.
  destruct (run_inv _ _ _ _ H) as [(b & H1 & _) | (s & H1 & _)];
    eapply Hb; eauto.
Qed.

Lemma frames_poll (frameID : Z) (answers : list Response) :
  (forall s w, R w (set_source s w)) -> frames R (poll frameID answers).
Proof.
  intros Hs. induction answers as [| [idx | cd] rest IH]; simpl.
  - apply frames_bind; [apply frames_modify; intros; apply Hs | intros; apply frames_abort].
  - apply frames_bind; [apply frames_modify; intros; apply Hs | intros; apply frames_return].
  - apply frames_bind; [apply frames_modify; intros; apply Hs |].
    intros _. destruct (negb (FrameID cd =? frameID)); [exact IH | apply frames_ret].
Qed.

Lemma frames_call_FnRender ci cam time :
  (forall g w, R w (set_gl g w)) -> frames R (call_FnRender ci cam time).
Proof.
  intros Hg w o w' H. unfold call_FnRender in H.
  destruct (FnRender ci cam time (gl w)) as [ok g]. inversion H. apply Hg.
Qed.

End Frames.

(** The two relations used below: a projection of the world is kept,
    or the log grows by commands of one kind. *)

Lemma keeps_refl {X : Type} (f : World -> X) w : keeps f w w.
Proof. reflexivity. Qed.

Lemma keeps_trans {X : Type} (f : World -> X) a b c :
  keeps f a b -> keeps f b c -> keeps f a c.
Proof. unfold keeps. congruence. Qed.

Lemma extends_refl P w : extends P w w.
Proof. now exists []. Qed.

Lemma extends_trans P a b c : extends P a b -> extends P b c -> extends P a c.
Proof.
  intros (n1 & H1 & F1) (n2 & H2 & F2). exists (n2 ++ n1). split.
  - now rewrite H2, H1, app_assoc.
  - now rewrite forallb_app, F1, F2.
Qed.

Lemma extends_same P w w' : calls w' = calls w -> extends P w w'.
Proof. intros H. now exists []. Qed.

Lemma extends_cons P c w w' :
  calls w' = c :: calls w -> P c = true -> extends P w w'.
Proof. intros H Hc. exists [c]. split; [exact H | simpl; now rewrite Hc]. Qed.

Lemma extends_weaken (P Q : GL.Call -> bool) w w' :
  (forall c, P c = true -> Q c = true) -> extends P w w' -> extends Q w w'.
Proof.
  intros HPQ (new & H & F). exists new. split; [exact H |].
  rewrite forallb_forall in *. auto.
Qed.

(** What is known of the mode decides some tests. *)
Ltac mode_absurd :=
  exfalso;
  repeat match goal with
         | E : (_ || _)%bool = true |- _ => apply orb_true_iff in E; destruct E
         | E : (_ || _)%bool = false |- _ => apply orb_false_iff in E; destruct E
         | E : (_ =? _) = true |- _ => apply Z.eqb_eq in E
         | E : (_ =? _) = false |- _ => apply Z.eqb_neq in E
         end;
  lia.

Ltac keeps_side :=
  first [ apply keeps_refl | apply keeps_trans
        | intros; reflexivity ].

Ltac extends_side :=
  first [ apply extends_refl | apply extends_trans
        | intros; apply extends_same; reflexivity
        | intros; eapply extends_cons; [reflexivity | reflexivity] ].

(** The structural rules, applied as far as they go.  [side] closes the
    goals about single state changes; the branches that contradict what
    is known of the mode are dropped. *)
Ltac frames_go side :=
  repeat first
    [ apply frames_ret; solve [side]
    | apply frames_return; solve [side]
    | apply frames_abort; solve [side]
    | apply frames_get; solve [side]
    | apply frames_deref; solve [side]
    | apply frames_modify; solve [side]
    | apply frames_call_FnRender; solve [side]
    | apply frames_poll; solve [side]
    | apply frames_bind; try solve [side]
    | apply frames_when;
      [ solve [side]
      | let E := fresh "E" in intro E; try solve [mode_absurd] ]
    | apply frames_invoke; apply frames_run; try solve [side]
    | match goal with
      | |- forall _, _ => intro
      | |- frames _ (if ?b then _ else _) =>
          let E := fresh "E" in destruct b eqn:E; try solve [mode_absurd]
      | |- frames _ (match ?x with _ => _ end) => destruct x
      | |- frames _ (let _ := _ in _) => cbv zeta
      end ].

Ltac unfold_commands :=
  unfold render_chained, create_targets, compute_pass, read_back,
    composite_pass, pick_shader, shared_uniforms, mode_uniforms,
    bind_compute, bind_chained_image, unbind_compute,
    fbo_Release, fbo_Create, fbo_Enable, fbo_Disable,
    fbo_BindColourTexture, fbo_BindDepthTexture,
    make_texture, destroy_texture, bindTexture, bindImage,
    glActiveTexture, glBindTexture, glBindImageTexture, glUniform,
    glEnable, glDisable, Dispatch, glDrawArrays, WriteError,
    modify_this, issue;
  cbv beta zeta.

(** ** How a command can end *)

Section Exits.

Variable E : Result -> Prop.

Lemma exits_ret {A : Type} (a : A) : exits E (ret a).
Proof. intros w o w' H. inversion H. exact I. Qed.

Lemma exits_get : exits E get.
Proof. intros w o w' H. inversion H. exact I. Qed.

Lemma exits_modify (f : World -> World) : exits E (modify f).
Proof. intros w o w' H. inversion H. exact I. Qed.

Lemma exits_return {A : Type} (b : bool) :
  E (Returned b) -> exits E (@return_ A b).
Proof. intros Hb w o w' H. inversion H. exact Hb. Qed.

Lemma exits_abort {A : Type} (s : Stuck) :
  E (Aborted s) -> exits E (@abort A s).
Proof. intros Hs w o w' H. inversion H. exact Hs. Qed.

Lemma exits_deref (t : option Texture) :
  E (Aborted NullPointer) -> exits E (deref t).
Proof. intros Hs. destruct t; [apply exits_ret | now apply exits_abort]. Qed.

Lemma exits_bind {A B : Type} (c : Cmd A) (k : A -> Cmd B) :
  exits E c -> (forall a, exits E (k a)) -> exits E (bind c k).
Proof.
  intros Hc Hk w o w' H.
  destruct (bind_inv _ _ _ _ _ H) as [(a & w1 & H1 & H2) | [(b & H1 & ->) | (s & H1 & ->)]].
  - eapply Hk; eauto.
  - apply (Hc _ _ _ H1).
  - apply (Hc _ _ _ H1).
Qed.

Lemma exits_when (b : bool) (c : Cmd unit) :
  (b = true -> exits E c) -> exits E (when b c).
Proof. destruct b; intros H; [now apply H | apply exits_ret]. Qed.

Lemma exits_invoke (f : World -> Result * World) :
  (forall w r w', f w = (r, w') -> aborts_only E r) -> exits E (invoke f).
Proof.
  intros Hf w o w' H. unfold invoke in H.
  destruct (f w) as [[b | s] w1] eqn:Ef; inversion H; subst; [exact I |].
  apply (Hf _ _ _ Ef).
Qed.

Lemma exits_run (body : Cmd Empty_set) :
  exits E body -> forall w r w', run body w = (r, w') -> E r.
Proof.
  intros Hb w r w' H.
  destruct (run_inv _ _ _ _ H) as [(b & H1 & ->) | (s & H1 & ->)];
    apply (Hb _ _ _ H1).
Qed.

Lemma exits_poll (frameID : Z) (answers : list Response) :
  E (Returned false) -> E (Aborted StillPolling) ->
  exits E (poll frameID answers).
Proof.
  intros Hf Hs. induction answers as [| [idx | cd] rest IH]; simpl.
  - apply exits_bind; [apply exits_modify | intros; now apply exits_abort].
  - apply exits_bind; [apply exits_modify | intros; now apply exits_return].
  - apply exits_bind; [apply exits_modify |].
    intros _. destruct (negb (FrameID cd =? frameID)); [exact IH | apply exits_ret].
Qed.

Lemma exits_call_FnRender ci cam time : exits E (call_FnRender ci cam time).
Proof.
  intros w o w' H. unfold call_FnRender in H.
  destruct (FnRender ci cam time (gl w)) as [ok g]. inversion H. exact I.
Qed.

End Exits.

Lemma exits_run_aborts (E : Result -> Prop) (body : Cmd Empty_set) :
  exits (aborts_only E) body ->
  forall w r w', run body w = (r, w') -> aborts_only E r.
Proof. apply exits_run. Qed.

(** The structural rules for [exits]; [side] proves that an exit is
    allowed. *)
Ltac exits_go side :=
  repeat first
    [ apply exits_ret
    | apply exits_get
    | apply exits_modify
    | apply exits_call_FnRender
    | apply exits_return; solve [side]
    | apply exits_abort; solve [side]
    | apply exits_deref; solve [side]
    | apply exits_poll; solve [side]
    | apply exits_bind
    | apply exits_when;
      let E := fresh "E" in intro E; try solve [mode_absurd]
    | apply exits_invoke; apply exits_run_aborts
    | match goal with
      | |- forall _, _ => intro
      | |- exits _ (if ?b then _ else _) =>
          let E := fresh "E" in destruct b eqn:E; try solve [mode_absurd]
      | |- exits _ (match ?x with _ => _ end) => destruct x
      | |- exits _ (let _ := _ in _) => cbv zeta
      end ].

(** ** The polling loop *)

Lemma poll_keeps frameID answers w o w' :
  poll frameID answers w = (o, w') ->
  gl w' = gl w /\ calls w' = calls w /\ errors w' = errors w
  /\ this w' = this w /\ tf_requests w' = tf_requests w.
Proof.
  intros H.
  assert (K : keeps (fun w => (gl w, calls w, errors w, this w, tf_requests w)) w w').
  { revert w o w' H. apply frames_poll; keeps_side. }
  unfold keeps in K. inversion K. auto.
Qed.

Lemma poll_settled frameID answers w cd w' :
  poll frameID answers w = (Next cd, w') -> FrameID cd = frameID.
Proof.
  revert w. induction answers as [| [idx | cd0] rest IH]; intros w H.
  - discriminate.
  - discriminate.
  - simpl in H. unfold bind, modify in H.
    destruct (FrameID cd0 =? frameID) eqn:E; simpl in H.
    + inversion H; subst. now apply Z.eqb_eq.
    + eapply IH; eauto.
Qed.

Lemma poll_set_source frameID answers s w :
  poll frameID answers (set_source s w) = poll frameID answers w.
Proof. destruct answers as [| [idx | cd] rest]; reflexivity. Qed.

Lemma poll_skips frameID pre rest w :
  skipped frameID pre = true ->
  poll frameID (pre ++ rest) w = poll frameID rest w.
Proof.
  revert w. induction pre as [| [idx | cd] pre IH]; intros w Hs; simpl in *.
  - reflexivity.
  - discriminate.
  - apply andb_true_iff in Hs. destruct Hs as [Hf Hs].
    unfold bind at 1. unfold modify at 1. rewrite Hf.
    rewrite IH by assumption. apply poll_set_source.
Qed.

(** A finite list of answers lets the loop come back exactly when it
    holds a refusal or the requested frame. *)
Lemma poll_returns frameID answers w :
  skipped frameID answers = false ->
  exists o w', poll frameID answers w = (o, w') /\ o <> Abort StillPolling.
Proof.
  revert w. induction answers as [| [idx | cd] rest IH]; intros w Hs; simpl in *.
  - discriminate.
  - eexists _, _. split; [reflexivity | discriminate].
  - unfold bind at 1. unfold modify at 1.
    destruct (FrameID cd =? frameID) eqn:E; simpl in *.
    + eexists _, _. split; [reflexivity | discriminate].
    + apply IH. assumption.
Qed.

Lemma poll_waits frameID answers w :
  skipped frameID answers = true ->
  fst (poll frameID answers w) = Abort StillPolling.
Proof.
  intros Hs. rewrite <- (app_nil_r answers).
  rewrite poll_skips by assumption. reflexivity.
Qed.

(** ** The volume upload *)

(** What [upload_volume] comes to, case by case. *)
Lemma upload_volume_unchanged c cd w :
  m_volume_datahash (this w) = DataHash cd ->
  m_frame_id (this w) = FrameID cd ->
  run (upload_volume c cd) w = (Returned true, w).
Proof.
  intros Hh Hf. unfold run, upload_volume, bind, get.
  rewrite Hh, Hf, !Z.eqb_refl. reflexivity.
Qed.

Lemma upload_volume_grid_rejected c cd w :
  identity_changed cd (this w) = true ->
  grid_type_rejected c (GridType (GetMetadata cd)) = true ->
  run (upload_volume c cd) w =
  (Returned false,
   set_errors
     ("RaycastVolumeRenderer only works with cartesian grids (for now)"%string
      :: errors w)
     (set_this (with_identity cd (this w)) w)).
Proof.
  unfold identity_changed. intros Hi Hg.
  unfold run, upload_volume, bind, get. rewrite Hi.
  unfold modify_this, modify. rewrite Hg. reflexivity.
Qed.

Lemma upload_volume_format_rejected c cd w msg :
  identity_changed cd (this w) = true ->
  grid_type_rejected c (GridType (GetMetadata cd)) = false ->
  select_format (ScalarType (GetMetadata cd)) (ScalarLength (GetMetadata cd))
  = inr msg ->
  run (upload_volume c cd) w =
  (Returned false,
   set_errors (msg :: errors w)
     (set_this (with_geometry cd (this w)) w)).
Proof.
  unfold identity_changed. intros Hi Hg Hs.
  unfold run, upload_volume, bind, get. rewrite Hi.
  unfold modify_this, modify. rewrite Hg. unfold ret.
  rewrite Hs. reflexivity.
Qed.

Lemma upload_volume_uploaded c cd w fmt :
  identity_changed cd (this w) = true ->
  grid_type_rejected c (GridType (GetMetadata cd)) = false ->
  select_format (ScalarType (GetMetadata cd)) (ScalarLength (GetMetadata cd))
  = inl fmt ->
  let t := {| tex_name := GL.next_name (gl w);
              tex_layout := volume_layout (GetMetadata cd) fmt |} in
  exists w',
    run (upload_volume c cd) w = (Returned true, w') /\
    this w' =
      set_volume_texture (Some t) (with_geometry cd (this w)) /\
    uploads (calls w') = (tex_name t, tex_layout t) :: uploads (calls w) /\
    errors w' = errors w /\
    GL.next_name (gl w') = GL.next_name (gl w) + 1.
Proof.
  unfold identity_changed. intros Hi Hg Hs. cbv zeta.
  unfold run, upload_volume, bind, get. rewrite Hi.
  unfold modify_this, modify. rewrite Hg. unfold ret.
  rewrite Hs. destruct fmt as [[i f] ty].
  destruct w as [g cs es th src n]. destruct th. simpl in *.
  destruct m_volume_texture0 as [old |];
    (eexists; split; [reflexivity |]); simpl; repeat split; reflexivity.
Qed.

Lemma updateVolumeData_no_source c frameID w :
  m_volumetricData_callerSlot w = None ->
  updateVolumeData c frameID w = (Returned false, w).
Proof.
  intros H. unfold updateVolumeData, run, bind, get. now rewrite H.
Qed.

Lemma updateVolumeData_polled c frameID w answers :
  m_volumetricData_callerSlot w = Some answers ->
  updateVolumeData c frameID w =
  match poll frameID answers w with
  | (Next cd, w1) => run (upload_volume c cd) w1
  | (Return b, w1) => (Returned b, w1)
  | (Abort s, w1) => (Aborted s, w1)
  end.
Proof.
  intros H. unfold updateVolumeData, run, bind, get. rewrite H.
  destruct (poll frameID answers w) as [[cd | b | s] w1]; reflexivity.
Qed.

(** ** The grid type check *)

(** The check of line 607 fires exactly when the negated grid type
    equals the enumerator. *)
Lemma grid_type_rejected_iff c g :
  grid_type_rejected c g = true <-> Z.b2z (g =? 0) = c.
Proof. unfold grid_type_rejected. apply Z.eqb_eq. Qed.

(** C1.  With [CARTESIAN] = 1, the value the enumeration gives its second
    enumerator, the check of line 607 rejects grid type 0 and no other:
    a volume whose grid type is 2 is uploaded, [updateVolumeData] returns
    [true], logs no error and creates the volume texture. *)
Theorem updateVolumeData_uploads_foreign_grid :
  (forall g, grid_type_rejected 1 g = (g =? 0)) /\
  let cd := Examples.float_volume 2 (2, 2, 2) in
  let w := Examples.world [Delivered cd] in
  let layout := volume_layout (GetMetadata cd) (GL.R32F, GL.RED, GL.FLOAT) in
  GridType (GetMetadata cd) <> 1 /\
  fst (updateVolumeData 1 1 w) = Returned true /\
  errors (snd (updateVolumeData 1 1 w)) = [] /\
  uploads (calls (snd (updateVolumeData 1 1 w))) = [(1, layout)] /\
  m_volume_texture (this (snd (updateVolumeData 1 1 w)))
  = Some {| tex_name := 1; tex_layout := layout |}.
Proof.
  split.
  - intros g. unfold grid_type_rejected. destruct (g =? 0); reflexivity.
  - cbv zeta. split; [discriminate |]. repeat split; reflexivity.
Qed.

(** ** The cached state *)

(** C2, as stated, fails: a volume of scalar type [BITS] makes the call
    return [false], and yet the cached data hash and the cached extents
    are those of the rejected volume. *)
Lemma updateVolumeData_failure_changes_cache :
  let cd := Examples.volume 5 1 (Examples.metadata 1 BITS 1 (2, 2, 2)) in
  let w := Examples.world [Delivered cd] in
  fst (updateVolumeData 1 1 w) = Returned false /\
  m_volume_datahash (this w) = 0 /\
  m_volume_datahash (this (snd (updateVolumeData 1 1 w))) = 5 /\
  m_volume_extents (this w) = Examples.zero3 /\
  m_volume_extents (this (snd (updateVolumeData 1 1 w))) = Examples.one3.
Proof. cbv zeta. repeat split; reflexivity. Qed.

(** C2, amended.  The cached state is untouched when no data source is
    connected, when the polling loop does not deliver, and when the
    delivered identity equals the cached one.  Otherwise the new identity
    is stored first: a call rejected by the grid type check has replaced
    exactly the cached identity, a call rejected for its scalar format
    has replaced identity, origin, extents, resolution and value range,
    and only a successful call replaces the volume texture as well. *)
Theorem updateVolumeData_cached_state c frameID w :
  let r := fst (updateVolumeData c frameID w) in
  let r' := this (snd (updateVolumeData c frameID w)) in
  match m_volumetricData_callerSlot w with
  | None => r = Returned false /\ r' = this w
  | Some answers =>
      match poll frameID answers w with
      | (Next cd, _) =>
          let md := GetMetadata cd in
          if negb (identity_changed cd (this w)) then
            r = Returned true /\ r' = this w
          else if grid_type_rejected c (GridType md) then
            r = Returned false /\ r' = with_identity cd (this w)
          else
            match select_format (ScalarType md) (ScalarLength md) with
            | inr _ => r = Returned false /\ r' = with_geometry cd (this w)
            | inl _ =>
                r = Returned true /\
                exists t, r' = set_volume_texture (Some t) (with_geometry cd (this w))
            end
      | (_, _) => r <> Returned true /\ r' = this w
      end
  end.
Proof.
  cbv zeta.
  destruct (m_volumetricData_callerSlot w) as [answers |] eqn:Hs.
  2:{ rewrite updateVolumeData_no_source by assumption. now split. }
  rewrite (updateVolumeData_polled _ _ _ _ Hs).
  destruct (poll frameID answers w) as [[cd | b | s] w1] eqn:Hp;
    destruct (poll_keeps _ _ _ _ _ Hp) as (_ & _ & _ & Ht & _).
  - rewrite <- Ht.
    destruct (identity_changed cd (this w1)) eqn:Hi; simpl negb; cbv iota.
    + destruct (grid_type_rejected c (GridType (GetMetadata cd))) eqn:Hg.
      * rewrite upload_volume_grid_rejected by assumption. now split.
      * destruct (select_format _ _) as [fmt | msg] eqn:Hf.
        -- destruct (upload_volume_uploaded c cd w1 fmt Hi Hg Hf)
             as (w' & Hr & Hthis & _).
           rewrite Hr. simpl. split; [reflexivity | eauto].
        -- rewrite (upload_volume_format_rejected c cd w1 msg) by assumption.
           now split.
    + unfold identity_changed in Hi. apply orb_false_iff in Hi.
      destruct Hi as [H1 H2].
      apply negb_false_iff, Z.eqb_eq in H1. apply negb_false_iff, Z.eqb_eq in H2.
      rewrite upload_volume_unchanged by assumption. now split.
  - simpl. split; [| assumption].
    assert (b = false) as ->; [| discriminate].
    clear -Hp. revert w Hp. induction answers as [| [idx | cd] rest IH]; intros w Hp.
    + discriminate.
    + inversion Hp. reflexivity.
    + simpl in Hp. unfold bind, modify in Hp.
      destruct (negb (FrameID cd =? frameID)); [eauto | discriminate].
  - simpl. split; [discriminate | assumption].
Qed.

(** ** The format mapping *)






(** ** No second upload *)

Lemma updateVolumeData_same_identity c frameID w answers cd w1 :
  m_volumetricData_callerSlot w = Some answers ->
  poll frameID answers w = (Next cd, w1) ->
  DataHash cd = m_volume_datahash (this w) ->
  FrameID cd = m_frame_id (this w) ->
  updateVolumeData c frameID w = (Returned true, w1).
Proof.
  intros Hs Hp Hh Hf.
  rewrite (updateVolumeData_polled _ _ _ _ Hs), Hp.
  destruct (poll_keeps _ _ _ _ _ Hp) as (_ & _ & _ & Ht & _).
  apply upload_volume_unchanged; rewrite Ht; auto.
Qed.

(** Whatever a call that got an answer for its frame returns, the cache
    then carries the identity of that answer. *)
Lemma updateVolumeData_identity c frameID w answers cd w1 :
  m_volumetricData_callerSlot w = Some answers ->
  poll frameID answers w = (Next cd, w1) ->
  let r' := this (snd (updateVolumeData c frameID w)) in
  m_volume_datahash r' = DataHash cd /\ m_frame_id r' = FrameID cd.
Proof.
  intros Hs Hp. cbv zeta.
  rewrite (updateVolumeData_polled _ _ _ _ Hs), Hp.
  destruct (identity_changed cd (this w1)) eqn:Hi.
  - destruct (grid_type_rejected c (GridType (GetMetadata cd))) eqn:Hg.
    + rewrite upload_volume_grid_rejected by assumption. now split.
    + destruct (select_format (ScalarType (GetMetadata cd))
                  (ScalarLength (GetMetadata cd))) as [fmt | msg] eqn:Hf.
      * destruct (upload_volume_uploaded c cd w1 fmt Hi Hg Hf)
          as (w' & Hr & Hthis & _).
        rewrite Hr. cbn [snd]. rewrite Hthis. now split.
      * rewrite (upload_volume_format_rejected c cd w1 msg) by assumption.
        now split.
  - unfold identity_changed in Hi. apply orb_false_iff in Hi.
    destruct Hi as [H1 H2].
    apply negb_false_iff, Z.eqb_eq in H1. apply negb_false_iff, Z.eqb_eq in H2.
    rewrite upload_volume_unchanged by assumption. now split.
Qed.

(** C6.  After a call that got an answer for its frame, a second call
    that is delivered the same data hash for that frame returns [true]
    and changes neither the cached state nor the OpenGL context; it
    issues no command and logs no error. *)
Theorem updateVolumeData_twice c frameID w answers cd w1 answers2 cd2 w3 :
  m_volumetricData_callerSlot w = Some answers ->
  poll frameID answers w = (Next cd, w1) ->
  let w2 := snd (updateVolumeData c frameID w) in
  m_volumetricData_callerSlot w2 = Some answers2 ->
  poll frameID answers2 w2 = (Next cd2, w3) ->
  DataHash cd2 = DataHash cd ->
  updateVolumeData c frameID w2 = (Returned true, w3) /\
  this w3 = this w2 /\ gl w3 = gl w2 /\ calls w3 = calls w2 /\
  uploads (calls w3) = uploads (calls w2) /\ errors w3 = errors w2.
Proof.
  intros Hs Hp w2 Hs2 Hp2 Hh.
  destruct (updateVolumeData_identity c frameID w answers cd w1 Hs Hp) as [Ih If].
  fold w2 in Ih, If.
  pose proof (poll_settled _ _ _ _ _ Hp) as F1.
  pose proof (poll_settled _ _ _ _ _ Hp2) as F2.
  destruct (poll_keeps _ _ _ _ _ Hp2) as (Hg & Hc & He & Ht & _).
  split.
  - eapply updateVolumeData_same_identity; eauto; congruence.
  - rewrite Hc. auto.
Qed.

Lemma updateVolumeData_twice_witness :
  let cd := Examples.float_volume 1 (2, 2, 2) in
  let w := Examples.world [Delivered cd; Delivered cd] in
  let w2 := snd (updateVolumeData 1 1 w) in
  let w3 := set_source (Some []) w2 in
  updateVolumeData 1 1 w2 = (Returned true, w3) /\
  this w3 = this w2 /\ gl w3 = gl w2 /\ calls w3 = calls w2 /\
  uploads (calls w3) = uploads (calls w2) /\ errors w3 = errors w2.
Proof.
  cbv zeta.
  apply (updateVolumeData_twice 1 1
           (Examples.world [Delivered (Examples.float_volume 1 (2, 2, 2));
                            Delivered (Examples.float_volume 1 (2, 2, 2))])
           [Delivered (Examples.float_volume 1 (2, 2, 2));
            Delivered (Examples.float_volume 1 (2, 2, 2))]
           (Examples.float_volume 1 (2, 2, 2))
           (set_source (Some [Delivered (Examples.float_volume 1 (2, 2, 2))])
              (Examples.world [Delivered (Examples.float_volume 1 (2, 2, 2));
                               Delivered (Examples.float_volume 1 (2, 2, 2))]))
           [Delivered (Examples.float_volume 1 (2, 2, 2))]
           (Examples.float_volume 1 (2, 2, 2))); reflexivity.
Defined.


(** ** The transfer function *)

(** C9.  [updateTransferFunction] returns [true] in every case.  When a
    transfer function is connected and its callback succeeds, the held
    texture name becomes the one it offers; when none is connected or
    the callback fails, the held name stays.  Nothing else of the
    renderer changes, and no OpenGL command is issued. *)
Theorem updateTransferFunction_always_true e w :
  let r := updateTransferFunction e w in
  fst r = Returned true /\
  tf_texture (this (snd r)) =
    match m_transferFunction_callerSlot e with
    | Some ct => if tf_call_ok ct then OpenGLTexture ct else tf_texture (this w)
    | None => tf_texture (this w)
    end /\
  this (snd r) = set_tf_texture (tf_texture (this (snd r))) (this w) /\
  gl (snd r) = gl w /\ calls (snd r) = calls w /\ errors (snd r) = errors w.
Proof.
  cbv zeta. unfold updateTransferFunction.
  destruct w as [g cs es th src n]. destruct th.
  destruct (m_transferFunction_callerSlot e) as [[[] tx] |];
    repeat split; reflexivity.
Qed.

(** The callback is invoked once when a transfer function is connected. *)
Lemma updateTransferFunction_requests e w :
  tf_requests (snd (updateTransferFunction e w)) =
  match m_transferFunction_callerSlot e with
  | Some _ => S (tf_requests w)
  | None => tf_requests w
  end.
Proof.
  unfold updateTransferFunction.
  destruct (m_transferFunction_callerSlot e) as [[[] tx] |]; reflexivity.
Qed.

(** ** The compositing pass *)

(** C8.  Once the three render targets exist the compositing pass comes
    back, and blending, the depth test and the four blend factors are
    then what they were when it began, whatever they were and whatever
    the mode. *)
Theorem composite_pass_restores_state e rndr w rt nt dt :
  m_render_target (this w) = Some rt ->
  m_normal_target (this w) = Some nt ->
  m_depth_target (this w) = Some dt ->
  exists w',
    composite_pass e rndr w = (Next tt, w') /\
    GL.glIsEnabled GL.BLEND (gl w') = GL.glIsEnabled GL.BLEND (gl w) /\
    GL.glIsEnabled GL.DEPTH_TEST (gl w') = GL.glIsEnabled GL.DEPTH_TEST (gl w) /\
    GL.blend_src_rgb (gl w') = GL.blend_src_rgb (gl w) /\
    GL.blend_dst_rgb (gl w') = GL.blend_dst_rgb (gl w) /\
    GL.blend_src_alpha (gl w') = GL.blend_src_alpha (gl w) /\
    GL.blend_dst_alpha (gl w') = GL.blend_dst_alpha (gl w).
Proof.
  intros Hrt Hnt Hdt.
  destruct w as [g cs es th src n]. destruct th. simpl in Hrt, Hnt, Hdt. subst.
  destruct g as [dtest bl sr dr sa da au tx im pr db fb li nn].
  unfold composite_pass. cbv zeta.
  destruct (m_mode (params e) =? 0), (m_mode (params e) =? 1),
    (m_mode (params e) =? 2), dtest, bl;
    (eexists; split; [lazy; reflexivity |]); lazy; repeat split; reflexivity.
Qed.

Lemma composite_pass_restores_state_witness :
  exists w',
    composite_pass (Examples.env 1 None None) (F32.zero, F32.one)
      (snd (create_targets (Examples.env 1 None None) (Examples.world [])))
    = (Next tt, w') /\
    GL.glIsEnabled GL.BLEND (gl w') = false /\
    GL.glIsEnabled GL.DEPTH_TEST (gl w') = true /\
    GL.blend_src_rgb (gl w') = 1 /\
    GL.blend_dst_rgb (gl w') = 0 /\
    GL.blend_src_alpha (gl w') = 1 /\
    GL.blend_dst_alpha (gl w') = 0.
Proof.
  apply (composite_pass_restores_state (Examples.env 1 None None)
           (F32.zero, F32.one)
           (snd (create_targets (Examples.env 1 None None) (Examples.world [])))
           {| tex_name := 1;
              tex_layout := {| GL.internal_format := GL.RGBA8; GL.width := 16;
                               GL.height := 8; GL.depth := 1;
                               GL.format := GL.RGBA; GL.type := GL.UNSIGNED_BYTE |} |}
           {| tex_name := 2;
              tex_layout := {| GL.internal_format := GL.RGBA32F; GL.width := 16;
                               GL.height := 8; GL.depth := 1;
                               GL.format := GL.RGBA; GL.type := GL.FLOAT |} |}
           {| tex_name := 3;
              tex_layout := {| GL.internal_format := GL.R32F; GL.width := 16;
                               GL.height := 8; GL.depth := 1;
                               GL.format := GL.R; GL.type := GL.FLOAT |} |});
    reflexivity.
Defined.

(** ** Facts about a whole [Render] call *)

Ltac render_frames side :=
  unfold Render; apply frames_run; try solve [side];
  unfold updateVolumeData, updateTransferFunction, upload_volume;
  unfold_commands; frames_go side.

(** In mode 1 the transfer function call is not invoked and the held
    texture name is not touched. *)
Lemma Render_isosurface_keeps_requests c e w :
  m_mode (params e) = 1 ->
  keeps tf_requests w (snd (Render c e w)).
Proof.
  intros Hm. destruct (Render c e w) as [r w'] eqn:H. simpl.
  revert w r w' H. render_frames keeps_side.
Qed.

Lemma Render_isosurface_keeps_tf_texture c e w :
  m_mode (params e) = 1 ->
  keeps (fun w => tf_texture (this w)) w (snd (Render c e w)).
Proof.
  intros Hm. destruct (Render c e w) as [r w'] eqn:H. simpl.
  revert w r w' H. render_frames keeps_side.
Qed.

Lemma Render_isosurface_no_1D c e w :
  m_mode (params e) = 1 ->
  extends (fun call => negb (binds_target GL.TEXTURE_1D call)) w
    (snd (Render c e w)).
Proof.
  intros Hm. destruct (Render c e w) as [r w'] eqn:H. simpl.
  revert w r w' H. render_frames extends_side.
Qed.

Lemma Render_isosurface_any_transfer_function c e tf w :
  m_mode (params e) = 1 ->
  Render c (with_transfer_function tf e) w = Render c e w.
Proof.
  intros Hm. destruct e as [p ci tf0 call img]. destruct p. simpl in Hm. subst.
  reflexivity.
Qed.

(** ** The compute pass *)

Lemma mode_cases (m : Z) :
  m = 0 \/ m = 1 \/ m = 2
  \/ ((m =? 0) = false /\ (m =? 1) = false /\ (m =? 2) = false).
Proof.
  destruct (Z.eqb_spec m 0); [auto |].
  destruct (Z.eqb_spec m 1); [auto |].
  destruct (Z.eqb_spec m 2); [auto |].
  right. right. right. auto.
Qed.

(** An unknown mode is reported and ends the call before any command. *)
Lemma pick_shader_unknown_mode e w :
  compute_program (m_mode (params e)) = None ->
  pick_shader e w =
  (Return false, set_errors ("Unknown raycast mode."%string :: errors w) w).
Proof.
  unfold compute_program, pick_shader.
  destruct (m_mode (params e) =? 0); [discriminate |].
  destruct (m_mode (params e) =? 1); [discriminate |].
  destruct (m_mode (params e) =? 2); [discriminate |].
  reflexivity.
Qed.

Ltac eval_in H :=
  lazy -[F32.of_Z F32.div F32.sub F32.mul F32.add F32.max F32.ceil_int
         F32.one F32.two F32.eight] in H.

Ltac eval_goal :=
  lazy -[F32.of_Z F32.div F32.sub F32.mul F32.add F32.max F32.ceil_int
         F32.one F32.two F32.eight].

(** A compute pass that comes back has dispatched once.  The lemma
    records what the dispatch ran with, relative to the world in which
    the pass began. *)
Lemma compute_pass_spec e light w w' :
  compute_pass e light w = (Next tt, w') ->
  let mode := m_mode (params e) in
  exists p tex img vol rt,
    m_volume_texture (this w) = Some vol /\
    m_render_target (this w) = Some rt /\
    compute_program mode = Some p /\
    dispatches (calls w') = (p, tex, img) :: dispatches (calls w) /\
    draws (calls w') = draws (calls w) /\
    tex GL.TEXTURE0 GL.TEXTURE_3D = tex_name vol /\
    img 0 = tex_name rt /\
    uniform_values "voxelSize" (calls w') =
      GL.U1f (voxelSize (m_volume_extents (this w)) (m_volume_resolution (this w)))
      :: uniform_values "voxelSize" (calls w) /\
    mode_specific_uniforms (calls w') =
      (uniforms_of_mode (params e) ++ mode_specific_uniforms (calls w))%list /\
    tf_texture (this w') = refreshed_tf_texture e (this w) /\
    this w' = set_gui_visible (mode =? 0, mode =? 1, mode =? 1)
                (set_tf_texture (tf_texture (this w')) (this w)) /\
    (mode = 0 -> tex GL.TEXTURE1 GL.TEXTURE_1D = tf_texture (this w')) /\
    (mode <> 0 ->
       tex GL.TEXTURE1 GL.TEXTURE_1D = GL.textures (gl w) GL.TEXTURE1 GL.TEXTURE_1D /\
       uniform_values "tf_tx1D" (calls w') = uniform_values "tf_tx1D" (calls w)) /\
    (mode <> 1 ->
       match m_renderer_callerSlot e with
       | Some _ =>
           tex GL.TEXTURE2 GL.TEXTURE_2D = fbo_colour (fbo (this w)) /\
           tex GL.TEXTURE3 GL.TEXTURE_2D = fbo_depth (fbo (this w)) /\
           uniform_values "use_depth_tx" (calls w') =
             GL.U1i 1 :: uniform_values "use_depth_tx" (calls w)
       | None =>
           tex GL.TEXTURE2 GL.TEXTURE_2D = GL.textures (gl w) GL.TEXTURE2 GL.TEXTURE_2D /\
           tex GL.TEXTURE3 GL.TEXTURE_2D = GL.textures (gl w) GL.TEXTURE3 GL.TEXTURE_2D /\
           uniform_values "use_depth_tx" (calls w') =
             GL.U1i 0 :: uniform_values "use_depth_tx" (calls w)
       end) /\
    (mode = 1 ->
       tex GL.TEXTURE2 GL.TEXTURE_2D = GL.textures (gl w) GL.TEXTURE2 GL.TEXTURE_2D /\
       tex GL.TEXTURE3 GL.TEXTURE_2D = GL.textures (gl w) GL.TEXTURE3 GL.TEXTURE_2D /\
       uniform_values "use_depth_tx" (calls w') = uniform_values "use_depth_tx" (calls w)).
Proof.
  intros H. cbv zeta.
  destruct e as [p ci tf call img]. destruct p as [m ? ? ? ? ? ? ? ? ? ? ? ? ? ovr ? ?].
  destruct w as [g cs es th src n].
  destruct th as [? ? [[o0 o1] o2] [[e0 e1] e2] ? ? vol rt nt dt ? ? ?].
  destruct g as [dtest bl sr dr sa da au tx im pr db fb li nn].
  unfold compute_pass in H. simpl m_mode. simpl params.
  destruct (mode_cases m) as [-> | [-> | [-> | (E0 & E1 & E2)]]].
  - (* mode 0 *)
    destruct ci, tf as [[[] ?] |], ovr, rt as [rt |], vol as [vol |];
      eval_in H; try discriminate H;
      injection H as <-;
      do 5 eexists; repeat apply conj;
        try (intros X; first [discriminate X | exfalso; apply X; reflexivity]);
        try (intros _); eval_goal; repeat apply conj; reflexivity.
  - (* mode 1 *)
    destruct ci, ovr, rt as [rt |], vol as [vol |], nt as [nt |], dt as [dt |];
      eval_in H; try discriminate H;
      injection H as <-;
      do 5 eexists; repeat apply conj;
        try (intros X; first [discriminate X | exfalso; apply X; reflexivity]);
        try (intros _); eval_goal; repeat apply conj; reflexivity.
  - (* mode 2 *)
    destruct ci, tf as [[[] ?] |], ovr, rt as [rt |], vol as [vol |];
      eval_in H; try discriminate H;
      injection H as <-;
      do 5 eexists; repeat apply conj;
        try (intros X; first [discriminate X | exfalso; apply X; reflexivity]);
        try (intros _); eval_goal; repeat apply conj; reflexivity.
  - unfold bind at 1 in H.
    rewrite pick_shader_unknown_mode in H
      by (unfold compute_program; simpl; now rewrite E0, E1, E2).
    discriminate H.
Qed.

(** ** [Render] in three parts *)

Lemma Render_parts c e w :
  Render c e w =
  match render_prefix c e w with
  | (Next light, w3) =>
      match compute_pass e light w3 with
      | (Next _, w4) => run (render_suffix e) w4
      | (Return b, w4) => (Returned b, w4)
      | (Abort s, w4) => (Aborted s, w4)
      end
  | (Return b, w3) => (Returned b, w3)
  | (Abort s, w3) => (Aborted s, w3)
  end.
Proof.
  unfold Render, render_prefix, render_suffix, run, bind, get, ret, return_.
  destruct (render_chained e w) as [[[] | b | s] w1]; try reflexivity.
  destruct (create_targets e w1) as [[[] | b | s] w2]; try reflexivity.
  destruct (invoke (updateVolumeData c (Time (cr e))) w2) as [[[] | b | s] w3];
    try reflexivity.
  simpl.
  destruct (compute_pass e (GL.light0_position (gl w2)) w3) as [[[] | b | s] w4];
    reflexivity.
Qed.

Ltac exit_side :=
  unfold aborts_only, fails_or_waits, fails_or_null, null_only;
  first [ exact I | reflexivity | left; reflexivity | right; reflexivity
        | split; first [exact I | left; reflexivity | right; reflexivity] ].

(** Before the compute pass the call can only fail or keep waiting for
    the data source. *)
Lemma render_prefix_exits c e : exits fails_or_waits (render_prefix c e).
Proof.
  unfold render_prefix, updateVolumeData, upload_volume.
  unfold_commands. exits_go exit_side.
Qed.

(** The compute pass and what follows leave [Render] early only for an
    unknown mode, or at an empty [unique_ptr]. *)
Lemma compute_pass_exits e light : exits fails_or_null (compute_pass e light).
Proof.
  unfold compute_pass, updateTransferFunction.
  unfold_commands. exits_go exit_side.
Qed.

Lemma render_suffix_result e w r w' :
  run (render_suffix e) w = (r, w') ->
  r = Returned true \/ r = Aborted NullPointer \/ r = Aborted LengthError.
Proof.
  revert w r w'. apply exits_run. unfold render_suffix.
  unfold_commands.
  exits_go ltac:(first [ left; reflexivity | right; left; reflexivity
                       | right; right; reflexivity ]).
Qed.

Lemma Render_true_inv c e w w' :
  Render c e w = (Returned true, w') ->
  exists light w3 w4,
    render_prefix c e w = (Next light, w3) /\
    compute_pass e light w3 = (Next tt, w4) /\
    run (render_suffix e) w4 = (Returned true, w').
Proof.
  rewrite Render_parts.
  destruct (render_prefix c e w) as [[light | b | s] w3] eqn:Hp.
  - destruct (compute_pass e light w3) as [[[] | b | s] w4] eqn:Hc.
    + intros H. eauto 6.
    + intros H. inversion H; subst.
      destruct (compute_pass_exits _ _ _ _ _ Hc); discriminate.
    + discriminate.
  - intros H. inversion H; subst.
    destruct (render_prefix_exits _ _ _ _ _ Hp); discriminate.
  - discriminate.
Qed.

(** ** What the parts of [Render] issue *)

Lemma observe_extends {X : Type} (f : GL.Call -> list X) P w w' :
  extends P w w' ->
  (forall c, P c = true -> f c = []) ->
  flat_map f (calls w') = flat_map f (calls w).
Proof.
  intros (new & -> & F) Hf. rewrite flat_map_app.
  replace (flat_map f new) with (@nil X); [reflexivity |].
  induction new as [| c new IH]; [reflexivity |].
  simpl in *. apply andb_true_iff in F. destruct F as [Fc Fn].
  now rewrite (Hf c Fc), <- IH.
Qed.

Lemma frames_weaken (R R' : World -> World -> Prop) {A : Type} (c : Cmd A) :
  (forall w w', R w w' -> R' w w') -> frames R c -> frames R' c.
Proof. intros HR Hc w o w' H. eauto. Qed.

(** Before the compute pass only framebuffer commands and the creation
    and deletion of textures are issued. *)
Lemma render_prefix_setup c e : frames (extends is_setup_call) (render_prefix c e).
Proof.
  unfold render_prefix, updateVolumeData, upload_volume.
  unfold_commands. frames_go extends_side.
Qed.

(** Without a chained renderer nothing before the compute pass touches
    the texture bindings. *)
Lemma render_prefix_keeps_textures c e :
  m_renderer_callerSlot e = None ->
  frames (keeps (fun w => GL.textures (gl w))) (render_prefix c e).
Proof.
  intros Hci. unfold render_prefix, render_chained. rewrite Hci.
  unfold updateVolumeData, upload_volume.
  unfold_commands. frames_go keeps_side.
Qed.

(** After the compute pass no dispatch follows and none of the uniforms
    of the compute programs is set again; the renderer's members stay. *)
Lemma render_suffix_quiet e :
  frames (extends (fun c => negb (is_raycast_input c))) (render_suffix e).
Proof.
  unfold render_suffix. unfold_commands. frames_go extends_side.
Qed.

Lemma render_suffix_keeps_this e : frames (keeps this) (render_suffix e).
Proof.
  unfold render_suffix. unfold_commands. frames_go keeps_side.
Qed.

Lemma setup_is_no_input c :
  is_setup_call c = true -> is_raycast_input c = false.
Proof. destruct c; simpl; intros H; try reflexivity; discriminate H. Qed.

Lemma no_input_dispatch c :
  is_raycast_input c = false ->
  match c with
  | GL.DispatchCompute p _ _ _ t i => [(p, t, i)]
  | _ => []
  end = [].
Proof. destruct c; simpl; intros H; try reflexivity; discriminate H. Qed.

Lemma no_input_uniform name c :
  (String.eqb name "voxelSize" || String.eqb name "opacityThreshold"
   || String.eqb name "isoValue" || String.eqb name "opacity"
   || String.eqb name "use_depth_tx")%bool = true ->
  is_raycast_input c = false ->
  match c with
  | GL.Uniform _ n v => if String.eqb n name then [v] else []
  | _ => []
  end = [].
Proof.
  intros Hname. destruct c; simpl; intros H; try reflexivity.
  destruct (String.eqb_spec name0 name) as [-> | _]; [| reflexivity].
  rewrite Hname in H. discriminate H.
Qed.

Lemma no_input_mode_specific c :
  is_raycast_input c = false ->
  match c with
  | GL.Uniform _ n v => if mode_specific n then [(n, v)] else []
  | _ => []
  end = [].
Proof.
  destruct c; simpl; intros H; try reflexivity.
  unfold mode_specific.
  repeat (apply orb_false_iff in H; destruct H as [H ?]).
  repeat match goal with E : String.eqb _ _ = false |- _ => rewrite E; clear E end.
  reflexivity.
Qed.

(** Across the parts before and after the compute pass, the
    observations of the compute pass are unchanged. *)
Lemma quiet_observations P w w' :
  extends P w w' ->
  (forall c, P c = true -> is_raycast_input c = false) ->
  dispatches (calls w') = dispatches (calls w) /\
  mode_specific_uniforms (calls w') = mode_specific_uniforms (calls w) /\
  uniform_values "voxelSize" (calls w') = uniform_values "voxelSize" (calls w) /\
  uniform_values "use_depth_tx" (calls w') = uniform_values "use_depth_tx" (calls w) /\
  uniform_values "isoValue" (calls w') = uniform_values "isoValue" (calls w) /\
  uniform_values "opacity" (calls w') = uniform_values "opacity" (calls w) /\
  uniform_values "opacityThreshold" (calls w')
  = uniform_values "opacityThreshold" (calls w).
Proof.
  intros Hx HP.
  unfold dispatches, mode_specific_uniforms, uniform_values.
  repeat split; apply (observe_extends _ P _ _ Hx); intros c Hc;
    first [ apply no_input_dispatch | apply no_input_mode_specific
          | apply no_input_uniform; [reflexivity |] ];
    auto.
Qed.

(** A [Render] call that returns [true]: what it has done, relative to
    the world [w3] in which its compute pass began. *)
Lemma Render_true_spec c e w w' :
  Render c e w = (Returned true, w') ->
  exists light w3 w4,
    render_prefix c e w = (Next light, w3) /\
    compute_pass e light w3 = (Next tt, w4) /\
    run (render_suffix e) w4 = (Returned true, w') /\
    this w' = this w4 /\
    dispatches (calls w3) = dispatches (calls w) /\
    dispatches (calls w') = dispatches (calls w4) /\
    mode_specific_uniforms (calls w3) = mode_specific_uniforms (calls w) /\
    mode_specific_uniforms (calls w') = mode_specific_uniforms (calls w4) /\
    uniform_values "voxelSize" (calls w3) = uniform_values "voxelSize" (calls w) /\
    uniform_values "voxelSize" (calls w') = uniform_values "voxelSize" (calls w4) /\
    uniform_values "use_depth_tx" (calls w3) = uniform_values "use_depth_tx" (calls w) /\
    uniform_values "use_depth_tx" (calls w') = uniform_values "use_depth_tx" (calls w4).
Proof.
  intros H. destruct (Render_true_inv _ _ _ _ H) as (light & w3 & w4 & Hp & Hc & Hs).
  exists light, w3, w4.
  pose proof (render_prefix_setup c e _ _ _ Hp) as X1.
  assert (X2 : extends (fun c => negb (is_raycast_input c)) w4 w').
  { eapply frames_run; try exact Hs; try solve [extends_side].
    apply render_suffix_quiet. }
  assert (X3 : keeps this w4 w').
  { eapply frames_run; try exact Hs; try solve [keeps_side].
    apply render_suffix_keeps_this. }
  destruct (quiet_observations _ _ _ X1 setup_is_no_input)
    as (A1 & A2 & A3 & A4 & _).
  destruct (quiet_observations _ _ _ X2) as (B1 & B2 & B3 & B4 & _).
  { intros c0 Hc0. now apply negb_true_iff. }
  repeat split; assumption.
Qed.

(** ** The world in which the compute pass begins *)

Lemma render_prefix_inv c e w light w3 :
  render_prefix c e w = (Next light, w3) ->
  exists w1 w2,
    render_chained e w = (Next tt, w1) /\
    create_targets e w1 = (Next tt, w2) /\
    invoke (updateVolumeData c (Time (cr e))) w2 = (Next true, w3).
Proof.
  unfold render_prefix. intros H.
  destruct (bind_inv _ _ _ _ _ H)
    as [([] & w1 & H1 & H2) | [(b & _ & X) | (s & _ & X)]]; try discriminate X.
  destruct (bind_inv _ _ _ _ _ H2)
    as [([] & w2 & H3 & H4) | [(b & _ & X) | (s & _ & X)]]; try discriminate X.
  exists w1, w2. split; [exact H1 | split; [exact H3 |]].
  destruct (bind_inv _ _ _ _ _ H4)
    as [(w2' & w2'' & H5 & H6) | [(b & _ & X) | (s & _ & X)]]; try discriminate X.
  unfold get in H5. injection H5 as <- <-.
  destruct (bind_inv _ _ _ _ _ H6)
    as [(ok & w3' & H7 & H8) | [(b & _ & X) | (s & _ & X)]]; try discriminate X.
  destruct ok; unfold bind, ret, return_ in H8; cbv beta iota in H8.
  - injection H8 as _ <-. exact H7.
  - discriminate H8.
Qed.

Lemma render_chained_textures e w w1 ci :
  m_renderer_callerSlot e = Some ci ->
  render_chained e w = (Next tt, w1) ->
  exists g,
    fst (FnRender ci (GetCamera (cr e)) (Time (cr e)) g) = true /\
    GL.textures (gl w1)
    = GL.textures (snd (FnRender ci (GetCamera (cr e)) (Time (cr e)) g)).
Proof.
  intros Hci H.
  destruct e as [p ci0 tf call img]. destruct p as [m ? ? ? ? ? ? ? ? ? ? ? ? ? ? ? ?].
  destruct w as [g cs es th src n].
  destruct th as [? ? ? ? ? ? ? ? ? ? [valid ? ? ? ?] ? ?].
  destruct g as [dtest bl sr dr sa da au tx im pr db fb li nn].
  cbn [m_renderer_callerSlot] in Hci. subst ci0.
  unfold render_chained in H. cbn [m_mode params m_renderer_callerSlot cr] in *.
  destruct ci as [vp fn].
  destruct ((m =? 0) || (m =? 2)); destruct valid;
    lazy -[Z.add] in H;
    match type of H with
    | context [fn ?a ?b ?c] =>
        exists c; lazy -[Z.add]; destruct (fn a b c) as [[|] g']
    end;
    lazy -[Z.add] in H; try discriminate H; injection H as <-;
    split; reflexivity.
Qed.

Lemma after_chained_keeps_textures c e :
  frames (keeps (fun w => GL.textures (gl w))) (create_targets e) /\
  forall t, frames (keeps (fun w => GL.textures (gl w)))
              (invoke (updateVolumeData c t)).
Proof.
  split; [| intros t]; unfold updateVolumeData, upload_volume; unfold_commands;
    frames_go keeps_side.
Qed.

Lemma render_prefix_chained_textures c e w light w3 ci :
  m_renderer_callerSlot e = Some ci ->
  render_prefix c e w = (Next light, w3) ->
  exists g,
    fst (FnRender ci (GetCamera (cr e)) (Time (cr e)) g) = true /\
    GL.textures (gl w3)
    = GL.textures (snd (FnRender ci (GetCamera (cr e)) (Time (cr e)) g)).
Proof.
  intros Hci Hp.
  destruct (render_prefix_inv _ _ _ _ _ Hp) as (w1 & w2 & H1 & H2 & H3).
  destruct (render_chained_textures e w w1 ci Hci H1) as (g & Hok & Ht).
  destruct (after_chained_keeps_textures c e) as [F2 F3].
  pose proof (F2 _ _ _ H2) as K2. pose proof (F3 _ _ _ _ H3) as K3.
  unfold keeps in K2, K3.
  exists g. split; [exact Hok | congruence].
Qed.

(** ** Texture bindings of the compute pass *)

(** C3, as stated, fails in mode 2: the render call succeeds, the held
    transfer function texture is 77, and at the dispatch nothing is bound
    to the 1D target of texture unit 1. *)
Lemma Render_aggregate_leaves_unit1 :
  let e := Examples.env 2 None (Some Examples.transfer_function) in
  let w := Examples.world [Delivered (Examples.float_volume 1 (2, 2, 2))] in
  fst (Render 1 e w) = Returned true /\
  tf_texture (this (snd (Render 1 e w))) = 77 /\
  map (fun d => snd (fst d) GL.TEXTURE1 GL.TEXTURE_1D)
    (dispatches (calls (snd (Render 1 e w)))) = [0].
Proof. cbv zeta. repeat split; vm_compute; reflexivity. Qed.

(** C3, amended.  A render call that returns [true] has dispatched
    exactly once, with the program of its mode and the volume texture
    bound to the 3D target of unit 0.  In mode 0 the transfer function
    texture is bound to the 1D target of unit 1; in mode 2 the compute
    pass leaves that binding as it found it, that is, as it is in the
    world [w3] that the part of [Render] before the compute pass yields.
    In modes 0 and 2, with a chained renderer the colour and depth
    textures of [fbo] are bound to units 2 and 3 and [use_depth_tx] is
    1; without one [use_depth_tx] is 0, units 2 and 3 are as they were
    when [Render] was called, and so are all texture bindings of [w3].
    With a chained renderer the texture bindings of [w3] are those its
    callback left. *)
Theorem Render_compute_bindings c e w w' :
  Render c e w = (Returned true, w') ->
  let mode := m_mode (params e) in
  exists light w3 w4 p tex img vol,
    render_prefix c e w = (Next light, w3) /\
    compute_pass e light w3 = (Next tt, w4) /\
    (m_renderer_callerSlot e = None -> GL.textures (gl w3) = GL.textures (gl w)) /\
    (forall ci,
        m_renderer_callerSlot e = Some ci ->
        exists g,
          fst (FnRender ci (GetCamera (cr e)) (Time (cr e)) g) = true /\
          GL.textures (gl w3)
          = GL.textures (snd (FnRender ci (GetCamera (cr e)) (Time (cr e)) g))) /\
    dispatches (calls w') = (p, tex, img) :: dispatches (calls w) /\
    compute_program mode = Some p /\
    m_volume_texture (this w') = Some vol /\
    tex GL.TEXTURE0 GL.TEXTURE_3D = tex_name vol /\
    (mode = 0 -> tex GL.TEXTURE1 GL.TEXTURE_1D = tf_texture (this w')) /\
    (mode = 2 ->
       tex GL.TEXTURE1 GL.TEXTURE_1D = GL.textures (gl w3) GL.TEXTURE1 GL.TEXTURE_1D) /\
    (mode = 0 \/ mode = 2 ->
       match m_renderer_callerSlot e with
       | Some _ =>
           tex GL.TEXTURE2 GL.TEXTURE_2D = fbo_colour (fbo (this w')) /\
           tex GL.TEXTURE3 GL.TEXTURE_2D = fbo_depth (fbo (this w')) /\
           uniform_values "use_depth_tx" (calls w') =
             GL.U1i 1 :: uniform_values "use_depth_tx" (calls w)
       | None =>
           tex GL.TEXTURE2 GL.TEXTURE_2D = GL.textures (gl w) GL.TEXTURE2 GL.TEXTURE_2D /\
           tex GL.TEXTURE3 GL.TEXTURE_2D = GL.textures (gl w) GL.TEXTURE3 GL.TEXTURE_2D /\
           uniform_values "use_depth_tx" (calls w') =
             GL.U1i 0 :: uniform_values "use_depth_tx" (calls w)
       end).
Proof.
  intros H. cbv zeta.
  destruct (Render_true_spec _ _ _ _ H)
    as (light & w3 & w4 & Hp & Hc & Hs & Ht & D1 & D2 & _ & _ & _ & _ & U1 & U2).
  destruct (compute_pass_spec _ _ _ _ Hc)
    as (p & tex & img & vol & rt & Hvol & Hrt & Hprog & Hd & _ & T0 & _ & _ & _
        & _ & Hthis & M0 & M0' & M1 & _).
  cbv zeta in *.
  assert (Hvol' : m_volume_texture (this w') = Some vol).
  { rewrite Ht, Hthis. exact Hvol. }
  assert (Hfbo : fbo (this w') = fbo (this w3)).
  { rewrite Ht, Hthis. reflexivity. }
  assert (Htex : m_renderer_callerSlot e = None ->
                 GL.textures (gl w3) = GL.textures (gl w)).
  { intros Hci. exact (render_prefix_keeps_textures c e Hci _ _ _ Hp). }
  exists light, w3, w4, p, tex, img, vol.
  repeat apply conj; try assumption.
  - intros ci Hci. exact (render_prefix_chained_textures c e w light w3 ci Hci Hp).
  - now rewrite D2, Hd, D1.
  - intros Hm. rewrite Ht. auto.
  - intros Hm. apply M0'. lia.
  - intros Hm.
    assert (Hm1 : m_mode (params e) <> 1) by lia.
    specialize (M1 Hm1).
    destruct (m_renderer_callerSlot e) as [ci |].
    + destruct M1 as (A & B & C). rewrite Hfbo, U2, C, U1. auto.
    + destruct M1 as (A & B & C). rewrite <- (Htex eq_refl), U2, C, U1. auto.
Qed.

Lemma Render_compute_bindings_witness :
  let w := Examples.world [Delivered (Examples.float_volume 1 (2, 2, 2))] in
  let e0 := Examples.env 0 (Some Examples.chained) (Some Examples.transfer_function) in
  let e2 := Examples.env 2 (Some Examples.chained) (Some Examples.transfer_function) in
  (exists light w3 w4 p tex img vol,
      render_prefix 1 e0 w = (Next light, w3) /\
      compute_pass e0 light w3 = (Next tt, w4) /\
      (m_renderer_callerSlot e0 = None -> GL.textures (gl w3) = GL.textures (gl w)) /\
      (forall ci,
          m_renderer_callerSlot e0 = Some ci ->
          exists g,
            fst (FnRender ci (GetCamera (cr e0)) (Time (cr e0)) g) = true /\
            GL.textures (gl w3)
            = GL.textures (snd (FnRender ci (GetCamera (cr e0)) (Time (cr e0)) g))) /\
      dispatches (calls (snd (Render 1 e0 w))) = (p, tex, img) :: dispatches (calls w) /\
      compute_program 0 = Some p /\
      m_volume_texture (this (snd (Render 1 e0 w))) = Some vol /\
      tex GL.TEXTURE0 GL.TEXTURE_3D = tex_name vol /\
      (0 = 0 -> tex GL.TEXTURE1 GL.TEXTURE_1D = tf_texture (this (snd (Render 1 e0 w)))) /\
      (0 = 2 ->
         tex GL.TEXTURE1 GL.TEXTURE_1D = GL.textures (gl w3) GL.TEXTURE1 GL.TEXTURE_1D) /\
      (0 = 0 \/ 0 = 2 ->
         tex GL.TEXTURE2 GL.TEXTURE_2D = fbo_colour (fbo (this (snd (Render 1 e0 w)))) /\
         tex GL.TEXTURE3 GL.TEXTURE_2D = fbo_depth (fbo (this (snd (Render 1 e0 w)))) /\
         uniform_values "use_depth_tx" (calls (snd (Render 1 e0 w))) =
           GL.U1i 1 :: uniform_values "use_depth_tx" (calls w))) /\
  (exists light w3 w4 p tex img vol,
      render_prefix 1 e2 w = (Next light, w3) /\
      compute_pass e2 light w3 = (Next tt, w4) /\
      (m_renderer_callerSlot e2 = None -> GL.textures (gl w3) = GL.textures (gl w)) /\
      (forall ci,
          m_renderer_callerSlot e2 = Some ci ->
          exists g,
            fst (FnRender ci (GetCamera (cr e2)) (Time (cr e2)) g) = true /\
            GL.textures (gl w3)
            = GL.textures (snd (FnRender ci (GetCamera (cr e2)) (Time (cr e2)) g))) /\
      dispatches (calls (snd (Render 1 e2 w))) = (p, tex, img) :: dispatches (calls w) /\
      compute_program 2 = Some p /\
      m_volume_texture (this (snd (Render 1 e2 w))) = Some vol /\
      tex GL.TEXTURE0 GL.TEXTURE_3D = tex_name vol /\
      (2 = 0 -> tex GL.TEXTURE1 GL.TEXTURE_1D = tf_texture (this (snd (Render 1 e2 w)))) /\
      (2 = 2 ->
         tex GL.TEXTURE1 GL.TEXTURE_1D = GL.textures (gl w3) GL.TEXTURE1 GL.TEXTURE_1D) /\
      (2 = 0 \/ 2 = 2 ->
         tex GL.TEXTURE2 GL.TEXTURE_2D = fbo_colour (fbo (this (snd (Render 1 e2 w)))) /\
         tex GL.TEXTURE3 GL.TEXTURE_2D = fbo_depth (fbo (this (snd (Render 1 e2 w)))) /\
         uniform_values "use_depth_tx" (calls (snd (Render 1 e2 w))) =
           GL.U1i 1 :: uniform_values "use_depth_tx" (calls w))).
Proof.
  intros w e0 e2. split.
  - apply (Render_compute_bindings 1 e0 w). vm_compute. reflexivity.
  - apply (Render_compute_bindings 1 e2 w). vm_compute. reflexivity.
Defined.

(** ** The voxel size *)

(** C4, as stated, fails: for a volume of resolution (1, 1, 1) and unit
    extents the render call returns [true], logs no error, and the
    uniform [voxelSize] is set to plus infinity. *)
Lemma Render_voxelSize_infinite :
  let e := Examples.env 0 None None in
  let w := Examples.world [Delivered (Examples.float_volume 1 (1, 1, 1))] in
  fst (Render 1 e w) = Returned true /\
  errors (snd (Render 1 e w)) = [] /\
  uniform_values "voxelSize" (calls (snd (Render 1 e w)))
  = [GL.U1f (S754_infinity false)].
Proof. cbv zeta. repeat split; vm_compute; reflexivity. Qed.

(** C4, amended.  A render call that returns [true] sets [voxelSize]
    once, to the single precision quotient of the largest cached extent
    by the largest cached resolution minus one; for resolution
    (128, 128, 128) and unit extents that is 1/127.  The resolution is
    not checked: when the largest resolution is 1 the divisor is zero and
    the value is plus infinity for unit extents. *)
Theorem Render_voxelSize c e w w' :
  Render c e w = (Returned true, w') ->
  uniform_values "voxelSize" (calls w') =
    GL.U1f (F32.div (max3 (m_volume_extents (this w')))
              (F32.sub (max3 (m_volume_resolution (this w'))) F32.one))
    :: uniform_values "voxelSize" (calls w) /\
  voxelSize Examples.one3 (F32.of_Z 128, F32.of_Z 128, F32.of_Z 128)
  = F32.div F32.one (F32.of_Z 127) /\
  voxelSize Examples.one3 (F32.of_Z 1, F32.of_Z 1, F32.of_Z 1)
  = S754_infinity false.
Proof.
  intros H.
  destruct (Render_true_spec _ _ _ _ H)
    as (light & w3 & w4 & Hp & Hc & Hs & Ht & _ & _ & _ & _ & V1 & V2 & _).
  destruct (compute_pass_spec _ _ _ _ Hc)
    as (p & tex & img & vol & rt & _ & _ & _ & _ & _ & _ & _ & Hv & _ & _ & Hthis & _).
  cbv zeta in *.
  split; [| split; reflexivity].
  rewrite V2, Hv, V1, Ht, Hthis. reflexivity.
Qed.

Lemma Render_voxelSize_witness :
  let e := Examples.env 1 None None in
  let w := Examples.world [Delivered (Examples.float_volume 1 (128, 128, 128))] in
  let w' := snd (Render 1 e w) in
  uniform_values "voxelSize" (calls w') =
    GL.U1f (F32.div (max3 (m_volume_extents (this w')))
              (F32.sub (max3 (m_volume_resolution (this w'))) F32.one))
    :: uniform_values "voxelSize" (calls w) /\
  voxelSize Examples.one3 (F32.of_Z 128, F32.of_Z 128, F32.of_Z 128)
  = F32.div F32.one (F32.of_Z 127) /\
  voxelSize Examples.one3 (F32.of_Z 1, F32.of_Z 1, F32.of_Z 1)
  = S754_infinity false.
Proof.
  cbv zeta.
  apply (Render_voxelSize 1 (Examples.env 1 None None)
           (Examples.world [Delivered (Examples.float_volume 1 (128, 128, 128))])).
  vm_compute. reflexivity.
Defined.

(** ** Mode dispatch *)

Lemma compute_program_valid mode :
  compute_program mode <> None <-> mode = 0 \/ mode = 1 \/ mode = 2.
Proof.
  unfold compute_program.
  destruct (Z.eqb_spec mode 0); [split; [auto | discriminate] |].
  destruct (Z.eqb_spec mode 1); [split; [auto | discriminate] |].
  destruct (Z.eqb_spec mode 2); [split; [auto | discriminate] |].
  split; [congruence | lia].
Qed.

(** With an unknown mode [Render] does what precedes the compute pass
    and then reports the mode. *)
Lemma Render_unknown_mode c e w :
  compute_program (m_mode (params e)) = None ->
  Render c e w =
  match render_prefix c e w with
  | (Next _, w3) =>
      (Returned false,
       set_errors ("Unknown raycast mode."%string :: errors w3) w3)
  | (Return b, w3) => (Returned b, w3)
  | (Abort s, w3) => (Aborted s, w3)
  end.
Proof.
  intros Hm. rewrite Render_parts.
  destruct (render_prefix c e w) as [[light | b | s] w3]; try reflexivity.
  unfold compute_pass, bind. now rewrite pick_shader_unknown_mode.
Qed.

Lemma Render_integration_uniforms c e w :
  m_mode (params e) = 0 ->
  extends (fun call => negb (sets_uniform "isoValue" call)
                       && negb (sets_uniform "opacity" call))
    w (snd (Render c e w)).
Proof.
  intros Hm. destruct (Render c e w) as [r w'] eqn:H. simpl.
  revert w r w' H. render_frames extends_side.
Qed.

Lemma Render_isosurface_uniforms c e w :
  m_mode (params e) = 1 ->
  extends (fun call => negb (sets_uniform "opacityThreshold" call))
    w (snd (Render c e w)).
Proof.
  intros Hm. destruct (Render c e w) as [r w'] eqn:H. simpl.
  revert w r w' H. render_frames extends_side.
Qed.

Lemma not_set_uniform name c :
  sets_uniform name c = false ->
  match c with
  | GL.Uniform _ n v => if String.eqb n name then [v] else []
  | _ => []
  end = [].
Proof. destruct c; simpl; intros H; try reflexivity. now rewrite H. Qed.

Lemma setup_no_draw c :
  is_setup_call c = true ->
  match c with
  | GL.DrawArrays p _ _ _ t => [(p, t)]
  | _ => []
  end = [].
Proof. destruct c; simpl; intros H; try reflexivity; discriminate H. Qed.


(** ** Mode 1 and the transfer function *)

(** C10.  In mode 1 the render call is the same for every transfer
    function callee, connected or not, succeeding or failing.  It does
    not invoke the callee, does not touch the held texture name, and
    binds nothing to a 1D texture target in either pass. *)
Theorem Render_isosurface_ignores_transfer_function c e w :
  m_mode (params e) = 1 ->
  (forall tf1 tf2,
      Render c (with_transfer_function tf1 e) w
      = Render c (with_transfer_function tf2 e) w) /\
  tf_requests (snd (Render c e w)) = tf_requests w /\
  tf_texture (this (snd (Render c e w))) = tf_texture (this w) /\
  extends (fun call => negb (binds_target GL.TEXTURE_1D call)) w
    (snd (Render c e w)).
Proof.
  intros Hm. repeat apply conj.
  - intros tf1 tf2.
    now rewrite !Render_isosurface_any_transfer_function.
  - exact (Render_isosurface_keeps_requests c e w Hm).
  - exact (Render_isosurface_keeps_tf_texture c e w Hm).
  - exact (Render_isosurface_no_1D c e w Hm).
Qed.

Lemma Render_isosurface_ignores_transfer_function_witness :
  let e := Examples.env 1 None None in
  let w := Examples.world [Delivered (Examples.float_volume 1 (2, 2, 2))] in
  (forall tf1 tf2,
      Render 1 (with_transfer_function tf1 e) w
      = Render 1 (with_transfer_function tf2 e) w) /\
  tf_requests (snd (Render 1 e w)) = tf_requests w /\
  tf_texture (this (snd (Render 1 e w))) = tf_texture (this w) /\
  extends (fun call => negb (binds_target GL.TEXTURE_1D call)) w
    (snd (Render 1 e w)).
Proof.
  cbv zeta.
  apply (Render_isosurface_ignores_transfer_function 1 (Examples.env 1 None None)
           (Examples.world [Delivered (Examples.float_volume 1 (2, 2, 2))])).
  reflexivity.
Defined.

(** * Further properties *)

(** ** The grid type check, for any value of the enumerator *)

(** X1.  The test of line 607 tells the grid types other than [CARTESIAN]
    from [CARTESIAN] exactly when the enumerator has the value 0; for
    every other value it lets a foreign grid type pass or stops the
    cartesian one. *)
Theorem grid_check_exact_iff_zero c :
  (forall g, grid_type_rejected c g = negb (g =? c)) <-> c = 0.
Proof.
  unfold grid_type_rejected. split.
  - intros H. pose proof (H 0) as H0. pose proof (H 2) as H2.
    change (Z.b2z (0 =? 0)) with 1 in H0. change (Z.b2z (2 =? 0)) with 0 in H2.
    destruct (Z.eqb_spec 0 c) as [E | N0]; [now symmetry |].
    apply Z.eqb_eq in H0. subst c. discriminate H2.
  - intros -> g. destruct (Z.eqb_spec g 0); reflexivity.
Qed.

(** ** The polling loop, seen from [updateVolumeData] *)

(** X2.  Answers for other frames are discarded.  The first answer that is a
    refusal ends the call with [false] and nothing cached or issued. *)
Theorem updateVolumeData_refused c frameID w pre idx rest :
  m_volumetricData_callerSlot w = Some (pre ++ Refused idx :: rest)%list ->
  skipped frameID pre = true ->
  updateVolumeData c frameID w = (Returned false, set_source (Some rest) w).
Proof.
  intros Hs Hk. rewrite (updateVolumeData_polled _ _ _ _ Hs).
  rewrite poll_skips by assumption. reflexivity.
Qed.

Lemma updateVolumeData_refused_witness :
  updateVolumeData 1 1
    (Examples.world [Delivered (Examples.volume 5 0 (Examples.metadata 1 BITS 1 (2, 2, 2)));
                     Refused IDX_GET_DATA;
                     Delivered (Examples.float_volume 1 (2, 2, 2))])
  = (Returned false,
     set_source (Some [Delivered (Examples.float_volume 1 (2, 2, 2))])
       (Examples.world [Delivered (Examples.volume 5 0 (Examples.metadata 1 BITS 1 (2, 2, 2)));
                        Refused IDX_GET_DATA;
                        Delivered (Examples.float_volume 1 (2, 2, 2))])).
Proof.
  apply (updateVolumeData_refused 1 1
           (Examples.world [Delivered (Examples.volume 5 0 (Examples.metadata 1 BITS 1 (2, 2, 2)));
                        Refused IDX_GET_DATA;
                        Delivered (Examples.float_volume 1 (2, 2, 2))])
           [Delivered (Examples.volume 5 0 (Examples.metadata 1 BITS 1 (2, 2, 2)))]
           IDX_GET_DATA
           [Delivered (Examples.float_volume 1 (2, 2, 2))]);
    reflexivity.
Defined.

(** X3.  The first answer for the requested frame is the one that is
    uploaded: the call is the upload of that answer, run with the
    later answers still to come. *)
Theorem updateVolumeData_first_match c frameID w pre cd rest :
  m_volumetricData_callerSlot w = Some (pre ++ Delivered cd :: rest)%list ->
  skipped frameID pre = true ->
  FrameID cd = frameID ->
  updateVolumeData c frameID w
  = run (upload_volume c cd) (set_source (Some rest) w).
Proof.
  intros Hs Hk Hf. rewrite (updateVolumeData_polled _ _ _ _ Hs).
  rewrite poll_skips by assumption. simpl. unfold bind, modify.
  rewrite Hf, Z.eqb_refl. reflexivity.
Qed.

Lemma updateVolumeData_first_match_witness :
  updateVolumeData 1 1
    (Examples.world [Delivered (Examples.volume 9 0 (Examples.metadata 1 BITS 1 (2, 2, 2)));
                     Delivered (Examples.float_volume 1 (2, 2, 2))])
  = run (upload_volume 1 (Examples.float_volume 1 (2, 2, 2)))
      (set_source (Some [])
         (Examples.world [Delivered (Examples.volume 9 0 (Examples.metadata 1 BITS 1 (2, 2, 2)));
                          Delivered (Examples.float_volume 1 (2, 2, 2))])).
Proof.
  apply (updateVolumeData_first_match 1 1
           (Examples.world [Delivered (Examples.volume 9 0 (Examples.metadata 1 BITS 1 (2, 2, 2)));
                            Delivered (Examples.float_volume 1 (2, 2, 2))])
           [Delivered (Examples.volume 9 0 (Examples.metadata 1 BITS 1 (2, 2, 2)))]
           (Examples.float_volume 1 (2, 2, 2)) []);
    reflexivity.
Defined.

(** X4.  The loop has no bound: as long as the data source answers with
    other frames only, the call does not come back, whatever the number
    of answers; it has then cached nothing and issued nothing. *)
Theorem updateVolumeData_keeps_polling c frameID w answers :
  m_volumetricData_callerSlot w = Some answers ->
  skipped frameID answers = true ->
  updateVolumeData c frameID w = (Aborted StillPolling, set_source (Some []) w).
Proof.
  intros Hs Hk. rewrite (updateVolumeData_polled _ _ _ _ Hs).
  rewrite <- (app_nil_r answers). rewrite poll_skips by assumption.
  reflexivity.
Qed.

Lemma updateVolumeData_keeps_polling_witness :
  updateVolumeData 1 1
    (Examples.world (repeat (Delivered (Examples.volume 5 0
                                          (Examples.metadata 1 FLOATING_POINT 4 (2, 2, 2)))) 40))
  = (Aborted StillPolling,
     set_source (Some [])
       (Examples.world (repeat (Delivered (Examples.volume 5 0
                                             (Examples.metadata 1 FLOATING_POINT 4 (2, 2, 2)))) 40))).
Proof.
  apply (updateVolumeData_keeps_polling 1 1
           (Examples.world (repeat (Delivered (Examples.volume 5 0
                                          (Examples.metadata 1 FLOATING_POINT 4 (2, 2, 2)))) 40))
           (repeat (Delivered (Examples.volume 5 0
                                 (Examples.metadata 1 FLOATING_POINT 4 (2, 2, 2)))) 40));
    reflexivity.
Defined.

(** ** What a volume update issues *)

Lemma upload_volume_commands c cd w fmt :
  identity_changed cd (this w) = true ->
  grid_type_rejected c (GridType (GetMetadata cd)) = false ->
  select_format (ScalarType (GetMetadata cd)) (ScalarLength (GetMetadata cd))
  = inl fmt ->
  exists w',
    run (upload_volume c cd) w = (Returned true, w') /\
    calls w' =
      (match m_volume_texture (this w) with
       | Some old => [GL.DeleteTexture (tex_name old)]
       | None => []
       end
       ++ GL.TexImage GL.TEXTURE_3D (GL.next_name (gl w))
            (volume_layout (GetMetadata cd) fmt) (GetData cd)
          :: calls w)%list /\
    m_volume_texture (this w') =
      Some {| tex_name := GL.next_name (gl w);
              tex_layout := volume_layout (GetMetadata cd) fmt |} /\
    GL.next_name (gl w') = GL.next_name (gl w) + 1 /\
    GL.textures (gl w') = GL.textures (gl w) /\
    m_volumetricData_callerSlot w' = m_volumetricData_callerSlot w.
Proof.
  unfold identity_changed. intros Hi Hg Hs.
  unfold run, upload_volume, bind, get. rewrite Hi.
  unfold modify_this, modify. rewrite Hg. unfold ret.
  rewrite Hs. destruct fmt as [[i f] ty].
  destruct w as [g cs es th src n].
  destruct th as [? ? ? ? ? ? old0 ? ? ? ? ? ?]. simpl in *.
  destruct old0 as [old |];
    (eexists; split; [reflexivity |]); simpl; repeat split; reflexivity.
Qed.

(** X5.  A call that does not return [true] has issued no OpenGL command and
    has left the context as it was. *)
Theorem updateVolumeData_failure_is_silent c frameID w :
  fst (updateVolumeData c frameID w) <> Returned true ->
  gl (snd (updateVolumeData c frameID w)) = gl w /\
  calls (snd (updateVolumeData c frameID w)) = calls w.
Proof.
  destruct (m_volumetricData_callerSlot w) as [answers |] eqn:Hs.
  2:{ rewrite updateVolumeData_no_source by assumption. now split. }
  rewrite (updateVolumeData_polled _ _ _ _ Hs).
  destruct (poll frameID answers w) as [[cd | b | s] w1] eqn:Hp;
    destruct (poll_keeps _ _ _ _ _ Hp) as (Hg & Hc & _ & Ht & _);
    [| now split | now split].
  rewrite <- Hg, <- Hc.
  destruct (identity_changed cd (this w1)) eqn:Hi.
  - destruct (grid_type_rejected c (GridType (GetMetadata cd))) eqn:Hgr.
    + rewrite upload_volume_grid_rejected by assumption. now split.
    + destruct (select_format (ScalarType (GetMetadata cd)) (ScalarLength (GetMetadata cd)))
        as [fmt | msg] eqn:Hf.
      * destruct (upload_volume_uploaded c cd w1 fmt Hi Hgr Hf) as (w' & Hr & _).
        rewrite Hr. simpl. congruence.
      * rewrite (upload_volume_format_rejected c cd w1 msg) by assumption. now split.
  - unfold identity_changed in Hi. apply orb_false_iff in Hi.
    destruct Hi as [H1 H2].
    apply negb_false_iff, Z.eqb_eq in H1. apply negb_false_iff, Z.eqb_eq in H2.
    rewrite upload_volume_unchanged by assumption. simpl. congruence.
Qed.

Lemma updateVolumeData_failure_is_silent_witness :
  let w := Examples.world
             [Delivered (Examples.volume 5 1 (Examples.metadata 1 SIGNED_INTEGER 4 (2, 2, 2)))] in
  gl (snd (updateVolumeData 1 1 w)) = gl w /\
  calls (snd (updateVolumeData 1 1 w)) = calls w.
Proof.
  cbv zeta.
  apply (updateVolumeData_failure_is_silent 1 1
           (Examples.world
              [Delivered (Examples.volume 5 1
                            (Examples.metadata 1 SIGNED_INTEGER 4 (2, 2, 2)))])).
  vm_compute. discriminate.
Defined.

(** X6.  A successful upload creates the new volume texture under a fresh
    name first and then deletes the texture it replaces, if there was
    one; no other command is issued and no texture binding changes. *)
Theorem updateVolumeData_replaces_texture c frameID w answers cd w1 fmt :
  m_volumetricData_callerSlot w = Some answers ->
  poll frameID answers w = (Next cd, w1) ->
  identity_changed cd (this w) = true ->
  grid_type_rejected c (GridType (GetMetadata cd)) = false ->
  select_format (ScalarType (GetMetadata cd)) (ScalarLength (GetMetadata cd))
  = inl fmt ->
  let w' := snd (updateVolumeData c frameID w) in
  fst (updateVolumeData c frameID w) = Returned true /\
  calls w' =
    (match m_volume_texture (this w) with
     | Some old => [GL.DeleteTexture (tex_name old)]
     | None => []
     end
     ++ GL.TexImage GL.TEXTURE_3D (GL.next_name (gl w))
          (volume_layout (GetMetadata cd) fmt) (GetData cd)
        :: calls w)%list /\
  m_volume_texture (this w') =
    Some {| tex_name := GL.next_name (gl w);
            tex_layout := volume_layout (GetMetadata cd) fmt |} /\
  GL.next_name (gl w') = GL.next_name (gl w) + 1 /\
  GL.textures (gl w') = GL.textures (gl w).
Proof.
  intros Hs Hp Hi Hg Hf. cbv zeta.
  rewrite (updateVolumeData_polled _ _ _ _ Hs), Hp.
  destruct (poll_keeps _ _ _ _ _ Hp) as (Hgl & Hc & _ & Ht & _).
  rewrite <- Ht in Hi.
  destruct (upload_volume_commands c cd w1 fmt Hi Hg Hf)
    as (w' & Hr & Hcalls & Htex & Hn & Hb & _).
  rewrite Hr. simpl. rewrite Hcalls, Htex, Hn, Hb, Hgl, Hc, Ht.
  repeat split; reflexivity.
Qed.

Lemma updateVolumeData_replaces_texture_witness :
  let cd := Examples.float_volume 1 (2, 2, 2) in
  let w := Examples.world [Delivered cd] in
  let w' := snd (updateVolumeData 1 1 w) in
  fst (updateVolumeData 1 1 w) = Returned true /\
  calls w' =
    (match m_volume_texture (this w) with
     | Some old => [GL.DeleteTexture (tex_name old)]
     | None => []
     end
     ++ GL.TexImage GL.TEXTURE_3D (GL.next_name (gl w))
          (volume_layout (GetMetadata cd) (GL.R32F, GL.RED, GL.FLOAT)) (GetData cd)
        :: calls w)%list /\
  m_volume_texture (this w') =
    Some {| tex_name := GL.next_name (gl w);
            tex_layout := volume_layout (GetMetadata cd) (GL.R32F, GL.RED, GL.FLOAT) |} /\
  GL.next_name (gl w') = GL.next_name (gl w) + 1 /\
  GL.textures (gl w') = GL.textures (gl w).
Proof.
  cbv zeta.
  apply (updateVolumeData_replaces_texture 1 1
           (Examples.world [Delivered (Examples.float_volume 1 (2, 2, 2))])
           [Delivered (Examples.float_volume 1 (2, 2, 2))]
           (Examples.float_volume 1 (2, 2, 2))
           (set_source (Some [])
              (Examples.world [Delivered (Examples.float_volume 1 (2, 2, 2))]))
           (GL.R32F, GL.RED, GL.FLOAT));
    reflexivity.
Defined.


(** ** The render targets *)

Lemma create_targets_cached e w :
  targets_fit (Viewport (cr e)) (this w) = true ->
  create_targets e w = (Next tt, w).
Proof.
  unfold targets_fit, create_targets. destruct (Viewport (cr e)) as [vw vh].
  unfold bind, get. simpl fst. simpl snd.
  destruct (m_render_target (this w)) as [t |]; [| discriminate].
  intros H. apply andb_true_iff in H. destruct H as [-> ->]. reflexivity.
Qed.

Lemma create_targets_recreated e w :
  targets_fit (Viewport (cr e)) (this w) = false ->
  let n := GL.next_name (gl w) in
  let v := Viewport (cr e) in
  let colour := target_layout v GL.RGBA8 GL.RGBA GL.UNSIGNED_BYTE in
  let normal := target_layout v GL.RGBA32F GL.RGBA GL.FLOAT in
  let depth := target_layout v GL.R32F GL.R GL.FLOAT in
  exists w',
    create_targets e w = (Next tt, w') /\
    m_render_target (this w') = Some {| tex_name := n; tex_layout := colour |} /\
    m_normal_target (this w') = Some {| tex_name := n + 1; tex_layout := normal |} /\
    m_depth_target (this w') = Some {| tex_name := n + 2; tex_layout := depth |} /\
    uploads (calls w') =
      (n + 2, depth) :: (n + 1, normal) :: (n, colour) :: uploads (calls w) /\
    GL.next_name (gl w') = n + 3.
Proof.
  unfold targets_fit, create_targets. destruct (Viewport (cr e)) as [vw vh].
  simpl fst. simpl snd. intros H. cbv zeta.
  destruct w as [g cs es th src k].
  destruct th as [? ? ? ? ? ? ? rt nt dt ? ? ?].
  destruct g as [dtest bl sr dr sa da au tx im pr db fb li nn].
  simpl in H. unfold bind at 1. unfold get at 1. cbv iota beta.
  simpl this. simpl m_render_target.
  assert (C : match rt with
              | Some t => negb (getWidth t =? vw) || negb (getHeight t =? vh)
              | None => true
              end = true).
  { destruct rt as [t |]; [| reflexivity].
    destruct (getWidth t =? vw), (getHeight t =? vh); simpl in *; congruence. }
  rewrite C. clear C H.
  destruct rt, nt, dt; (eexists; split; [lazy -[Z.add]; reflexivity |]);
    lazy -[Z.add]; repeat split; try reflexivity; try lia;
    replace (nn + 1 + 1) with (nn + 2) by lia; reflexivity.
Qed.

(** X7.  The render targets follow the viewport.  [create_targets] always
    continues; afterwards the render target has the size of the
    viewport, so that a second run changes nothing.  When the cached
    target fits the viewport nothing is done at all; otherwise all
    three targets are created anew at the size of the viewport. *)
Theorem create_targets_follow_viewport e w :
  let w1 := snd (create_targets e w) in
  fst (create_targets e w) = Next tt /\
  targets_fit (Viewport (cr e)) (this w1) = true /\
  create_targets e w1 = (Next tt, w1) /\
  (if targets_fit (Viewport (cr e)) (this w) then w1 = w
   else
     exists n,
       map snd (uploads (calls w1)) =
         (target_layout (Viewport (cr e)) GL.R32F GL.R GL.FLOAT
          :: target_layout (Viewport (cr e)) GL.RGBA32F GL.RGBA GL.FLOAT
          :: target_layout (Viewport (cr e)) GL.RGBA8 GL.RGBA GL.UNSIGNED_BYTE
          :: map snd (uploads (calls w)))%list /\
       option_map tex_name (m_render_target (this w1)) = Some n /\
       option_map tex_name (m_normal_target (this w1)) = Some (n + 1) /\
       option_map tex_name (m_depth_target (this w1)) = Some (n + 2)).
Proof.
  cbv zeta. destruct (targets_fit (Viewport (cr e)) (this w)) eqn:Hfit.
  - rewrite (create_targets_cached e w Hfit). simpl.
    repeat split; try assumption. now apply create_targets_cached.
  - destruct (create_targets_recreated e w Hfit)
      as (w' & Hr & Hrt & Hnt & Hdt & Hup & _).
    rewrite Hr. simpl.
    assert (Hfit' : targets_fit (Viewport (cr e)) (this w') = true).
    { unfold targets_fit. rewrite Hrt. unfold getWidth, getHeight. simpl.
      now rewrite !Z.eqb_refl. }
    repeat split; try assumption.
    + now apply create_targets_cached.
    + exists (GL.next_name (gl w)). rewrite Hup, Hrt, Hnt, Hdt. simpl.
      repeat split; reflexivity.
Qed.


(** ** [Render] without a data source *)

Lemma render_chained_only_fails e :
  exits (fun r => r = Returned false) (render_chained e).
Proof. unfold_commands. exits_go ltac:(reflexivity). Qed.

Lemma create_targets_continues e : exits (fun _ => False) (create_targets e).
Proof. unfold_commands. exits_go fail. Qed.

Lemma render_chained_setup e : frames (extends is_setup_call) (render_chained e).
Proof. unfold_commands. frames_go extends_side. Qed.

Lemma create_targets_setup e : frames (extends is_setup_call) (create_targets e).
Proof. unfold_commands. frames_go extends_side. Qed.

Lemma render_chained_keeps_source e :
  frames (keeps (fun w => (m_volumetricData_callerSlot w, errors w)))
    (render_chained e).
Proof. unfold_commands. frames_go keeps_side. Qed.

Lemma create_targets_keeps_source e :
  frames (keeps (fun w => (m_volumetricData_callerSlot w, errors w)))
    (create_targets e).
Proof. unfold_commands. frames_go keeps_side. Qed.

Lemma setup_observations w w' :
  extends is_setup_call w w' ->
  dispatches (calls w') = dispatches (calls w) /\
  draws (calls w') = draws (calls w).
Proof.
  intros X. split.
  - apply (quiet_observations _ _ _ X setup_is_no_input).
  - unfold draws. apply (observe_extends _ _ _ _ X). apply setup_no_draw.
Qed.

Lemma create_targets_fit e w o w2 :
  create_targets e w = (o, w2) ->
  targets_fit (Viewport (cr e)) (this w2) = true.
Proof.
  intros H2.
  destruct (targets_fit (Viewport (cr e)) (this w)) eqn:Hfit.
  - rewrite (create_targets_cached e w Hfit) in H2.
    injection H2 as _ <-. exact Hfit.
  - destruct (create_targets_recreated e w Hfit) as (w' & Hr & Hrt & _).
    rewrite Hr in H2. injection H2 as _ <-.
    unfold targets_fit. rewrite Hrt. unfold getWidth, getHeight. simpl.
    now rewrite !Z.eqb_refl.
Qed.

(** X8.  Without a connected data source the render call returns [false]
    without a message in the log, and nothing is dispatched or drawn.
    The call has then done its work on the chained renderer and on the
    render targets and nothing else: the world it leaves is the one in
    which the chained renderer has run and the render targets have been
    brought to the size of the viewport, or, when the chained renderer
    refused, the one the chained renderer left. *)
Theorem Render_without_data_source c e w :
  m_volumetricData_callerSlot w = None ->
  fst (Render c e w) = Returned false /\
  snd (Render c e w) =
    match render_chained e w with
    | (Next _, w1) => snd (create_targets e w1)
    | (_, w1) => w1
    end /\
  (fst (render_chained e w) = Next tt ->
   targets_fit (Viewport (cr e)) (this (snd (Render c e w))) = true) /\
  errors (snd (Render c e w)) = errors w /\
  dispatches (calls (snd (Render c e w))) = dispatches (calls w) /\
  draws (calls (snd (Render c e w))) = draws (calls w).
Proof.
  intros Hs.
  assert (P : exists w3,
             render_prefix c e w = (Return false, w3) /\
             w3 = match render_chained e w with
                  | (Next _, w1) => snd (create_targets e w1)
                  | (_, w1) => w1
                  end /\
             (fst (render_chained e w) = Next tt ->
              targets_fit (Viewport (cr e)) (this w3) = true) /\
             errors w3 = errors w /\ extends is_setup_call w w3).
  { unfold render_prefix, bind.
    destruct (render_chained e w) as [[[] | b | s] w1] eqn:H1;
      pose proof (render_chained_only_fails e _ _ _ H1) as E1;
      pose proof (render_chained_setup e _ _ _ H1) as X1;
      pose proof (render_chained_keeps_source e _ _ _ H1) as K1;
      unfold keeps in K1; inversion K1 as [[Ks1 Ke1]]; simpl in E1.
    2:{ inversion E1. subst. exists w1. repeat split; auto.
        intros X. discriminate X. }
    2:{ discriminate E1. }
    destruct (create_targets e w1) as [[[] | b | s] w2] eqn:H2;
      pose proof (create_targets_continues e _ _ _ H2) as E2;
      pose proof (create_targets_setup e _ _ _ H2) as X2;
      pose proof (create_targets_keeps_source e _ _ _ H2) as K2;
      pose proof (create_targets_fit e _ _ _ H2) as F2;
      unfold keeps in K2; inversion K2 as [[Ks2 Ke2]]; simpl in E2;
      try contradiction.
    unfold get, invoke.
    rewrite updateVolumeData_no_source by congruence. cbn [negb snd].
    exists w2. split; [reflexivity |].
    split; [reflexivity |]. split; [intros _; exact F2 |].
    split; [congruence |].
    eapply extends_trans; eauto. }
  destruct P as (w3 & Hp & Hw & Hf & He & X).
  rewrite Render_parts, Hp. cbn [fst snd].
  destruct (setup_observations _ _ X). rewrite <- Hw. auto 10.
Qed.

Lemma Render_without_data_source_witness :
  let e := Examples.env 0 (Some Examples.chained) None in
  let w := set_source None (Examples.world []) in
  fst (Render 1 e w) = Returned false /\
  snd (Render 1 e w) =
    match render_chained e w with
    | (Next _, w1) => snd (create_targets e w1)
    | (_, w1) => w1
    end /\
  (fst (render_chained e w) = Next tt ->
   targets_fit (Viewport (cr e)) (this (snd (Render 1 e w))) = true) /\
  errors (snd (Render 1 e w)) = errors w /\
  dispatches (calls (snd (Render 1 e w))) = dispatches (calls w) /\
  draws (calls (snd (Render 1 e w))) = draws (calls w).
Proof.
  intros e w.
  apply (Render_without_data_source 1 e w).
  reflexivity.
Defined.


(** ** A chained renderer that refuses *)

(** X9.  When the callback of the chained renderer reports failure, the
    render call returns [false] at once, with the context exactly as the
    callback left it.  In modes 0 and 2 the callback was handed a
    context in which the renderer's framebuffer object is bound, and it
    is not unbound afterwards; the render targets are not looked at. *)
Theorem Render_chained_refusal c e w vp f :
  m_renderer_callerSlot e =
    Some {| ci_viewport := vp; FnRender := fun cam t g => (false, f cam t g) |} ->
  let mode := m_mode (params e) in
  let w' := snd (Render c e w) in
  fst (Render c e w) = Returned false /\
  dispatches (calls w') = dispatches (calls w) /\
  draws (calls w') = draws (calls w) /\
  m_render_target (this w') = m_render_target (this w) /\
  exists g,
    gl w' = f (GetCamera (cr e)) (Time (cr e)) g /\
    GL.framebuffer g =
      (if (mode =? 0) || (mode =? 2) then fbo_name (fbo (this w'))
       else GL.framebuffer (gl w)) /\
    (if (mode =? 0) || (mode =? 2) then
       fbo_valid (fbo (this w')) = true /\
       fbo_name (fbo (this w')) = GL.next_name (gl w) /\
       fbo_previous (fbo (this w')) = GL.framebuffer (gl w)
     else this w' = this w).
Proof.
  intros Hci. cbv zeta.
  destruct e as [p ci0 tf call img]. simpl in Hci. subst ci0.
  destruct p as [m ? ? ? ? ? ? ? ? ? ? ? ? ? ? ? ?].
  destruct w as [g cs es th src n].
  destruct th as [? ? ? ? ? ? ? ? ? ? [valid ? ? ? ?] ? ?].
  destruct g as [dtest bl sr dr sa da au tx im pr db fb li nn].
  rewrite Render_parts. unfold render_prefix. unfold bind at 1.
  cbn [m_mode params cr].
  destruct (mode_cases m) as [-> | [-> | [-> | (E0 & E1 & E2)]]].
  - destruct valid; lazy -[Z.add]; repeat split; eexists; repeat split.
  - destruct valid; lazy -[Z.add]; repeat split; eexists; repeat split.
  - destruct valid; lazy -[Z.add]; repeat split; eexists; repeat split.
  - unfold render_chained. cbn [m_mode params m_renderer_callerSlot].
    rewrite E0, E2.
    destruct valid; lazy -[Z.add]; repeat split; eexists; repeat split.
Qed.

Lemma Render_chained_refusal_witness :
  let e := Examples.env 0
             (Some {| ci_viewport := (16, 8);
                      FnRender := fun cam t g => (false, GL.set_blend true g) |})
             None in
  let w := Examples.world [Delivered (Examples.float_volume 1 (2, 2, 2))] in
  let mode := m_mode (params e) in
  let w' := snd (Render 1 e w) in
  fst (Render 1 e w) = Returned false /\
  dispatches (calls w') = dispatches (calls w) /\
  draws (calls w') = draws (calls w) /\
  m_render_target (this w') = m_render_target (this w) /\
  exists g,
    gl w' = GL.set_blend true g /\
    GL.framebuffer g =
      (if (mode =? 0) || (mode =? 2) then fbo_name (fbo (this w'))
       else GL.framebuffer (gl w)) /\
    (if (mode =? 0) || (mode =? 2) then
       fbo_valid (fbo (this w')) = true /\
       fbo_name (fbo (this w')) = GL.next_name (gl w) /\
       fbo_previous (fbo (this w')) = GL.framebuffer (gl w)
     else this w' = this w).
Proof.
  intros e w.
  apply (Render_chained_refusal 1 e w (16, 8)
           (fun _ _ g => GL.set_blend true g)).
  reflexivity.
Defined.


(** ** What the compute pass leaves behind *)

Ltac eval_bound_in H :=
  lazy -[GL.bind2 GL.bind1 F32.of_Z F32.div F32.sub F32.mul F32.add F32.max
         F32.ceil_int F32.one F32.two F32.eight scan_alpha Z.to_nat Z.mul
         int_mul vector_too_long] in H.

Ltac case_bindings :=
  intros; unfold GL.bind2, GL.bind1;
  repeat match goal with
         | |- context [if ?b then _ else _] => destruct b
         end;
  auto.

Ltac close_effects :=
  first [ solve [eval_goal; repeat apply conj; reflexivity]
        | solve [intros X; first [discriminate X | exfalso; apply X; reflexivity]]
        | solve [intros _; eval_goal; repeat apply conj; reflexivity]
        | solve [intros _; do 2 eexists; eval_goal; repeat apply conj; reflexivity]
        | solve [simpl; case_bindings] ].

Lemma compute_pass_effects e light w w' :
  compute_pass e light w = (Next tt, w') ->
  let mode := m_mode (params e) in
  exists p tex img rt,
    m_render_target (this w) = Some rt /\
    dispatches (calls w') = (p, tex, img) :: dispatches (calls w) /\
    dispatch_groups (calls w') =
      (F32.ceil_int (F32.div (F32.of_Z (getWidth rt)) F32.eight),
       F32.ceil_int (F32.div (F32.of_Z (getHeight rt)) F32.eight), 1)
      :: dispatch_groups (calls w) /\
    uniform_values "valRange" (calls w') =
      valRange_uniform (params e) (this w) :: uniform_values "valRange" (calls w) /\
    img 0 = tex_name rt /\
    (mode = 1 ->
       exists nt dt,
         m_normal_target (this w) = Some nt /\
         m_depth_target (this w) = Some dt /\
         img 1 = tex_name nt /\ img 2 = tex_name dt) /\
    GL.program (gl w') = None /\
    GL.active_texture (gl w') = GL.TEXTURE0 /\
    blend_state (gl w') = blend_state (gl w) /\
    GL.framebuffer (gl w') = GL.framebuffer (gl w) /\
    GL.textures (gl w') GL.TEXTURE0 GL.TEXTURE_3D = 0 /\
    GL.images (gl w') 0 = 0 /\
    (forall u t, GL.textures (gl w') u t = 0
                 \/ GL.textures (gl w') u t = GL.textures (gl w) u t) /\
    (forall s, GL.images (gl w') s = 0 \/ GL.images (gl w') s = GL.images (gl w) s) /\
    gui_visible (this w') = (mode =? 0, mode =? 1, mode =? 1).
Proof.
  intros H. cbv zeta.
  destruct e as [p ci tf call img]. destruct p as [m ? ? ? ? ? ? ? ? ? ? ? ? ? ovr ? ?].
  destruct w as [g cs es th src n].
  destruct th as [? ? [[o0 o1] o2] [[e0 e1] e2] ? ? vol rt nt dt ? ? ?].
  destruct g as [dtest bl sr dr sa da au tx im pr db fb li nn].
  unfold compute_pass in H. cbn [m_mode params].
  destruct (mode_cases m) as [-> | [-> | [-> | (E0 & E1 & E2)]]].
  - destruct ci, tf as [[[] ?] |], ovr, rt as [rt |], vol as [vol |];
      eval_bound_in H; try discriminate H;
      injection H as <-;
      do 4 eexists; repeat apply conj; close_effects.
  - destruct ci, ovr, rt as [rt |], vol as [vol |], nt as [nt |], dt as [dt |];
      eval_bound_in H; try discriminate H;
      injection H as <-;
      do 4 eexists; repeat apply conj; close_effects.
  - destruct ci, tf as [[[] ?] |], ovr, rt as [rt |], vol as [vol |];
      eval_bound_in H; try discriminate H;
      injection H as <-;
      do 4 eexists; repeat apply conj; close_effects.
  - unfold bind at 1 in H.
    rewrite pick_shader_unknown_mode in H
      by (unfold compute_program; simpl; now rewrite E0, E1, E2).
    discriminate H.
Qed.


(** ** What the compositing pass does *)

Ltac strip_log l cs :=
  match l with
  | cs => constr:(@nil GL.Call)
  | ?c :: ?l' => let r := strip_log l' cs in constr:(c :: r)
  end.

Ltac give_new_calls :=
  match goal with
  | |- exists new, ?l = (new ++ ?cs)%list /\ _ =>
      let n := strip_log l cs in exists n
  end.

Ltac eval_suffix :=
  lazy -[F32.of_Z F32.div F32.sub F32.mul F32.add F32.max
         F32.ceil_int F32.one F32.two F32.eight scan_alpha Z.to_nat Z.mul
         int_mul vector_too_long].

Ltac close_suffix :=
  first [ solve [eval_suffix; repeat apply conj; reflexivity]
        | solve [intros X; first [discriminate X | exfalso; apply X; reflexivity]]
        | solve [intros _; eval_suffix; repeat apply conj; reflexivity]
        | solve [intros _; do 2 eexists; eval_suffix; repeat apply conj; reflexivity]
        | solve [simpl; case_bindings]
        | solve [cbn [calls gl]; give_new_calls; split;
                 [reflexivity | eval_suffix; reflexivity]] ].

Lemma render_suffix_effects e w w' :
  run (render_suffix e) w = (Returned true, w') ->
  let mode := m_mode (params e) in
  exists tex rt,
    m_render_target (this w) = Some rt /\
    draws (calls w') = (composite_program mode, tex) :: draws (calls w) /\
    tex GL.TEXTURE0 GL.TEXTURE_2D = tex_name rt /\
    (mode = 1 ->
       exists nt dt,
         m_normal_target (this w) = Some nt /\
         m_depth_target (this w) = Some dt /\
         tex GL.TEXTURE1 GL.TEXTURE_2D = tex_name nt /\
         tex GL.TEXTURE2 GL.TEXTURE_2D = tex_name dt /\
         GL.draw_buffers (gl w')
         = [GL.COLOR_ATTACHMENT0_EXT; GL.COLOR_ATTACHMENT1_EXT]) /\
    (mode <> 1 -> GL.draw_buffers (gl w') = GL.draw_buffers (gl w)) /\
    (mode = 2 ->
       tex GL.TEXTURE1 GL.TEXTURE_1D = tf_texture (this w) /\
       uniform_values "valRange" (calls w') =
         GL.U2f (fst (read_back_range e rt)) (snd (read_back_range e rt))
         :: uniform_values "valRange" (calls w)) /\
    (mode <> 2 ->
       uniform_values "valRange" (calls w') = uniform_values "valRange" (calls w)) /\
    this w' = this w /\
    GL.program (gl w') = None /\
    GL.active_texture (gl w') = GL.TEXTURE0 /\
    blend_state (gl w') = blend_state (gl w) /\
    GL.framebuffer (gl w') = GL.framebuffer (gl w) /\
    GL.images (gl w') = GL.images (gl w) /\
    GL.textures (gl w') GL.TEXTURE0 GL.TEXTURE_2D = 0 /\
    (forall u t, GL.textures (gl w') u t = 0
                 \/ GL.textures (gl w') u t = GL.textures (gl w) u t) /\
    (exists new,
        calls w' = (new ++ calls w)%list /\
        map blend_state (draw_contexts new (gl w)) =
          [(if (mode =? 0) || (mode =? 2) then false
            else if mode =? 1 then true else GL.depth_test (gl w),
            true,
            (GL.SRC_ALPHA, GL.ONE_MINUS_SRC_ALPHA,
             GL.SRC_ALPHA, GL.ONE_MINUS_SRC_ALPHA))]).
Proof.
  intros H. cbv zeta.
  destruct e as [p ci tf call img]. destruct p as [m ? ? ? ? ? ? ? ? ? ? ? ? ? ? ? ?].
  destruct w as [g cs es th src n].
  destruct th as [? ? ? ? ? ? ? rt nt dt ? ? ?].
  destruct g as [dtest bl sr dr sa da au tx im pr db fb li nn].
  cbn [m_mode params].
  destruct (mode_cases m) as [-> | [-> | [-> | (E0 & E1 & E2)]]].
  - destruct rt as [rt |], dtest, bl;
      eval_bound_in H; try discriminate H;
      injection H as <-;
      do 2 eexists; repeat apply conj; close_suffix.
  - destruct rt as [rt |], nt as [nt |], dt as [dt |], dtest, bl;
      eval_bound_in H; try discriminate H;
      injection H as <-;
      do 2 eexists; repeat apply conj; close_suffix.
  - destruct rt as [rt |], dtest, bl;
      eval_bound_in H; try discriminate H;
      (match type of H with
       | context [vector_too_long ?n] => destruct (vector_too_long n)
       end;
       eval_bound_in H; [discriminate H |]);
      injection H as <-;
      do 2 eexists; repeat apply conj; close_suffix.
  - unfold render_suffix, read_back, composite_pass, composite_program in *.
    cbn [m_mode params] in *. rewrite ?E0, ?E1, ?E2 in *. cbv zeta in H.
    rewrite ?E0, ?E1, ?E2 in *.
    destruct rt as [rt |], dtest, bl;
      eval_bound_in H; try discriminate H;
      injection H as <-;
      do 2 eexists; repeat apply conj;
      first [ close_suffix
            | solve [intros X; subst m; discriminate]
            | solve [rewrite ?E0, ?E1, ?E2; close_suffix] ].
Qed.


(** ** The frame as a whole *)


Lemma updateVolumeData_keeps_targets c t :
  frames (keeps (fun w => m_render_target (this w)))
    (invoke (updateVolumeData c t)).
Proof.
  unfold updateVolumeData, upload_volume. unfold_commands. frames_go keeps_side.
Qed.

Lemma render_prefix_targets_fit c e w light w3 :
  render_prefix c e w = (Next light, w3) ->
  targets_fit (Viewport (cr e)) (this w3) = true.
Proof.
  intros H. destruct (render_prefix_inv _ _ _ _ _ H) as (w1 & w2 & _ & H2 & H3).
  assert (F : targets_fit (Viewport (cr e)) (this w2) = true).
  { destruct (targets_fit (Viewport (cr e)) (this w1)) eqn:Hfit.
    - rewrite (create_targets_cached e w1 Hfit) in H2.
      injection H2 as <-. exact Hfit.
    - destruct (create_targets_recreated e w1 Hfit) as (w' & Hr & Hrt & _).
      rewrite Hr in H2. injection H2 as <-.
      unfold targets_fit. rewrite Hrt. unfold getWidth, getHeight. simpl.
      now rewrite !Z.eqb_refl. }
  pose proof (updateVolumeData_keeps_targets _ _ _ _ _ H3) as K.
  unfold keeps in K. unfold targets_fit in *. now rewrite K.
Qed.

Lemma compute_pass_no_draw e light :
  frames (extends (fun c => negb (match c with
                                  | GL.DrawArrays _ _ _ _ _ => true
                                  | _ => false
                                  end)))
    (compute_pass e light).
Proof.
  unfold compute_pass, updateTransferFunction.
  unfold_commands. frames_go extends_side.
Qed.

Lemma compute_pass_keeps_members e light :
  frames (keeps (fun w => (m_render_target (this w), m_normal_target (this w),
                           m_depth_target (this w), valRange (this w),
                           GL.draw_buffers (gl w))))
    (compute_pass e light).
Proof.
  unfold compute_pass, updateTransferFunction.
  unfold_commands. frames_go keeps_side.
Qed.

Lemma no_draw_observation P w w' :
  extends P w w' ->
  (forall c, P c = true ->
             match c with GL.DrawArrays _ _ _ _ _ => false | _ => true end = true) ->
  draws (calls w') = draws (calls w).
Proof.
  intros X HP. unfold draws. apply (observe_extends _ _ _ _ X).
  intros c Hc. specialize (HP c Hc). destruct c; try reflexivity; discriminate HP.
Qed.

Lemma no_dispatch_observation P w w' :
  extends P w w' ->
  (forall c, P c = true ->
             match c with
             | GL.DispatchCompute _ _ _ _ _ _ => false
             | _ => true
             end = true) ->
  dispatch_groups (calls w') = dispatch_groups (calls w).
Proof.
  intros X HP. unfold dispatch_groups. apply (observe_extends _ _ _ _ X).
  intros c Hc. specialize (HP c Hc). destruct c; try reflexivity; discriminate HP.
Qed.



Lemma all_from_spec f start count :
  all_from f start count = true ->
  forall n, start <= n < start + Z.of_nat count -> f n = true.
Proof.
  revert start. induction count as [| k IH]; intros start H n Hn.
  - simpl in Hn. lia.
  - simpl in H. apply andb_true_iff in H. destruct H as [H0 H1].
    destruct (Z.eq_dec n start) as [-> | Hne]; [exact H0 |].
    apply (IH (start + 1) H1). lia.
Qed.

Lemma group_count_checked :
  all_from (fun n => group_count n =? (n + 7) / 8) 0 (Z.to_nat 65537) = true.
Proof. vm_compute. reflexivity. Qed.

Lemma group_count_ceil n :
  0 <= n <= 65536 -> group_count n = (n + 7) / 8.
Proof.
  intros Hn. apply Z.eqb_eq.
  apply (all_from_spec _ _ _ group_count_checked). lia.
Qed.

(** A frame that returns [true], in full: the worlds between its three
    parts and what each part contributes to the log. *)
Lemma Render_true_passes c e w w' :
  Render c e w = (Returned true, w') ->
  exists light w3 w4,
    render_prefix c e w = (Next light, w3) /\
    compute_pass e light w3 = (Next tt, w4) /\
    run (render_suffix e) w4 = (Returned true, w') /\
    targets_fit (Viewport (cr e)) (this w3) = true /\
    extends is_setup_call w w3 /\
    extends (fun c => negb (is_raycast_input c)) w4 w' /\
    draws (calls w4) = draws (calls w) /\
    m_render_target (this w4) = m_render_target (this w3) /\
    m_normal_target (this w4) = m_normal_target (this w3) /\
    m_depth_target (this w4) = m_depth_target (this w3) /\
    valRange (this w4) = valRange (this w3) /\
    GL.draw_buffers (gl w4) = GL.draw_buffers (gl w3).
Proof.
  intros H. destruct (Render_true_inv _ _ _ _ H) as (light & w3 & w4 & Hp & Hc & Hs).
  exists light, w3, w4.
  pose proof (render_prefix_setup c e _ _ _ Hp) as X1.
  assert (X2 : extends (fun c => negb (is_raycast_input c)) w4 w').
  { eapply frames_run; try exact Hs; try solve [extends_side].
    apply render_suffix_quiet. }
  pose proof (compute_pass_no_draw _ _ _ _ _ Hc) as X3.
  pose proof (compute_pass_keeps_members _ _ _ _ _ Hc) as K.
  unfold keeps in K. injection K as K1 K2 K3 K4 K5.
  repeat apply conj; try assumption.
  - eapply render_prefix_targets_fit; eassumption.
  - transitivity (draws (calls w3)).
    + apply (no_draw_observation _ _ _ X3).
      intros c0 Hc0. destruct c0; try reflexivity; discriminate Hc0.
    + apply (no_draw_observation _ _ _ X1).
      intros c0 Hc0. destruct c0; try reflexivity; discriminate Hc0.
Qed.


(** ** Frames that get through *)

Lemma int_mul_small a b :
  0 <= a * b < 2 ^ 31 -> int_mul a b = a * b.
Proof.
  intros H. unfold int_mul, int_wrap.
  rewrite Z.mod_small; lia.
Qed.

Lemma vector_fits width height :
  0 <= width * height * 4 < 2 ^ 31 ->
  vector_too_long (int_mul (int_mul width height) 4) = false.
Proof.
  intros H. rewrite (int_mul_small width height) by lia.
  rewrite int_mul_small by lia. unfold vector_too_long. apply Z.ltb_ge. lia.
Qed.

(** With a valid mode, a volume texture and the render targets the mode
    writes to, the compute pass comes back. *)
Lemma compute_pass_returns e light w rt vol :
  m_render_target (this w) = Some rt ->
  m_volume_texture (this w) = Some vol ->
  let mode := m_mode (params e) in
  mode = 0 \/ mode = 1 \/ mode = 2 ->
  (mode = 1 ->
   m_normal_target (this w) <> None /\ m_depth_target (this w) <> None) ->
  exists w', compute_pass e light w = (Next tt, w').
Proof.
  cbv zeta.
  destruct e as [p ci tf call img]. destruct p as [m ? ? ? ? ? ? ? ? ? ? ? ? ? ovr ? ?].
  destruct w as [g cs es th src n].
  destruct th as [? ? [[o0 o1] o2] [[e0 e1] e2] ? ? vol0 rt0 nt dt ? ? ?].
  destruct g as [dtest bl sr dr sa da au tx im pr db fb li nn].
  cbn [m_mode params this m_render_target m_volume_texture m_normal_target
         m_depth_target].
  intros -> -> Hm Hn. unfold compute_pass.
  destruct Hm as [-> | [-> | ->]].
  - destruct ci, tf as [[[] ?] |], ovr; eexists; eval_goal; reflexivity.
  - destruct (Hn eq_refl) as [Hnt Hdt].
    destruct nt as [nt |]; [| now elim Hnt].
    destruct dt as [dt |]; [| now elim Hdt].
    destruct ci, ovr; eexists; eval_goal; reflexivity.
  - destruct ci, tf as [[[] ?] |], ovr; eexists; eval_goal; reflexivity.
Qed.

(** With the render targets its mode reads and, in mode 2, an image
    small enough for the vector it is read into, what follows the
    compute pass returns [true]. *)
Lemma render_suffix_returns e w rt :
  m_render_target (this w) = Some rt ->
  let mode := m_mode (params e) in
  mode = 0 \/ mode = 1 \/ mode = 2 ->
  (mode = 1 ->
   m_normal_target (this w) <> None /\ m_depth_target (this w) <> None) ->
  (mode = 2 -> 0 <= getWidth rt * getHeight rt * 4 < 2 ^ 31) ->
  exists w', run (render_suffix e) w = (Returned true, w').
Proof.
  cbv zeta.
  destruct e as [p ci tf call img]. destruct p as [m ? ? ? ? ? ? ? ? ? ? ? ? ? ? ? ?].
  destruct w as [g cs es th src n].
  destruct th as [? ? ? ? ? ? ? rt0 nt dt ? ? ?].
  destruct g as [dtest bl sr dr sa da au tx im pr db fb li nn].
  cbn [m_mode params this m_render_target m_normal_target m_depth_target].
  intros -> Hm Hn Hv.
  destruct Hm as [-> | [-> | ->]].
  - destruct dtest, bl; eexists; eval_suffix; reflexivity.
  - destruct (Hn eq_refl) as [Hnt Hdt].
    destruct nt as [nt |]; [| now elim Hnt].
    destruct dt as [dt |]; [| now elim Hdt].
    destruct dtest, bl; eexists; eval_suffix; reflexivity.
  - pose proof (vector_fits _ _ (Hv eq_refl)) as V.
    lazy -[int_mul vector_too_long] in V.
    destruct dtest, bl; eexists; eval_suffix;
      (match goal with
       | |- context [vector_too_long ?n] =>
           destruct (vector_too_long n); [discriminate V |]
       end);
      eval_suffix; reflexivity.
Qed.

(** A frame with a valid mode gets through once it is past the volume
    update, given the volume texture, the render targets of its mode
    and, in mode 2, a viewport whose image fits the vector. *)
Lemma Render_returns c e w light w3 :
  render_prefix c e w = (Next light, w3) ->
  let mode := m_mode (params e) in
  mode = 0 \/ mode = 1 \/ mode = 2 ->
  m_volume_texture (this w3) <> None ->
  (mode = 1 ->
   m_normal_target (this w3) <> None /\ m_depth_target (this w3) <> None) ->
  (mode = 2 ->
   0 <= fst (Viewport (cr e)) * snd (Viewport (cr e)) * 4 < 2 ^ 31) ->
  fst (Render c e w) = Returned true.
Proof.
  intros Hp. cbv zeta. intros Hm Hvol Hn Hv.
  pose proof (render_prefix_targets_fit _ _ _ _ _ Hp) as Hfit.
  unfold targets_fit in Hfit.
  destruct (m_render_target (this w3)) as [rt |] eqn:Hrt; [| discriminate].
  apply andb_true_iff in Hfit. destruct Hfit as [Fw Fh].
  apply Z.eqb_eq in Fw, Fh.
  destruct (m_volume_texture (this w3)) as [vol |] eqn:Hvt; [| now elim Hvol].
  destruct (compute_pass_returns e light w3 rt vol Hrt Hvt Hm Hn) as (w4 & Hc).
  pose proof (compute_pass_keeps_members _ _ _ _ _ Hc) as K. unfold keeps in K.
  injection K as K1 K2 K3 _ _.
  assert (Hrt4 : m_render_target (this w4) = Some rt) by congruence.
  destruct (render_suffix_returns e w4 rt Hrt4 Hm) as (w' & Hs).
  - rewrite K2, K3. exact Hn.
  - rewrite Fw, Fh. exact Hv.
  - rewrite Render_parts, Hp, Hc, Hs. reflexivity.
Qed.

(** C7.  A render call that returns [true] was given one of the modes
    0, 1, 2, has dispatched once, with the compute program of that
    mode, and has set, of the three uniforms that belong to one mode,
    exactly those of its mode: the opacity threshold in mode 0, the iso
    value and the surface opacity in mode 1, none in mode 2.  And with
    each of the three modes the call does return [true] once it is past
    the volume update, provided the volume texture exists, in mode 1
    the normal and depth targets exist, and in mode 2 the image of the
    viewport fits the vector it is read into.  Whatever the call
    returns, mode 0 never sets the iso value or the surface opacity and
    mode 1 never sets the opacity threshold.  With any other mode value
    the call does not return [true] and issues neither a dispatch nor a
    draw; when it gets past the volume update it logs
    "Unknown raycast mode." and returns [false]. *)
Theorem Render_mode_dispatch c e w :
  let mode := m_mode (params e) in
  let r := fst (Render c e w) in
  let w' := snd (Render c e w) in
  (r = Returned true ->
     (mode = 0 \/ mode = 1 \/ mode = 2) /\
     (exists p tex img,
         compute_program mode = Some p /\
         dispatches (calls w') = (p, tex, img) :: dispatches (calls w)) /\
     mode_specific_uniforms (calls w') =
       (uniforms_of_mode (params e) ++ mode_specific_uniforms (calls w))%list) /\
  (mode = 0 \/ mode = 1 \/ mode = 2 ->
     forall light w3,
       render_prefix c e w = (Next light, w3) ->
       m_volume_texture (this w3) <> None ->
       (mode = 1 ->
        m_normal_target (this w3) <> None /\ m_depth_target (this w3) <> None) ->
       (mode = 2 ->
        0 <= fst (Viewport (cr e)) * snd (Viewport (cr e)) * 4 < 2 ^ 31) ->
       r = Returned true) /\
  (mode = 0 ->
     uniform_values "isoValue" (calls w') = uniform_values "isoValue" (calls w) /\
     uniform_values "opacity" (calls w') = uniform_values "opacity" (calls w)) /\
  (mode = 1 ->
     uniform_values "opacityThreshold" (calls w')
     = uniform_values "opacityThreshold" (calls w)) /\
  (mode <> 0 -> mode <> 1 -> mode <> 2 ->
     r <> Returned true /\
     (r = Returned false \/ r = Aborted StillPolling) /\
     dispatches (calls w') = dispatches (calls w) /\
     draws (calls w') = draws (calls w) /\
     forall light w3,
       render_prefix c e w = (Next light, w3) ->
       r = Returned false /\
       errors w' = ("Unknown raycast mode."%string :: errors w3)).
Proof.
  cbv zeta. repeat apply conj.
  - intros Hr.
    destruct (Render c e w) as [r w'] eqn:H. simpl in *. subst r.
    destruct (Render_true_spec _ _ _ _ H)
      as (light & w3 & w4 & Hp & Hc & Hs & Ht & D1 & D2 & M1 & M2 & _).
    destruct (compute_pass_spec _ _ _ _ Hc)
      as (p & tex & img & vol & rt & _ & _ & Hprog & Hd & _ & _ & _ & _ & Hm & _).
    cbv zeta in *. repeat apply conj.
    + apply compute_program_valid. congruence.
    + exists p, tex, img. split; [exact Hprog |]. now rewrite D2, Hd, D1.
    + now rewrite M2, Hm, M1.
  - intros Hm light w3 Hp Hvol Hn Hv.
    exact (Render_returns c e w light w3 Hp Hm Hvol Hn Hv).
  - intros Hm. pose proof (Render_integration_uniforms c e w Hm) as X.
    unfold uniform_values.
    split; apply (observe_extends _ _ _ _ X); intros call Hc;
      apply andb_true_iff in Hc; destruct Hc as [H1 H2];
      apply negb_true_iff in H1; apply negb_true_iff in H2;
      now apply not_set_uniform.
  - intros Hm. pose proof (Render_isosurface_uniforms c e w Hm) as X.
    unfold uniform_values.
    apply (observe_extends _ _ _ _ X); intros call Hc.
    apply negb_true_iff in Hc. now apply not_set_uniform.
  - intros H0 H1 H2.
    assert (Hprog : compute_program (m_mode (params e)) = None).
    { destruct (compute_program (m_mode (params e))) eqn:E; [| reflexivity].
      assert (X : compute_program (m_mode (params e)) <> None) by congruence.
      apply compute_program_valid in X. lia. }
    rewrite (Render_unknown_mode c e w Hprog).
    destruct (render_prefix c e w) as [[light | b | s] w3] eqn:Hp;
      pose proof (render_prefix_setup c e _ _ _ Hp) as X;
      pose proof (render_prefix_exits c e _ _ _ Hp) as Y;
      simpl in Y |- *.
    + destruct (quiet_observations _ _ _ X setup_is_no_input) as (D & _).
      repeat apply conj.
      * discriminate.
      * now left.
      * exact D.
      * unfold draws. apply (observe_extends _ _ _ _ X). apply setup_no_draw.
      * intros light' w3' Heq. inversion Heq; subst. now split.
    + destruct (quiet_observations _ _ _ X setup_is_no_input) as (D & _).
      repeat apply conj.
      * destruct Y as [Y | Y]; inversion Y; discriminate.
      * exact Y.
      * exact D.
      * unfold draws. apply (observe_extends _ _ _ _ X). apply setup_no_draw.
      * intros light' w3' Heq. discriminate Heq.
    + destruct (quiet_observations _ _ _ X setup_is_no_input) as (D & _).
      repeat apply conj.
      * discriminate.
      * exact Y.
      * exact D.
      * unfold draws. apply (observe_extends _ _ _ _ X). apply setup_no_draw.
      * intros light' w3' Heq. discriminate Heq.
Qed.

Lemma Render_mode_dispatch_witness :
  let w := Examples.world [Delivered (Examples.float_volume 1 (2, 2, 2))] in
  let e0 := Examples.env 0 None (Some Examples.transfer_function) in
  let e1 := Examples.env 1 None None in
  let e2 := Examples.env 2 (Some Examples.chained) (Some Examples.transfer_function) in
  let e7 := Examples.env 7 None None in
  (fst (Render 1 e0 w) = Returned true /\
   (exists p tex img,
       compute_program (m_mode (params e0)) = Some p /\
       dispatches (calls (snd (Render 1 e0 w))) = (p, tex, img) :: dispatches (calls w)) /\
   mode_specific_uniforms (calls (snd (Render 1 e0 w))) =
     (uniforms_of_mode (params e0) ++ mode_specific_uniforms (calls w))%list) /\
  (fst (Render 1 e1 w) = Returned true /\
   (exists p tex img,
       compute_program (m_mode (params e1)) = Some p /\
       dispatches (calls (snd (Render 1 e1 w))) = (p, tex, img) :: dispatches (calls w)) /\
   mode_specific_uniforms (calls (snd (Render 1 e1 w))) =
     (uniforms_of_mode (params e1) ++ mode_specific_uniforms (calls w))%list) /\
  (fst (Render 1 e2 w) = Returned true /\
   (exists p tex img,
       compute_program (m_mode (params e2)) = Some p /\
       dispatches (calls (snd (Render 1 e2 w))) = (p, tex, img) :: dispatches (calls w)) /\
   mode_specific_uniforms (calls (snd (Render 1 e2 w))) =
     (uniforms_of_mode (params e2) ++ mode_specific_uniforms (calls w))%list) /\
  fst (Render 1 e7 w) <> Returned true /\
  (fst (Render 1 e7 w) = Returned false \/ fst (Render 1 e7 w) = Aborted StillPolling) /\
  dispatches (calls (snd (Render 1 e7 w))) = dispatches (calls w) /\
  draws (calls (snd (Render 1 e7 w))) = draws (calls w) /\
  forall light w3,
    render_prefix 1 e7 w = (Next light, w3) ->
    fst (Render 1 e7 w) = Returned false /\
    errors (snd (Render 1 e7 w)) = ("Unknown raycast mode."%string :: errors w3).
Proof.
  intros w e0 e1 e2 e7.
  assert (R0 : fst (Render 1 e0 w) = Returned true).
  { apply (proj1 (proj2 (Render_mode_dispatch 1 e0 w)) (or_introl eq_refl)
             (GL.light0_position (gl w)) (snd (render_prefix 1 e0 w))).
    - vm_compute. reflexivity.
    - vm_compute. discriminate.
    - intros X. discriminate X.
    - intros X. discriminate X. }
  assert (R1 : fst (Render 1 e1 w) = Returned true).
  { apply (proj1 (proj2 (Render_mode_dispatch 1 e1 w))
             (or_intror (or_introl eq_refl))
             (GL.light0_position (gl w)) (snd (render_prefix 1 e1 w))).
    - vm_compute. reflexivity.
    - vm_compute. discriminate.
    - intros _. vm_compute. split; discriminate.
    - intros X. discriminate X. }
  assert (R2 : fst (Render 1 e2 w) = Returned true).
  { apply (proj1 (proj2 (Render_mode_dispatch 1 e2 w))
             (or_intror (or_intror eq_refl))
             (GL.light0_position (gl w)) (snd (render_prefix 1 e2 w))).
    - vm_compute. reflexivity.
    - vm_compute. discriminate.
    - intros X. discriminate X.
    - intros _. vm_compute. split; [discriminate | reflexivity]. }
  split; [split; [exact R0 | exact (proj2 (proj1 (Render_mode_dispatch 1 e0 w) R0))] |].
  split; [split; [exact R1 | exact (proj2 (proj1 (Render_mode_dispatch 1 e1 w) R1))] |].
  split; [split; [exact R2 | exact (proj2 (proj1 (Render_mode_dispatch 1 e2 w) R2))] |].
  apply (proj2 (proj2 (proj2 (proj2 (Render_mode_dispatch 1 e7 w)))));
    vm_compute; discriminate.
Defined.

(** ** The scan of the image read back *)

Lemma ltb_irrefl x : F32.ltb x x = false.
Proof.
  unfold F32.ltb, SFltb, SFcompare.
  destruct x as [[|] | [|] | | [|] m e]; try reflexivity;
    rewrite Z.compare_refl, Pos.compare_cont_refl; reflexivity.
Qed.

Lemma ltb_trans x y z :
  F32.ltb x y = true -> F32.ltb y z = true -> F32.ltb x z = true.
Proof.
  unfold F32.ltb, SFltb, SFcompare.
  destruct x as [[|] | [|] | | [|] mx ex], y as [[|] | [|] | | [|] my ey],
    z as [[|] | [|] | | [|] mz ez];
    try reflexivity; try discriminate; try (intros _ H; discriminate H);
    change (Pos.compare_cont Eq mx my) with (Pos.compare mx my);
    change (Pos.compare_cont Eq my mz) with (Pos.compare my mz);
    change (Pos.compare_cont Eq mx mz) with (Pos.compare mx mz);
    destruct (Z.compare_spec ex ey), (Z.compare_spec ey ez),
      (Z.compare_spec ex ez);
    try reflexivity; try discriminate; try (intros _ H; discriminate H);
    try lia;
    destruct (Pos.compare_spec mx my), (Pos.compare_spec my mz),
      (Pos.compare_spec mx mz);
    simpl; try reflexivity; try discriminate; try (intros _ H; discriminate H);
    lia.
Qed.

Lemma scan_alpha_S image n :
  scan_alpha image (S n) =
  (let val := image (n * 4 + 3)%nat in
   let acc := scan_alpha image n in
   (if F32.ltb val (fst acc) then val else fst acc,
    if F32.ltb (snd acc) val then val else snd acc)).
Proof.
  unfold scan_alpha. rewrite seq_S, fold_left_app. reflexivity.
Qed.

(** X10.  The scan yields a lower and an upper bound of the alpha components
    of the first [n] pixels: none of them is below the minimum or above
    the maximum. *)
Theorem scan_alpha_bounds image n i :
  (i < n)%nat ->
  F32.ltb (image (i * 4 + 3)%nat) (fst (scan_alpha image n)) = false /\
  F32.ltb (snd (scan_alpha image n)) (image (i * 4 + 3)%nat) = false.
Proof.
  induction n as [| n IH]; intros Hi; [inversion Hi |].
  rewrite scan_alpha_S. cbv zeta. cbn [fst snd].
  destruct (Nat.eq_dec i n) as [-> | Hne].
  - split.
    + destruct (F32.ltb (image (n * 4 + 3)%nat) (fst (scan_alpha image n))) eqn:E;
        [apply ltb_irrefl | exact E].
    + destruct (F32.ltb (snd (scan_alpha image n)) (image (n * 4 + 3)%nat)) eqn:E;
        [apply ltb_irrefl | exact E].
  - assert (Hlt : (i < n)%nat) by lia.
    destruct (IH Hlt) as [Hmin Hmax]. split.
    + destruct (F32.ltb (image (n * 4 + 3)%nat) (fst (scan_alpha image n))) eqn:E;
        [| exact Hmin].
      destruct (F32.ltb (image (i * 4 + 3)%nat) (image (n * 4 + 3)%nat)) eqn:F;
        [| reflexivity].
      rewrite (ltb_trans _ _ _ F E) in Hmin. discriminate Hmin.
    + destruct (F32.ltb (snd (scan_alpha image n)) (image (n * 4 + 3)%nat)) eqn:E;
        [| exact Hmax].
      destruct (F32.ltb (image (n * 4 + 3)%nat) (image (i * 4 + 3)%nat)) eqn:F;
        [| reflexivity].
      rewrite (ltb_trans _ _ _ E F) in Hmax. discriminate Hmax.
Qed.

Lemma scan_alpha_bounds_witness :
  F32.ltb (F32.of_Z (Z.of_nat (1 * 4 + 3)))
    (fst (scan_alpha (fun k => F32.of_Z (Z.of_nat k)) 3)) = false /\
  F32.ltb (snd (scan_alpha (fun k => F32.of_Z (Z.of_nat k)) 3))
    (F32.of_Z (Z.of_nat (1 * 4 + 3))) = false.
Proof.
  apply (scan_alpha_bounds (fun k => F32.of_Z (Z.of_nat k)) 3 1). lia.
Defined.

(** X11.  Each end of the range is the initial value, [max()] or [lowest()],
    or the alpha component of one of the [n] pixels; with no pixel at
    all the range is the inverted pair of initial values.  Components
    other than alpha, and pixels beyond the first [n], are not looked
    at. *)
Theorem scan_alpha_attained image n :
  (fst (scan_alpha image n) = F32.numeric_max
   \/ exists i, (i < n)%nat /\ fst (scan_alpha image n) = image (i * 4 + 3)%nat) /\
  (snd (scan_alpha image n) = F32.numeric_lowest
   \/ exists i, (i < n)%nat /\ snd (scan_alpha image n) = image (i * 4 + 3)%nat) /\
  scan_alpha image 0 = (F32.numeric_max, F32.numeric_lowest) /\
  forall image',
    (forall i, (i < n)%nat -> image' (i * 4 + 3)%nat = image (i * 4 + 3)%nat) ->
    scan_alpha image' n = scan_alpha image n.
Proof.
  repeat apply conj.
  - induction n as [| n IH]; [left; reflexivity |].
    rewrite scan_alpha_S. cbv zeta. cbn [fst].
    destruct (F32.ltb (image (n * 4 + 3)%nat) (fst (scan_alpha image n))).
    + right. exists n. split; [lia | reflexivity].
    + destruct IH as [IH | (i & Hi & IH)]; [left; exact IH |].
      right. exists i. split; [lia | exact IH].
  - induction n as [| n IH]; [left; reflexivity |].
    rewrite scan_alpha_S. cbv zeta. cbn [snd].
    destruct (F32.ltb (snd (scan_alpha image n)) (image (n * 4 + 3)%nat)).
    + right. exists n. split; [lia | reflexivity].
    + destruct IH as [IH | (i & Hi & IH)]; [left; exact IH |].
      right. exists i. split; [lia | exact IH].
  - reflexivity.
  - induction n as [| n IH]; intros image' H; [reflexivity |].
    rewrite !scan_alpha_S. cbv zeta.
    rewrite (IH image'), H; [reflexivity | lia |].
    intros i Hi. apply H. lia.
Qed.


(** ** What a frame that returns [true] has done *)

Lemma compute_pass_mode_valid e light w w' :
  compute_pass e light w = (Next tt, w') ->
  let mode := m_mode (params e) in
  mode = 0 \/ mode = 1 \/ mode = 2.
Proof.
  intros H. cbv zeta. apply compute_program_valid. intros Hn.
  unfold compute_pass, bind in H.
  rewrite (pick_shader_unknown_mode e w Hn) in H. discriminate H.
Qed.

Lemma render_prefix_keeps_context c e :
  m_renderer_callerSlot e = None ->
  frames (keeps (fun w => (GL.textures (gl w), GL.images (gl w),
                           GL.framebuffer (gl w), blend_state (gl w),
                           GL.draw_buffers (gl w))))
    (render_prefix c e).
Proof.
  intros Hci. unfold render_prefix, render_chained. rewrite Hci.
  unfold updateVolumeData, upload_volume.
  unfold_commands. frames_go keeps_side.
Qed.

Lemma not_input_not_dispatch c :
  negb (is_raycast_input c) = true ->
  match c with GL.DispatchCompute _ _ _ _ _ _ => false | _ => true end = true.
Proof. destruct c; simpl; intros H; try reflexivity; discriminate H. Qed.

Lemma setup_not_dispatch c :
  is_setup_call c = true ->
  match c with GL.DispatchCompute _ _ _ _ _ _ => false | _ => true end = true.
Proof. destruct c; simpl; intros H; try reflexivity; discriminate H. Qed.

(** X12.  One dispatch per frame, with one work group for every 8 x 8 tile of
    the viewport: for a viewport of at most 65536 pixels either way the
    group counts are the sizes divided by eight, rounded up, and 1. *)
Theorem Render_dispatch_groups c e w w' :
  Render c e w = (Returned true, w') ->
  0 <= fst (Viewport (cr e)) <= 65536 ->
  0 <= snd (Viewport (cr e)) <= 65536 ->
  dispatch_groups (calls w') =
    ((fst (Viewport (cr e)) + 7) / 8, (snd (Viewport (cr e)) + 7) / 8, 1)
    :: dispatch_groups (calls w).
Proof.
  intros H Hw Hh.
  destruct (Render_true_passes _ _ _ _ H)
    as (light & w3 & w4 & Hp & Hc & Hs & Hfit & X1 & X2 & _).
  destruct (compute_pass_effects _ _ _ _ Hc)
    as (p & tex & img & rt & Hrt & _ & Hg & _).
  unfold targets_fit in Hfit. rewrite Hrt in Hfit.
  apply andb_true_iff in Hfit. destruct Hfit as [Fw Fh].
  apply Z.eqb_eq in Fw, Fh.
  rewrite (no_dispatch_observation _ _ _ X2 not_input_not_dispatch), Hg.
  rewrite (no_dispatch_observation _ _ _ X1 setup_not_dispatch).
  rewrite Fw, Fh.
  change (F32.ceil_int (F32.div (F32.of_Z ?n) F32.eight)) with (group_count n).
  fold (group_count (fst (Viewport (cr e)))).
  fold (group_count (snd (Viewport (cr e)))).
  now rewrite !group_count_ceil.
Qed.

Lemma Render_dispatch_groups_witness :
  let e := Examples.env 0 None (Some Examples.transfer_function) in
  let w := Examples.world [Delivered (Examples.float_volume 1 (2, 2, 2))] in
  dispatch_groups (calls (snd (Render 1 e w))) =
    ((fst (Viewport (cr e)) + 7) / 8, (snd (Viewport (cr e)) + 7) / 8, 1)
    :: dispatch_groups (calls w).
Proof.
  intros e w.
  apply (Render_dispatch_groups 1 e w (snd (Render 1 e w))).
  - vm_compute. reflexivity.
  - vm_compute. split; discriminate.
  - vm_compute. split; discriminate.
Defined.

(** X13.  The compositing pass draws once, with the program of the mode, and
    samples on unit 0 the very texture the compute pass had bound as
    image 0, which has the size of the viewport; in mode 1 the normal
    and depth targets are images 1 and 2 of the dispatch and units 1 and
    2 of the draw; in mode 2 the draw has the transfer function texture
    on unit 1. *)
Theorem Render_composite_draw c e w w' :
  Render c e w = (Returned true, w') ->
  let mode := m_mode (params e) in
  exists p ctex img tex rt,
    m_render_target (this w') = Some rt /\
    getWidth rt = fst (Viewport (cr e)) /\
    getHeight rt = snd (Viewport (cr e)) /\
    dispatches (calls w') = (p, ctex, img) :: dispatches (calls w) /\
    draws (calls w') = (composite_program mode, tex) :: draws (calls w) /\
    img 0 = tex_name rt /\
    tex GL.TEXTURE0 GL.TEXTURE_2D = tex_name rt /\
    (mode = 1 ->
       exists nt dt,
         m_normal_target (this w') = Some nt /\
         m_depth_target (this w') = Some dt /\
         img 1 = tex_name nt /\ img 2 = tex_name dt /\
         tex GL.TEXTURE1 GL.TEXTURE_2D = tex_name nt /\
         tex GL.TEXTURE2 GL.TEXTURE_2D = tex_name dt) /\
    (mode = 2 -> tex GL.TEXTURE1 GL.TEXTURE_1D = tf_texture (this w')).
Proof.
  intros H. cbv zeta.
  destruct (Render_true_passes _ _ _ _ H)
    as (light & w3 & w4 & Hp & Hc & Hs & Hfit & X1 & X2 & Hd & K1 & K2 & K3 & _).
  destruct (compute_pass_effects _ _ _ _ Hc)
    as (p & ctex & img & rt & Hrt & Hdis & _ & _ & Hi0 & Hi12 & _).
  destruct (render_suffix_effects _ _ _ Hs)
    as (tex & rt' & Hrt' & Hdr & Ht0 & Ht12 & _ & Htf & _ & Hthis & _).
  rewrite K1, Hrt in Hrt'. injection Hrt' as <-.
  unfold targets_fit in Hfit. rewrite Hrt in Hfit.
  apply andb_true_iff in Hfit. destruct Hfit as [Fw Fh].
  apply Z.eqb_eq in Fw, Fh.
  exists p, ctex, img, tex, rt. rewrite Hthis.
  repeat apply conj.
  - now rewrite K1.
  - exact Fw.
  - exact Fh.
  - destruct (quiet_observations _ _ _ X2) as (B1 & _).
    { intros c0 Hc0. now apply negb_true_iff. }
    destruct (quiet_observations _ _ _ X1 setup_is_no_input) as (A1 & _).
    now rewrite B1, Hdis, A1.
  - now rewrite Hdr, Hd.
  - exact Hi0.
  - exact Ht0.
  - intros Hm. destruct (Hi12 Hm) as (nt & dt & Hn & Hdt & I1 & I2).
    destruct (Ht12 Hm) as (nt' & dt' & Hn' & Hdt' & T1 & T2 & _).
    rewrite K2, Hn in Hn'. injection Hn' as <-.
    rewrite K3, Hdt in Hdt'. injection Hdt' as <-.
    exists nt, dt. rewrite K2, K3. repeat apply conj; assumption.
  - intros Hm. apply (proj1 (Htf Hm)).
Qed.

Lemma Render_composite_draw_witness :
  let e := Examples.env 1 None None in
  let w := Examples.world [Delivered (Examples.float_volume 1 (2, 2, 2))] in
  let mode := m_mode (params e) in
  exists p ctex img tex rt,
    m_render_target (this (snd (Render 1 e w))) = Some rt /\
    getWidth rt = fst (Viewport (cr e)) /\
    getHeight rt = snd (Viewport (cr e)) /\
    dispatches (calls (snd (Render 1 e w))) = (p, ctex, img) :: dispatches (calls w) /\
    draws (calls (snd (Render 1 e w))) = (composite_program mode, tex) :: draws (calls w) /\
    img 0 = tex_name rt /\
    tex GL.TEXTURE0 GL.TEXTURE_2D = tex_name rt /\
    (mode = 1 ->
       exists nt dt,
         m_normal_target (this (snd (Render 1 e w))) = Some nt /\
         m_depth_target (this (snd (Render 1 e w))) = Some dt /\
         img 1 = tex_name nt /\ img 2 = tex_name dt /\
         tex GL.TEXTURE1 GL.TEXTURE_2D = tex_name nt /\
         tex GL.TEXTURE2 GL.TEXTURE_2D = tex_name dt) /\
    (mode = 2 -> tex GL.TEXTURE1 GL.TEXTURE_1D = tf_texture (this (snd (Render 1 e w)))).
Proof.
  intros e w.
  apply (Render_composite_draw 1 e w (snd (Render 1 e w))).
  vm_compute. reflexivity.
Defined.

(** X14.  The draw of the compositing pass is issued with blending enabled
    and the factors (SRC_ALPHA, ONE_MINUS_SRC_ALPHA); the depth test is
    then enabled in mode 1 and disabled in modes 0 and 2, whatever the
    state was before.  Afterwards the state is again as the compute
    pass left it. *)
Theorem Render_composite_state c e w w' :
  Render c e w = (Returned true, w') ->
  exists light w3 w4 new,
    render_prefix c e w = (Next light, w3) /\
    compute_pass e light w3 = (Next tt, w4) /\
    calls w' = (new ++ calls w4)%list /\
    map blend_state (draw_contexts new (gl w4)) =
      [(m_mode (params e) =? 1, true,
        (GL.SRC_ALPHA, GL.ONE_MINUS_SRC_ALPHA,
         GL.SRC_ALPHA, GL.ONE_MINUS_SRC_ALPHA))] /\
    blend_state (gl w') = blend_state (gl w4).
Proof.
  intros H.
  destruct (Render_true_passes _ _ _ _ H)
    as (light & w3 & w4 & Hp & Hc & Hs & _).
  pose proof (compute_pass_mode_valid _ _ _ _ Hc) as Hm. cbv zeta in Hm.
  destruct (render_suffix_effects _ _ _ Hs)
    as (tex & rt & _ & _ & _ & _ & _ & _ & _ & _ & _ & _ & Hb & _ & _ & _ & _
        & new & Hnew & Hctx).
  exists light, w3, w4, new. repeat apply conj; try assumption.
  rewrite Hctx. destruct Hm as [-> | [-> | ->]]; reflexivity.
Qed.

Lemma Render_composite_state_witness :
  let e := Examples.env 1 None None in
  let w := Examples.world [Delivered (Examples.float_volume 1 (2, 2, 2))] in
  exists light w3 w4 new,
    render_prefix 1 e w = (Next light, w3) /\
    compute_pass e light w3 = (Next tt, w4) /\
    calls (snd (Render 1 e w)) = (new ++ calls w4)%list /\
    map blend_state (draw_contexts new (gl w4)) =
      [(m_mode (params e) =? 1, true,
        (GL.SRC_ALPHA, GL.ONE_MINUS_SRC_ALPHA,
         GL.SRC_ALPHA, GL.ONE_MINUS_SRC_ALPHA))] /\
    blend_state (gl (snd (Render 1 e w))) = blend_state (gl w4).
Proof.
  intros e w.
  apply (Render_composite_state 1 e w (snd (Render 1 e w))).
  vm_compute. reflexivity.
Defined.

(** X15.  Whatever the compute and compositing passes bind they unbind again:
    after a frame no program is in use, unit 0 is the active unit with
    neither a 3D nor a 2D texture, image unit 0 is empty, and every
    other texture or image binding is empty or as it was when the
    compute pass began; the framebuffer binding and the blend and depth
    test state are as they were then.  Without a chained renderer that
    is the state in which [Render] was called. *)
Theorem Render_unbinds_what_it_bound c e w w' :
  Render c e w = (Returned true, w') ->
  exists light w3,
    render_prefix c e w = (Next light, w3) /\
    GL.program (gl w') = None /\
    GL.active_texture (gl w') = GL.TEXTURE0 /\
    GL.framebuffer (gl w') = GL.framebuffer (gl w3) /\
    blend_state (gl w') = blend_state (gl w3) /\
    GL.textures (gl w') GL.TEXTURE0 GL.TEXTURE_3D = 0 /\
    GL.textures (gl w') GL.TEXTURE0 GL.TEXTURE_2D = 0 /\
    GL.images (gl w') 0 = 0 /\
    (forall u t, GL.textures (gl w') u t = 0
                 \/ GL.textures (gl w') u t = GL.textures (gl w3) u t) /\
    (forall s, GL.images (gl w') s = 0
               \/ GL.images (gl w') s = GL.images (gl w3) s) /\
    (m_renderer_callerSlot e = None ->
     GL.textures (gl w3) = GL.textures (gl w) /\
     GL.images (gl w3) = GL.images (gl w) /\
     GL.framebuffer (gl w3) = GL.framebuffer (gl w) /\
     blend_state (gl w3) = blend_state (gl w)).
Proof.
  intros H.
  destruct (Render_true_passes _ _ _ _ H)
    as (light & w3 & w4 & Hp & Hc & Hs & _).
  destruct (compute_pass_effects _ _ _ _ Hc)
    as (p & ctex & img & rt & _ & _ & _ & _ & _ & _ & _ & _ & Cb & Cf & C3 & Ci0
        & Ct & Ci & _).
  destruct (render_suffix_effects _ _ _ Hs)
    as (tex & rt' & _ & _ & _ & _ & _ & _ & _ & _ & Sp & Sa & Sb & Sf & Si & S2
        & St & _).
  exists light, w3. repeat apply conj; try assumption.
  - congruence.
  - congruence.
  - destruct (St GL.TEXTURE0 GL.TEXTURE_3D) as [E | E]; congruence.
  - now rewrite Si.
  - intros u t. destruct (St u t) as [E | E]; [left; exact E |].
    destruct (Ct u t) as [E' | E']; [left | right]; congruence.
  - intros s. rewrite Si. apply Ci.
  - intros Hci. pose proof (render_prefix_keeps_context c e Hci _ _ _ Hp) as K.
    unfold keeps in K.
    pose proof (f_equal (fun x => fst (fst (fst (fst x)))) K) as K1.
    pose proof (f_equal (fun x => snd (fst (fst (fst x)))) K) as K2.
    pose proof (f_equal (fun x => snd (fst (fst x))) K) as K3.
    pose proof (f_equal (fun x => snd (fst x)) K) as K4.
    cbn [fst snd] in K1, K2, K3, K4. auto.
Qed.

Lemma Render_unbinds_what_it_bound_witness :
  let e := Examples.env 2 (Some Examples.chained) (Some Examples.transfer_function) in
  let w := Examples.world [Delivered (Examples.float_volume 1 (2, 2, 2))] in
  exists light w3,
    render_prefix 1 e w = (Next light, w3) /\
    GL.program (gl (snd (Render 1 e w))) = None /\
    GL.active_texture (gl (snd (Render 1 e w))) = GL.TEXTURE0 /\
    GL.framebuffer (gl (snd (Render 1 e w))) = GL.framebuffer (gl w3) /\
    blend_state (gl (snd (Render 1 e w))) = blend_state (gl w3) /\
    GL.textures (gl (snd (Render 1 e w))) GL.TEXTURE0 GL.TEXTURE_3D = 0 /\
    GL.textures (gl (snd (Render 1 e w))) GL.TEXTURE0 GL.TEXTURE_2D = 0 /\
    GL.images (gl (snd (Render 1 e w))) 0 = 0 /\
    (forall u t, GL.textures (gl (snd (Render 1 e w))) u t = 0
                 \/ GL.textures (gl (snd (Render 1 e w))) u t
                    = GL.textures (gl w3) u t) /\
    (forall s, GL.images (gl (snd (Render 1 e w))) s = 0
               \/ GL.images (gl (snd (Render 1 e w))) s = GL.images (gl w3) s) /\
    (m_renderer_callerSlot e = None ->
     GL.textures (gl w3) = GL.textures (gl w) /\
     GL.images (gl w3) = GL.images (gl w) /\
     GL.framebuffer (gl w3) = GL.framebuffer (gl w) /\
     blend_state (gl w3) = blend_state (gl w)).
Proof.
  intros e w.
  apply (Render_unbinds_what_it_bound 1 e w (snd (Render 1 e w))).
  vm_compute. reflexivity.
Defined.

(** X16.  The draw buffers are the exception: mode 1 selects the two colour
    attachments for its draw and never selects anything else again, so
    that they are still selected when [Render] returns; modes 0 and 2
    leave the selection as the compute pass found it. *)
Theorem Render_isosurface_leaves_draw_buffers c e w w' :
  Render c e w = (Returned true, w') ->
  exists light w3,
    render_prefix c e w = (Next light, w3) /\
    GL.draw_buffers (gl w') =
      (if m_mode (params e) =? 1
       then [GL.COLOR_ATTACHMENT0_EXT; GL.COLOR_ATTACHMENT1_EXT]
       else GL.draw_buffers (gl w3)) /\
    (m_renderer_callerSlot e = None ->
     GL.draw_buffers (gl w3) = GL.draw_buffers (gl w)).
Proof.
  intros H.
  destruct (Render_true_passes _ _ _ _ H)
    as (light & w3 & w4 & Hp & Hc & Hs & _ & _ & _ & _ & _ & _ & _ & _ & Kd).
  destruct (render_suffix_effects _ _ _ Hs)
    as (tex & rt' & _ & _ & _ & S1 & Sn1 & _).
  exists light, w3. repeat apply conj; try assumption.
  - destruct (Z.eqb_spec (m_mode (params e)) 1) as [E | E].
    + destruct (S1 E) as (nt & dt & _ & _ & _ & _ & D). exact D.
    + rewrite (Sn1 E). exact Kd.
  - intros Hci. pose proof (render_prefix_keeps_context c e Hci _ _ _ Hp) as K.
    unfold keeps in K. exact (f_equal snd K).
Qed.

Lemma Render_isosurface_leaves_draw_buffers_witness :
  let e := Examples.env 1 None None in
  let w := Examples.world [Delivered (Examples.float_volume 1 (2, 2, 2))] in
  exists light w3,
    render_prefix 1 e w = (Next light, w3) /\
    GL.draw_buffers (gl (snd (Render 1 e w))) =
      (if m_mode (params e) =? 1
       then [GL.COLOR_ATTACHMENT0_EXT; GL.COLOR_ATTACHMENT1_EXT]
       else GL.draw_buffers (gl w3)) /\
    (m_renderer_callerSlot e = None ->
     GL.draw_buffers (gl w3) = GL.draw_buffers (gl w)).
Proof.
  intros e w.
  apply (Render_isosurface_leaves_draw_buffers 1 e w (snd (Render 1 e w))).
  vm_compute. reflexivity.
Defined.




Lemma render_prefix_keeps_gui c e :
  frames (keeps (fun w => gui_visible (this w))) (render_prefix c e).
Proof.
  unfold render_prefix, updateVolumeData, upload_volume.
  unfold_commands. frames_go keeps_side.
Qed.

(** X18.  The three mode-specific parameters are shown according to the mode:
    after a frame the opacity threshold is visible exactly in mode 0,
    the iso value and the surface opacity exactly in mode 1.  A call
    with an unknown mode leaves the visibility alone. *)
Theorem Render_gui_visibility c e w :
  let mode := m_mode (params e) in
  let w' := snd (Render c e w) in
  (fst (Render c e w) = Returned true ->
   gui_visible (this w') = (mode =? 0, mode =? 1, mode =? 1)) /\
  (mode <> 0 -> mode <> 1 -> mode <> 2 ->
   gui_visible (this w') = gui_visible (this w)).
Proof.
  cbv zeta. split.
  - intros H.
    assert (H' : Render c e w = (Returned true, snd (Render c e w))).
    { destruct (Render c e w) as [r w']. simpl in *. now subst. }
    destruct (Render_true_passes _ _ _ _ H')
      as (light & w3 & w4 & Hp & Hc & Hs & _).
    destruct (compute_pass_effects _ _ _ _ Hc)
      as (p & ctex & img & rt & _ & _ & _ & _ & _ & _ & _ & _ & _ & _ & _ & _
          & _ & _ & G).
    destruct (render_suffix_effects _ _ _ Hs)
      as (tex & rt' & _ & _ & _ & _ & _ & _ & _ & Hthis & _).
    now rewrite Hthis.
  - intros H0 H1 H2.
    assert (Hn : compute_program (m_mode (params e)) = None).
    { destruct (compute_program (m_mode (params e))) eqn:E; [| reflexivity].
      assert (X : compute_program (m_mode (params e)) <> None) by congruence.
      apply compute_program_valid in X. lia. }
    rewrite (Render_unknown_mode c e w Hn).
    destruct (render_prefix c e w) as [[light | b | s] w3] eqn:Hp;
      apply (render_prefix_keeps_gui c e _ _ _ Hp).
Qed.


(** ** A frame in the steady state *)

Lemma render_chained_steady e :
  frames (extends no_texture_lifetime) (render_chained e) /\
  frames (keeps steady_members) (render_chained e).
Proof. split; unfold_commands; [frames_go extends_side | frames_go keeps_side]. Qed.

Lemma compute_pass_steady e light :
  frames (extends no_object_lifetime) (compute_pass e light) /\
  frames (keeps (fun w => (steady_members w, m_volumetricData_callerSlot w)))
    (compute_pass e light).
Proof.
  split; unfold compute_pass, updateTransferFunction; unfold_commands;
    [frames_go extends_side | frames_go keeps_side].
Qed.

Lemma render_suffix_steady e :
  frames (extends no_object_lifetime) (render_suffix e) /\
  frames (keeps (fun w => (steady_members w, m_volumetricData_callerSlot w)))
    (render_suffix e).
Proof.
  split; unfold render_suffix; unfold_commands;
    [frames_go extends_side | frames_go keeps_side].
Qed.

Lemma render_chained_objects e w o w1 :
  render_chained e w = (o, w1) ->
  filter is_object_lifetime (calls w1) =
  (fbo_recreated e w ++ filter is_object_lifetime (calls w))%list.
Proof.
  intros H. unfold fbo_recreated.
  destruct e as [p ci tf call img]. destruct p as [m ? ? ? ? ? ? ? ? ? ? ? ? ? ? ? ?].
  destruct w as [g cs es th src n].
  destruct th as [? ? ? ? ? ? ? ? ? ? [valid ? ? ? ?] ? ?].
  destruct g as [dtest bl sr dr sa da au tx im pr db fb li nn].
  unfold render_chained in H. cbn [m_mode params m_renderer_callerSlot cr] in *.
  destruct ci as [[vp fn] |].
  2:{ injection H as <- <-. reflexivity. }
  destruct ((m =? 0) || (m =? 2)); destruct valid;
    lazy -[Z.add] in H;
    match type of H with
    | context [fn ?a ?b ?c] => destruct (fn a b c) as [[|] g']
    end;
    lazy -[Z.add] in H; injection H as <- <-; reflexivity.
Qed.

Lemma no_object_is_no_texture c :
  no_object_lifetime c = true -> no_texture_lifetime c = true.
Proof. destruct c; simpl; intros H; try reflexivity; discriminate H. Qed.

Lemma filter_extends (P : GL.Call -> bool) w w' :
  extends (fun c => negb (P c)) w w' ->
  filter P (calls w') = filter P (calls w).
Proof.
  intros (new & -> & F). rewrite filter_app.
  replace (filter P new) with (@nil GL.Call); [reflexivity |].
  induction new as [| c0 new IH]; [reflexivity |].
  simpl in *. apply andb_true_iff in F. destruct F as [Fc Fn].
  apply negb_true_iff in Fc. rewrite Fc. now apply IH.
Qed.

Lemma updateVolumeData_steady c w cd rest t :
  m_volumetricData_callerSlot w = Some (Delivered cd :: rest) ->
  FrameID cd = t ->
  identity_changed cd (this w) = false ->
  updateVolumeData c t w = (Returned true, set_source (Some rest) w).
Proof.
  intros Hs Hf Hi. rewrite (updateVolumeData_polled c t w _ Hs).
  cbn [poll]. unfold bind at 1. unfold modify at 1.
  rewrite Hf, Z.eqb_refl. cbn [negb]. unfold ret.
  unfold identity_changed in Hi. apply orb_false_iff in Hi.
  destruct Hi as [Hh Hfr]. apply negb_false_iff, Z.eqb_eq in Hh, Hfr.
  apply upload_volume_unchanged; assumption.
Qed.

Lemma render_prefix_steady c e w cd rest o w3 :
  targets_fit (Viewport (cr e)) (this w) = true ->
  m_volumetricData_callerSlot w = Some (Delivered cd :: rest) ->
  FrameID cd = Time (cr e) ->
  identity_changed cd (this w) = false ->
  render_prefix c e w = (o, w3) ->
  extends no_texture_lifetime w w3 /\
  filter is_object_lifetime (calls w3) =
    (fbo_recreated e w ++ filter is_object_lifetime (calls w))%list /\
  keeps steady_members w w3 /\
  match o with
  | Next _ => m_volumetricData_callerSlot w3 = Some rest
  | Return b => b = false /\ m_volumetricData_callerSlot w3 = m_volumetricData_callerSlot w
  | Abort _ => False
  end.
Proof.
  intros Hfit Hs Hf Hi H. unfold render_prefix in H.
  destruct (render_chained_steady e) as [FX FK].
  pose proof (render_chained_keeps_source e) as FS.
  destruct (bind_inv _ _ _ _ _ H)
    as [([] & w1 & H1 & H2) | [(b & H1 & ->) | (s & H1 & ->)]].
  - pose proof (FX _ _ _ H1) as X1. pose proof (FK _ _ _ H1) as K1.
    pose proof (FS _ _ _ H1) as S1. unfold keeps in K1, S1.
    assert (Hrt : m_render_target (this w1) = m_render_target (this w)).
    { exact (f_equal (fun x => snd (fst (fst x))) K1). }
    assert (Hid : (m_volume_datahash (this w1), m_frame_id (this w1))
                  = (m_volume_datahash (this w), m_frame_id (this w))).
    { exact (f_equal (fun x => fst (fst (fst (fst x)))) K1). }
    injection Hid as Hh Hfr.
    assert (Hfit1 : targets_fit (Viewport (cr e)) (this w1) = true).
    { unfold targets_fit in *. now rewrite Hrt. }
    assert (Hs1 : m_volumetricData_callerSlot w1 = Some (Delivered cd :: rest)).
    { rewrite <- Hs. exact (f_equal fst S1). }
    assert (Hi1 : identity_changed cd (this w1) = false).
    { unfold identity_changed in *. now rewrite Hh, Hfr. }
    rewrite (bind_Next _ _ _ _ _ (create_targets_cached e w1 Hfit1)) in H2.
    unfold bind at 1 in H2. unfold get at 1 in H2. cbv beta iota zeta in H2.
    unfold bind at 1 in H2. unfold invoke at 1 in H2.
    rewrite (updateVolumeData_steady c w1 cd rest _ Hs1 Hf Hi1) in H2.
    cbn [negb] in H2. unfold bind, ret in H2. injection H2 as <- <-.
    repeat apply conj.
    + destruct X1 as (new & Hn & Fn). exists new. split; assumption.
    + exact (render_chained_objects _ _ _ _ H1).
    + exact K1.
    + reflexivity.
  - repeat apply conj.
    + exact (FX _ _ _ H1).
    + exact (render_chained_objects _ _ _ _ H1).
    + exact (FK _ _ _ H1).
    + pose proof (render_chained_only_fails e _ _ _ H1) as X. simpl in X.
      congruence.
    + exact (f_equal fst (FS _ _ _ H1)).
  - repeat apply conj.
    + exact (FX _ _ _ H1).
    + exact (render_chained_objects _ _ _ _ H1).
    + exact (FK _ _ _ H1).
    + pose proof (render_chained_only_fails e _ _ _ H1) as X. simpl in X.
      discriminate X.
Qed.

Lemma no_lifetime_observations w w' :
  extends no_texture_lifetime w w' ->
  filter is_texture_lifetime (calls w') = filter is_texture_lifetime (calls w) /\
  uploads (calls w') = uploads (calls w).
Proof.
  intros X. split.
  - apply filter_extends. exact X.
  - unfold uploads. apply (observe_extends _ _ _ _ X).
    intros c0 Hc0. destruct c0; try reflexivity. discriminate Hc0.
Qed.

(** X19.  When the render targets fit the viewport and the data source
    answers at once with the cached identity, a frame, whatever it
    returns, neither defines nor deletes a texture of its own, and the
    cached identity, the volume texture and the render targets are the
    same afterwards.  The framebuffer object is another matter: with a
    chained renderer, modes 0 and 2 release it and create it anew, with
    a new colour and a new depth texture, on every frame; these are the
    only objects a steady frame creates or deletes.  Unless the chained
    renderer refused, exactly one answer of the data source has been
    consumed. *)
Theorem Render_steady_state c e w cd rest :
  targets_fit (Viewport (cr e)) (this w) = true ->
  m_volumetricData_callerSlot w = Some (Delivered cd :: rest) ->
  FrameID cd = Time (cr e) ->
  identity_changed cd (this w) = false ->
  let w' := snd (Render c e w) in
  filter is_object_lifetime (calls w') =
    (fbo_recreated e w ++ filter is_object_lifetime (calls w))%list /\
  filter is_texture_lifetime (calls w') = filter is_texture_lifetime (calls w) /\
  uploads (calls w') = uploads (calls w) /\
  steady_members w' = steady_members w /\
  fst (Render c e w) <> Aborted StillPolling /\
  (m_volumetricData_callerSlot w' = Some rest
   \/ fst (Render c e w) = Returned false
      /\ m_volumetricData_callerSlot w' = m_volumetricData_callerSlot w).
Proof.
  intros Hfit Hs Hf Hi. cbv zeta.
  assert (G : extends no_texture_lifetime w (snd (Render c e w)) /\
              filter is_object_lifetime (calls (snd (Render c e w))) =
                (fbo_recreated e w ++ filter is_object_lifetime (calls w))%list /\
              keeps steady_members w (snd (Render c e w)) /\
              fst (Render c e w) <> Aborted StillPolling /\
              (m_volumetricData_callerSlot (snd (Render c e w)) = Some rest
               \/ fst (Render c e w) = Returned false
                  /\ m_volumetricData_callerSlot (snd (Render c e w))
                     = m_volumetricData_callerSlot w)).
  { rewrite Render_parts.
    destruct (render_prefix c e w) as [[light | b | s] w3] eqn:Hp;
      destruct (render_prefix_steady c e w cd rest _ _ Hfit Hs Hf Hi Hp)
        as (X1 & O1 & K1 & S1).
    - destruct (compute_pass_steady e light) as [CX CK].
      destruct (render_suffix_steady e) as [SX SK].
      destruct (compute_pass e light w3) as [[[] | b | s] w4] eqn:Hc.
      + pose proof (CX _ _ _ Hc) as X2. pose proof (CK _ _ _ Hc) as K2.
        destruct (run (render_suffix e) w4) as [r w'] eqn:Hr.
        assert (X3 : extends no_object_lifetime w4 w').
        { eapply frames_run; try exact Hr; try solve [extends_side]. exact SX. }
        assert (K3 : keeps (fun w => (steady_members w, m_volumetricData_callerSlot w))
                       w4 w').
        { eapply frames_run; try exact Hr; try solve [keeps_side]. exact SK. }
        unfold keeps in *. cbn [fst snd].
        pose proof (f_equal fst K2) as K2a. pose proof (f_equal snd K2) as K2b.
        pose proof (f_equal fst K3) as K3a. pose proof (f_equal snd K3) as K3b.
        cbn [fst snd] in K2a, K2b, K3a, K3b.
        repeat apply conj.
        * eapply extends_trans; [| eapply extends_weaken; [| exact X3]].
          -- eapply extends_trans; [exact X1 |].
             eapply extends_weaken; [| exact X2]. exact no_object_is_no_texture.
          -- exact no_object_is_no_texture.
        * rewrite (filter_extends _ _ _ X3), (filter_extends _ _ _ X2). exact O1.
        * congruence.
        * destruct (render_suffix_result _ _ _ _ Hr) as [-> | [-> | ->]];
            discriminate.
        * left. congruence.
      + pose proof (CX _ _ _ Hc) as X2. pose proof (CK _ _ _ Hc) as K2.
        unfold keeps in *. cbn [fst snd].
        pose proof (f_equal fst K2) as K2a. pose proof (f_equal snd K2) as K2b.
        cbn [fst snd] in K2a, K2b.
        repeat apply conj.
        * eapply extends_trans; [exact X1 |].
          eapply extends_weaken; [| exact X2]. exact no_object_is_no_texture.
        * rewrite (filter_extends _ _ _ X2). exact O1.
        * congruence.
        * discriminate.
        * left. congruence.
      + pose proof (CX _ _ _ Hc) as X2. pose proof (CK _ _ _ Hc) as K2.
        pose proof (compute_pass_exits _ _ _ _ _ Hc) as E. simpl in E.
        unfold keeps in *. cbn [fst snd].
        pose proof (f_equal fst K2) as K2a. pose proof (f_equal snd K2) as K2b.
        cbn [fst snd] in K2a, K2b.
        repeat apply conj.
        * eapply extends_trans; [exact X1 |].
          eapply extends_weaken; [| exact X2]. exact no_object_is_no_texture.
        * rewrite (filter_extends _ _ _ X2). exact O1.
        * congruence.
        * destruct E as [E | E]; rewrite E; discriminate.
        * left. congruence.
    - cbn [fst snd]. destruct S1 as [-> S1]. repeat apply conj; try assumption.
      + discriminate.
      + right. split; [reflexivity | exact S1].
    - destruct S1. }
  destruct G as (X & O & K & R & S).
  destruct (no_lifetime_observations _ _ X) as [L U].
  repeat apply conj; assumption.
Qed.

Lemma Render_steady_state_witness :
  let e := Examples.env 0 (Some Examples.chained) (Some Examples.transfer_function) in
  let answer := Delivered (Examples.float_volume 1 (2, 2, 2)) in
  let w := snd (Render 1 e (Examples.world [answer; answer])) in
  let w' := snd (Render 1 e w) in
  filter is_object_lifetime (calls w') =
    (fbo_recreated e w ++ filter is_object_lifetime (calls w))%list /\
  filter is_texture_lifetime (calls w') = filter is_texture_lifetime (calls w) /\
  uploads (calls w') = uploads (calls w) /\
  steady_members w' = steady_members w /\
  fst (Render 1 e w) <> Aborted StillPolling /\
  (m_volumetricData_callerSlot w' = Some []
   \/ fst (Render 1 e w) = Returned false
      /\ m_volumetricData_callerSlot w' = m_volumetricData_callerSlot w).
Proof.
  intros e answer w.
  apply (Render_steady_state 1 e w (Examples.float_volume 1 (2, 2, 2)) []);
    vm_compute; reflexivity.
Defined.

(** ** The shader setup *)

Ltac each_answer answer :=
  repeat match goal with
         | |- context [answer ?s] =>
             let E := fresh "E" in
             destruct (answer s) as [[|] | ex] eqn:E;
             cbn [negb fst snd Create.ret Create.return_ Create.attempted
                    Create.log Create.WriteMsg rev app andb]
         end.

Lemma create_attempted (answer : Create.Step -> Create.Answer) st :
  Create.attempted (snd (Create.create answer st)) =
  (rev (Create.tried answer Create.steps) ++ Create.attempted st)%list.
Proof.
  unfold Create.create, Create.try_block, Create.steps.
  unfold Create.require, Create.bind, Create.call, Create.tried, Create.succeeds.
  each_answer answer; reflexivity.
Qed.

(** X20.  [create] makes its sixteen calls in the order of the source text
    and stops at the first that does not return [true]: no later call
    is made.  It returns [true] exactly when all sixteen return [true].
    A call that returns [false] makes [create] return [false] without a
    word in the log; only an exception is logged, with the message of
    its handler. *)
Theorem create_short_circuit (answer : Create.Step -> Create.Answer) st :
  let st' := snd (Create.create answer st) in
  Create.attempted st' =
    (rev (Create.tried answer Create.steps) ++ Create.attempted st)%list /\
  Create.log st' = (Create.logged answer Create.steps ++ Create.log st)%list /\
  fst (Create.create answer st) = forallb (Create.succeeds answer) Create.steps.
Proof.
  cbv zeta. split; [apply create_attempted |].
  unfold Create.create, Create.try_block, Create.steps.
  unfold Create.require, Create.bind, Create.call, Create.logged,
    Create.succeeds, forallb.
  each_answer answer; split; reflexivity.
Qed.

Ltac pick_member := repeat first [left; reflexivity | right].

Lemma tried_dependencies (answer : Create.Step -> Create.Answer) p :
  In (Create.Link p) (Create.tried answer Create.steps) ->
  exists srcs,
    In (Create.Compile p srcs) (Create.tried answer Create.steps) /\
    answer (Create.Compile p srcs) = Create.Returns true /\
    forall src,
      In src srcs ->
      exists name,
        In (Create.MakeShaderSource name src) (Create.tried answer Create.steps) /\
        answer (Create.MakeShaderSource name src) = Create.Returns true.
Proof.
  unfold Create.steps, Create.tried, Create.succeeds.
  each_answer answer;
    intros Hin; cbn [In] in Hin;
    repeat (destruct Hin as [Hin | Hin]; [try discriminate Hin |]);
    try contradiction;
    injection Hin as <-;
    (eexists; split; [cbn [In]; pick_member | split; [eassumption |]]);
    intros src Hs; cbn [In] in Hs;
    repeat (destruct Hs as [Hs | Hs]; [subst src |]); try contradiction;
    (eexists; split; [cbn [In]; pick_member | eassumption]).
Qed.

(** X21.  A program is linked only after its compilation returned [true],
    and compiled only from sources the factory delivered: whenever
    [create] calls [Link] on a program it has called [Compile] on that
    program before, with [true] for an answer, and for each source
    given to that [Compile] the factory had returned [true]. *)
Theorem create_links_what_compiled (answer : Create.Step -> Create.Answer) st p :
  let st' := snd (Create.create answer st) in
  In (Create.Link p) (Create.attempted st') ->
  In (Create.Link p) (Create.attempted st) \/
  exists srcs,
    In (Create.Compile p srcs) (Create.attempted st') /\
    answer (Create.Compile p srcs) = Create.Returns true /\
    forall src,
      In src srcs ->
      exists name,
        In (Create.MakeShaderSource name src) (Create.attempted st') /\
        answer (Create.MakeShaderSource name src) = Create.Returns true.
Proof.
  cbv zeta. rewrite create_attempted. intros Hin.
  apply in_app_or in Hin. destruct Hin as [Hin | Hin]; [| left; exact Hin].
  right. apply in_rev in Hin.
  destruct (tried_dependencies answer p Hin) as (srcs & Hc & Ha & Hs).
  exists srcs. repeat apply conj.
  - apply in_or_app. left. now apply in_rev in Hc.
  - exact Ha.
  - intros src Hsrc. destruct (Hs src Hsrc) as (name & Hm & Hn).
    exists name. split; [| exact Hn].
    apply in_or_app. left. now apply in_rev in Hm.
Qed.

Lemma create_links_what_compiled_witness :
  let answer := fun s : Create.Step =>
                  match s with
                  | Create.Link GL.m_render_to_framebuffer_shdr =>
                      Create.Throws Create.OtherException
                  | _ => Create.Returns true
                  end in
  let st := {| Create.attempted := []; Create.log := [] |} in
  let st' := snd (Create.create answer st) in
  In (Create.Link GL.m_render_to_framebuffer_shdr) (Create.attempted st) \/
  exists srcs,
    In (Create.Compile GL.m_render_to_framebuffer_shdr srcs) (Create.attempted st') /\
    answer (Create.Compile GL.m_render_to_framebuffer_shdr srcs) = Create.Returns true /\
    forall src,
      In src srcs ->
      exists name,
        In (Create.MakeShaderSource name src) (Create.attempted st') /\
        answer (Create.MakeShaderSource name src) = Create.Returns true.
Proof.
  intros answer st.
  apply (create_links_what_compiled answer st GL.m_render_to_framebuffer_shdr).
  vm_compute. left. reflexivity.
Defined.


(** ** The extents *)

Section ExtentsFacts.

Variable Box : Type.
Variable Union : Box -> Box -> Box.

(** X22.  A call of [GetExtents] that returns [false] has not touched the
    bounding boxes of the incoming call.  It has not asked for the
    metadata unless the extents were delivered, and has left the call
    of the chained renderer alone unless both were.  Yet the failure is
    not without effect: when it is the chained renderer that refuses,
    the incoming call already carries the frame count of the data. *)
Theorem GetExtents_failure cd ci (w : Extents.World Box) :
  let w' := snd (Extents.GetExtents Union cd ci w) in
  fst (Extents.GetExtents Union cd ci w) = false ->
  Extents.AccessBoundingBoxes (Extents.cr w')
  = Extents.AccessBoundingBoxes (Extents.cr w) /\
  Extents.Time (Extents.cr w') = Extents.Time (Extents.cr w) /\
  match cd with
  | None => w' = w
  | Some source =>
      let data := source (Extents.Time (Extents.cr w)) in
      let asked idx := (Extents.Time (Extents.cr w), idx) in
      if negb (Extents.get_extents_ok data) then
        Extents.requests w' = asked IDX_GET_EXTENTS :: Extents.requests w /\
        Extents.cr w' = Extents.cr w /\
        Extents.ci_call w' = Extents.ci_call w
      else if negb (Extents.get_metadata_ok data) then
        Extents.requests w' =
          asked IDX_GET_METADATA :: asked IDX_GET_EXTENTS :: Extents.requests w /\
        Extents.cr w' = Extents.cr w /\
        Extents.ci_call w' = Extents.ci_call w
      else
        exists FnGetExtents,
          ci = Some FnGetExtents /\
          Extents.TimeFramesCount (Extents.cr w') = Extents.FrameCount data /\
          Extents.ci_call w' =
            Some (snd (FnGetExtents
                         (Extents.SetTimeFramesCount (Extents.FrameCount data)
                            (Extents.cr w))))
  end.
Proof.
  cbv zeta. unfold Extents.GetExtents.
  destruct cd as [source |]; [| intros _; repeat split].
  destruct (Extents.get_extents_ok (source (Extents.Time (Extents.cr w))));
    cbn [negb]; [| intros _; repeat split].
  destruct (Extents.get_metadata_ok (source (Extents.Time (Extents.cr w))));
    cbn [negb]; [| intros _; repeat split].
  destruct ci as [fn |]; cbn [fst snd Extents.cr Extents.set_cr Extents.request].
  - destruct (fn _) as [[|] c] eqn:E; cbn [negb fst snd]; [discriminate |].
    intros _. repeat split. exists fn. rewrite E. repeat split.
  - discriminate.
Qed.

(** X23.  [GetExtents] returns [true] exactly when the data source is
    connected and delivers extents and metadata and the chained
    renderer, if there is one, delivers its extents too.  The incoming
    call then carries the frame count of the data and, for each of the
    two boxes, the box of the data alone or its union with the box of
    the chained renderer, which was handed the incoming call with the
    frame count already set. *)
Theorem GetExtents_success cd ci (w : Extents.World Box) :
  let w' := snd (Extents.GetExtents Union cd ci w) in
  fst (Extents.GetExtents Union cd ci w) = true <->
  exists source,
    cd = Some source /\
    let data := source (Extents.Time (Extents.cr w)) in
    let handed :=
      Extents.SetTimeFramesCount (Extents.FrameCount data) (Extents.cr w) in
    Extents.get_extents_ok data = true /\
    Extents.get_metadata_ok data = true /\
    Extents.TimeFramesCount (Extents.cr w') = Extents.FrameCount data /\
    Extents.Time (Extents.cr w') = Extents.Time (Extents.cr w) /\
    match ci with
    | None =>
        Extents.AccessBoundingBoxes (Extents.cr w') =
          {| Extents.BoundingBox := Extents.ObjectSpaceBBox data;
             Extents.ClipBox := Extents.ObjectSpaceClipBox data |} /\
        Extents.ci_call w' = Extents.ci_call w
    | Some FnGetExtents =>
        let chained := Extents.AccessBoundingBoxes (snd (FnGetExtents handed)) in
        fst (FnGetExtents handed) = true /\
        Extents.AccessBoundingBoxes (Extents.cr w') =
          {| Extents.BoundingBox :=
               Union (Extents.ObjectSpaceBBox data) (Extents.BoundingBox chained);
             Extents.ClipBox :=
               Union (Extents.ObjectSpaceClipBox data) (Extents.ClipBox chained) |} /\
        Extents.ci_call w' = Some (snd (FnGetExtents handed))
    end.
Proof.
  cbv zeta. unfold Extents.GetExtents.
  destruct cd as [source |].
  2:{ split; [discriminate | intros (s & X & _); discriminate X]. }
  destruct (Extents.get_extents_ok (source (Extents.Time (Extents.cr w)))) eqn:E1;
    cbn [negb].
  2:{ split; [discriminate |].
      intros (s & X & Y & _). injection X as <-. rewrite E1 in Y. discriminate Y. }
  destruct (Extents.get_metadata_ok (source (Extents.Time (Extents.cr w)))) eqn:E2;
    cbn [negb].
  2:{ split; [discriminate |].
      intros (s & X & _ & Y & _). injection X as <-. rewrite E2 in Y.
      discriminate Y. }
  destruct ci as [fn |]; cbn [fst snd Extents.cr Extents.set_cr Extents.request].
  - destruct (fn _) as [[|] c] eqn:E; cbn [negb fst snd].
    + split; [intros _ | reflexivity].
      exists source. rewrite E, E1, E2. repeat split.
    + split; [discriminate |].
      intros (s & X & _ & _ & _ & _ & Y & _). injection X as <-.
      rewrite E in Y. discriminate Y.
  - split; [intros _ | reflexivity].
    exists source. rewrite E1, E2. repeat split.
Qed.

End ExtentsFacts.

Lemma GetExtents_failure_witness :
  let cd := Some (fun _ : Z =>
                    {| Extents.get_extents_ok := true;
                       Extents.get_metadata_ok := true;
                       Extents.FrameCount := 10;
                       Extents.ObjectSpaceBBox := (0, 4);
                       Extents.ObjectSpaceClipBox := (0, 4) |}) in
  let ci := Some (fun c : Extents.Call (Z * Z)%type => (false, c)) in
  let union := fun a b : (Z * Z)%type => (Z.min (fst a) (fst b), Z.max (snd a) (snd b)) in
  let w := {| Extents.cr :=
                {| Extents.Time := 3; Extents.TimeFramesCount := 1;
                   Extents.AccessBoundingBoxes :=
                     {| Extents.BoundingBox := (0, 0); Extents.ClipBox := (0, 0) |} |};
              Extents.requests := []; Extents.ci_call := None |} in
  let w' := snd (Extents.GetExtents union cd ci w) in
  Extents.AccessBoundingBoxes (Extents.cr w')
  = Extents.AccessBoundingBoxes (Extents.cr w) /\
  Extents.Time (Extents.cr w') = Extents.Time (Extents.cr w) /\
  match cd with
  | None => w' = w
  | Some source =>
      let data := source (Extents.Time (Extents.cr w)) in
      let asked idx := (Extents.Time (Extents.cr w), idx) in
      if negb (Extents.get_extents_ok data) then
        Extents.requests w' = asked IDX_GET_EXTENTS :: Extents.requests w /\
        Extents.cr w' = Extents.cr w /\
        Extents.ci_call w' = Extents.ci_call w
      else if negb (Extents.get_metadata_ok data) then
        Extents.requests w' =
          asked IDX_GET_METADATA :: asked IDX_GET_EXTENTS :: Extents.requests w /\
        Extents.cr w' = Extents.cr w /\
        Extents.ci_call w' = Extents.ci_call w
      else
        exists FnGetExtents,
          ci = Some FnGetExtents /\
          Extents.TimeFramesCount (Extents.cr w') = Extents.FrameCount data /\
          Extents.ci_call w' =
            Some (snd (FnGetExtents
                         (Extents.SetTimeFramesCount (Extents.FrameCount data)
                            (Extents.cr w))))
  end.
Proof.
  intros cd ci union w.
  apply (GetExtents_failure (Z * Z)%type union cd ci w).
  reflexivity.
Defined.
